(** * Vorentlastungshilfe: the vocabulary parser and the Omega dictionary lookup

    A shallow embedding of [src/ins4.py] (classes [OmegaWortschatz] and
    [VokabelPDFParser]) and of the earlier parser of [src/ja.py], with the
    properties of the headword resolution and of the entry segmentation. *)

From Stdlib Require Import Ascii String List NArith ZArith Bool Lia Permutation.
Import ListNotations.

Local Open Scope N_scope.

(** ** Python strings

    A Python [str] is a sequence of Unicode code points.  The literals of the
    source are written as UTF-8 string literals and decoded by [U]. *)

Definition str := list N.

Fixpoint utf8_go (need : nat) (acc : N) (s : string) : str :=
  match s with
  | EmptyString => []
  | String a r =>
      let b := N_of_ascii a in
      match need with
      | O =>
          if b <? 128 then b :: utf8_go 0 0 r
          else if b <? 224 then utf8_go 1 (b - 192) r
          else if b <? 240 then utf8_go 2 (b - 224) r
          else utf8_go 3 (b - 240) r
      | S O => (acc * 64 + (b - 128)) :: utf8_go 0 0 r
      | S n => utf8_go n (acc * 64 + (b - 128)) r
      end
  end.

Definition U (s : string) : str := utf8_go 0 0 s.

(** A one-character literal. *)
Definition ch (s : string) : N := hd 0 (U s).

Fixpoint str_eqb (s t : str) : bool :=
  match s, t with
  | [], [] => true
  | x :: s', y :: t' => (x =? y) && str_eqb s' t'
  | _, _ => false
  end.

(** [x in xs] for a list or a set of strings. *)
Definition str_in (x : str) (xs : list str) : bool := existsb (str_eqb x) xs.

(** [str.isspace] for one character: the code points that [str.strip]
    removes (Unicode 14, as shipped with CPython 3.11). *)
Definition isspace (x : N) : bool :=
  ((0x09 <=? x) && (x <=? 0x0D)) || ((0x1C <=? x) && (x <=? 0x20))
  || (x =? 0x85) || (x =? 0xA0) || (x =? 0x1680)
  || ((0x2000 <=? x) && (x <=? 0x200A))
  || (x =? 0x2028) || (x =? 0x2029) || (x =? 0x202F) || (x =? 0x205F)
  || (x =? 0x3000).

Fixpoint lstrip (s : str) : str :=
  match s with
  | [] => []
  | x :: r => if isspace x then lstrip r else s
  end.

Definition rstrip (s : str) : str := rev (lstrip (rev s)).

(** [s.strip()] *)
Definition strip (s : str) : str := rstrip (lstrip s).

(** [s.split(sep)] for a one-character separator. *)
Fixpoint split (sep : N) (s : str) : list str :=
  match s with
  | [] => [[]]
  | x :: r =>
      if x =? sep then [] :: split sep r
      else match split sep r with
           | [] => [[x]]
           | w :: ws => (x :: w) :: ws
           end
  end.

(** [needle in s] for strings. *)
Fixpoint startswith (p s : str) : bool :=
  match p, s with
  | [], _ => true
  | x :: p', y :: s' => (x =? y) && startswith p' s'
  | _ :: _, [] => false
  end.

Fixpoint contains (needle s : str) : bool :=
  startswith needle s ||
  match s with
  | [] => false
  | _ :: r => contains needle r
  end.


(** ** Python dictionaries

    A [dict] keeps its keys unique and iterates in insertion order; assigning
    to a key that is present replaces the value and keeps the position. *)

Definition dict (V : Type) := list (str * V).

Fixpoint dict_get {V} (d : dict V) (k : str) : option V :=
  match d with
  | [] => None
  | (k', v) :: r => if str_eqb k k' then Some v else dict_get r k
  end.

(** [k in d] *)
Definition dict_mem {V} (d : dict V) (k : str) : bool :=
  match dict_get d k with Some _ => true | None => false end.

(** [d[k] = v] *)
Fixpoint dict_set {V} (d : dict V) (k : str) (v : V) : dict V :=
  match d with
  | [] => [(k, v)]
  | (k', v') :: r =>
      if str_eqb k k' then (k', v) :: r else (k', v') :: dict_set r k v
  end.

(** [d.update({k1: v1, ...})] *)
Definition dict_update {V} (d : dict V) (items : list (str * V)) : dict V :=
  fold_left (fun d kv => dict_set d (fst kv) (snd kv)) items d.

(** The dict display [{k1: v1, ...}]. *)
Definition dict_literal {V} (items : list (str * V)) : dict V :=
  dict_update [] items.

(** [for key in d] *)
Definition dict_keys {V} (d : dict V) : list str := map fst d.

(** ** The two regular expressions of the parser *)

(** The zero digits of the decimal-digit blocks (category Nd) that [\d]
    matches on a [str]; each block holds the ten digits in order. *)
Definition decimal_zeros : list N :=
  [0x30; 0x660; 0x6f0; 0x7c0; 0x966; 0x9e6; 0xa66; 0xae6; 0xb66; 0xbe6;
   0xc66; 0xce6; 0xd66; 0xde6; 0xe50; 0xed0; 0xf20; 0x1040; 0x1090; 0x17e0;
   0x1810; 0x1946; 0x19d0; 0x1a80; 0x1a90; 0x1b50; 0x1bb0; 0x1c40; 0x1c50;
   0xa620; 0xa8d0; 0xa900; 0xa9d0; 0xa9f0; 0xaa50; 0xabf0; 0xff10; 0x104a0;
   0x10d30; 0x11066; 0x110f0; 0x11136; 0x111d0; 0x112f0; 0x11450; 0x114d0;
   0x11650; 0x116c0; 0x11730; 0x118e0; 0x11950; 0x11c50; 0x11d50; 0x11da0;
   0x16a60; 0x16ac0; 0x16b50; 0x1d7ce; 0x1d7d8; 0x1d7e2; 0x1d7ec; 0x1d7f6;
   0x1e140; 0x1e2f0; 0x1e950; 0x1fbf0].

(** The value of a decimal digit, [None] for any other character. *)
Definition digit_value (x : N) : option N :=
  match find (fun z => (z <=? x) && (x <=? z + 9)) decimal_zeros with
  | Some z => Some (x - z)
  | None => None
  end.

Definition isdigit (x : N) : bool :=
  match digit_value x with Some _ => true | None => false end.

(** The longest prefix of digits and what follows it. *)
Fixpoint span_digits (s : str) : str * str :=
  match s with
  | [] => ([], [])
  | x :: r =>
      if isdigit x then let '(ds, tl) := span_digits r in (x :: ds, tl)
      else ([], s)
  end.

(** [re.match(r'^(\d+)', line)]: the group and [line[num_match.end():]]. *)
Definition match_number (line : str) : option (str * str) :=
  match span_digits line with
  | ([], _) => None
  | (ds, tl) => Some (ds, tl)
  end.

(** [int(s)] on a string of decimal digits (Python integers are unbounded;
    the interpreter's optional cap on the length of such a string is a
    run-time setting and is not part of the program). *)
Definition int (s : str) : Z :=
  fold_left
    (fun acc x =>
       (10 * acc + Z.of_N (match digit_value x with Some v => v | None => 0 end))%Z)
    s 0%Z.

(** The class [[Ͱ-Ͽἀ-῿]]. *)
Definition is_greek (x : N) : bool :=
  ((0x0370 <=? x) && (x <=? 0x03FF)) || ((0x1F00 <=? x) && (x <=? 0x1FFF)).

(** The run that starts the string (empty when the string starts with another
    character) and the runs after it. *)
Fixpoint greek_scan (s : str) : str * list str :=
  match s with
  | [] => ([], [])
  | x :: r =>
      let '(cur, later) := greek_scan r in
      if is_greek x then (x :: cur, later)
      else ([], match cur with [] => later | _ => cur :: later end)
  end.

(** [re.findall(greek_pattern, s)]: the maximal runs of Greek characters. *)
Definition findall_greek (s : str) : list str :=
  let '(cur, later) := greek_scan s in
  match cur with [] => later | _ => cur :: later end.

(** ** The data model ([VokabelEintrag]) *)

Record VokabelEintrag := {
  main_num : Z;
  sub_num : Z;
  griechisch : str;
  stammformen : str;
  bedeutungen : list str;
  gefunden : bool;
  original_zeile : str
}.

(** ** [OmegaWortschatz] *)

Record OmegaWortschatz := {
  vocab_dict : dict (str * str * str);
  synonyme : dict str
}.

Definition vocab_alpha : list (str * (str * str * str)) :=
  [(U "ἀγαθός", (U "gut, anständig", U "ἀγαθός, ή, όν", U "3 Steigerungsreihen: 1) ἀμείνων/ἄμεινον, ἄριστος; 2) κρείττων/κρεῖττον, κράτιστος; 3) βελτίων/βέλτιον, βέλτιστος. τὸ ἀγαθόν - das Gute; τὰ ἀγαθά - die Güter"));
   (U "ἀγανακτέω", (U "sich ärgern, unwillig sein", U "ἀγανακτέω", []));
   (U "ἀγγέλλω", (U "melden, berichten", U "ἀγγέλλω, ἀγγελῶ, ἤγγειλα, ἤγγελκα, ἤγγελμαι, ἤγγελθην", []));
   (U "ἄγγελος", (U "Bote", U "ἄγγελος, ου, ὁ", []));
   (U "ἀγνοέω", (U "nicht wissen, nicht kennen", U "ἀγνοέω", []));
   (U "ἀγορά", (U "Marktplatz, Versammlung", U "ἀγορά, ᾶς, ἡ", []));
   (U "ἀγρός", (U "Acker, Feld", U "ἀγρός, οῦ, ὁ", []));
   (U "ἄγω", (U "führen, treiben; ziehen, marschieren", U "ἄγω, ἄξω, ἤγαγον, ἦχα, ἤγμαι, ἤχθην", []));
   (U "ἀγών", (U "Wettkampf, Kampf; Prozess", U "ἀγών, ῶνος, ὁ", []));
   (U "ἀδελφός", (U "Bruder", U "ἀδελφός, οῦ, ὁ", []));
   (U "ἀδικέω", (U "Unrecht tun", U "ἀδικέω, ἀδικήσω, ἠδίκησα, ἠδίκηκα, ἠδίκημαι, ἠδικήθην", []));
   (U "ἀδικία", (U "Unrecht, Ungerechtigkeit", U "ἀδικία, ας, ἡ", []));
   (U "ἄδικος", (U "ungerecht, unrecht", U "ἄδικος, ον", []));
   (U "ἀδύνατος", (U "unfähig, machtlos; unmöglich", U "ἀδύνατος, ον", []));
   (U "ᾄδω", (U "singen, besingen", U "ᾄδω", []));
   (U "ἀεί", (U "immer; jeweils", U "ἀεί", []));
   (U "ἀθάνατος", (U "unsterblich", U "ἀθάνατος, ον", []));
   (U "ἄθλιος", (U "elend, unglücklich", U "ἄθλιος, α, ον", []));
   (U "ἄθλος", (U "Wettkampf; Mühe", U "ἄθλος, ου, ὁ", []));
   (U "αἰδέομαι", (U "scheuen, Ehrfurcht haben; respektieren", U "αἰδέομαι, αἰδέσομαι, ἠδέσθην", []));
   (U "αἰδώς", (U "Scham; Ehrfurcht", U "αἰδώς, όος, ἡ", []));
   (U "αἱρέω", (U "nehmen, ergreifen; zu Fall bringen; M. sich nehmen, wählen", U "αἱρέω, αἱρήσω, εἷλον, ᾕρηκα, ᾕρημαι, ἡρέθην", []));
   (U "αἴρω", (U "hochheben, aufheben; absegeln, aufbrechen", U "αἴρω, ἀρῶ, ἦρα, ἦρκα, ἦρμαι, ἦρθην", []));
   (U "αἰσθάνομαι", (U "wahrnehmen, merken", U "αἰσθάνομαι, αἰσθήσομαι, ᾐσθόμην, ᾔσθημαι", []));
   (U "αἰσχρός", (U "hässlich; schändlich", U "αἰσχρός, ά, όν", []));
   (U "αἰσχύνομαι", (U "sich schämen; respektieren", U "αἰσχύνομαι, αἰσχυνοῦμαι, ᾐσχύνθην, ᾔσχυμμαι", []));
   (U "αἰτέω", (U "fordern, verlangen", U "αἰτέω, αἰτήσω, ᾔτησα, ᾔτηκα, ᾔτημαι, ᾐτήθην", []));
   (U "αἰτία", (U "Grund, Ursache; Schuld", U "αἰτία, ας, ἡ", []));
   (U "αἴτιος", (U "schuld, schuldig; Urheber", U "αἴτιος, α, ον", []));
   (U "ἀκοή", (U "Gehör; Gerücht", U "ἀκοή, ῆς, ἡ", []));
   (U "ἀκολουθέω", (U "folgen", U "ἀκολουθέω", []));
   (U "ἀκούω", (U "hören", U "ἀκούω, ἀκούσομαι, ἤκουσα, ἀκήκοα, ἠκούσθην", []));
   (U "ἀκριβής", (U "sorgfältig, genau", U "ἀκριβής, ές", []));
   (U "ἄκων", (U "unfreiwillig, ungern", U "ἄκων, ἄκουσα, ἄκον", []));
   (U "ἀλήθεια", (U "Wahrheit", U "ἀλήθεια, ας, ἡ", []));
   (U "ἀληθής", (U "wahr, wahrhaftig", U "ἀληθής, ές", []));
   (U "ἀλίσκομαι", (U "gefangen werden; überführt werden", U "ἀλίσκομαι, ἁλώσομαι, ἑάλων, ἑάλωκα", []));
   (U "ἀλλά", (U "aber; sondern", U "ἀλλά", []));
   (U "ἀλλήλων", (U "einander, gegenseitig", U "ἀλλήλων, -οις/-αις, -ους/-ας/-α", []));
   (U "ἄλλος", (U "ein anderer", U "ἄλλος, η, ο", []));
   (U "ἅμα", (U "zugleich; zusammen mit; während", U "ἅμα", []));
   (U "ἀμαθής", (U "ungebildet, unwissend", U "ἀμαθής, ές", []));
   (U "ἁμαρτάνω", (U "verfehlen, falsch machen; sündigen", U "ἁμαρτάνω, ἁμαρτήσομαι, ἥμαρτον, ἡμάρτηκα, ἡμάρτημαι, ἡμαρτήθην", []));
   (U "ἁμαρτία", (U "Fehler, Verfehlung", U "ἁμαρτία, ας, ἡ", []));
   (U "ἀμελέω", (U "sich nicht kümmern; vernachlässigen", U "ἀμελέω", []));
   (U "ἀμύνω", (U "abwehren, fernhalten; helfen; M. sich verteidigen", U "ἀμύνω, ἀμυνῶ, ἤμυνα", []));
   (U "ἀμφί", (U "um...herum", U "ἀμφί", []));
   (U "ἀμφισβητέω", (U "bestreiten, sich streiten; behaupten", U "ἀμφισβητέω", []));
   (U "ἀμφότεροι", (U "beide", U "ἀμφότεροι, αι, α", []));
   (U "ἄν", (U "Modalpartikel", U "ἄν", U "Potentialis (Optativ), Irrealis (Ind. Impf./Aor.), Iterativ/Eventualis (Konjunktiv)"));
   (U "ἀνά", (U "über...hin; hinauf; während", U "ἀνά", []));
   (U "ἀναγιγνώσκω", (U "lesen, vorlesen", U "ἀναγιγνώσκω", []));
   (U "ἀναγκάζω", (U "zwingen", U "ἀναγκάζω", []));
   (U "ἀναγκαῖος", (U "notwendig", U "ἀναγκαῖος, α, ον", []));
   (U "ἀνάγκη", (U "Notwendigkeit, Zwang", U "ἀνάγκη, ης, ἡ", []));
   (U "ἀναλαμβάνω", (U "aufnehmen", U "ἀναλαμβάνω", []));
   (U "ἀναμιμνήσκω", (U "erinnern; M. sich erinnern", U "ἀναμιμνήσκω", []));
   (U "ἀνδρεία", (U "Tapferkeit", U "ἀνδρεία, ας, ἡ", []));
   (U "ἀνδρεῖος", (U "tapfer", U "ἀνδρεῖος, α, ον", []));
   (U "ἄνευ", (U "ohne", U "ἄνευ", []));
   (U "ἀνήρ", (U "Mann", U "ἀνήρ, ἀνδρός, ὁ", []));
   (U "ἀνθρώπειος", (U "menschlich", U "ἀνθρώπειος, α, ον", []));
   (U "ἄνθρωπος", (U "Mensch", U "ἄνθρωπος, ου, ὁ", []));
   (U "ἀνίημι", (U "loslassen; nachlassen", U "ἀνίημι", []));
   (U "ἀνίστημι", (U "aufstellen; M. aufstehen, sich erheben", U "ἀνίστημι", []));
   (U "ἀνόητος", (U "unvernünftig", U "ἀνόητος, ον", []));
   (U "ἀνόσιος", (U "gottlos; unrecht", U "ἀνόσιος, α, ον", []));
   (U "ἀντί", (U "anstelle von", U "ἀντί", []));
   (U "ἄξιος", (U "würdig, wert; angemessen, richtig", U "ἄξιος, ία, ιον", []));
   (U "ἀξιόω", (U "für würdig halten; fordern; glauben", U "ἀξιόω, ἀξιώσω, ἠξίωσα, ἠξίωκα, ἠξίωμαι, ἠξιώθην", []));
   (U "ἀπαλλάττω", (U "entfernen; befreien", U "ἀπαλλάττω, ἀπαλλάξω, ἀπήλλαξα, ἀπήλλαχα, ἀπήλλαγμαι, ἀπηλλάχθην", []));
   (U "ἅπας", (U "all, ganz, jeder", U "ἅπας, ἅπασα, ἅπαν", []));
   (U "ἄπειμι", (U "weggehen", U "ἄπειμι", []));
   (U "ἀπιστέω", (U "nicht glauben; misstrauen", U "ἀπιστέω", []));
   (U "ἀπό", (U "von, seit", U "ἀπό", []));
   (U "ἀποδείκνυμι", (U "zeigen, darlegen, beweisen", U "ἀποδείκνυμι", []));
   (U "ἀποδέχομαι", (U "annehmen; aufnehmen", U "ἀποδέχομαι", []));
   (U "ἀποδιδράσκω", (U "weglaufen, entlaufen", U "ἀποδιδράσκω", []));
   (U "ἀποθνῄσκω", (U "sterben; tot sein", U "ἀποθνῄσκω, ἀποθανοῦμαι, ἀπέθανον, τέθνηκα", []));
   (U "ἀποκρίνομαι", (U "antworten", U "ἀποκρίνομαι, ἀποκρινοῦμαι, ἀπεκρινάμην, ἀπεκρίθην", []));
   (U "ἀπόκρισις", (U "Antwort", U "ἀπόκρισις, εως, ἡ", []));
   (U "ἀποκτείνω", (U "töten", U "ἀποκτείνω, ἀποκτενῶ, ἀπέκτεινα, ἀπέκτονα", []));
   (U "ἀπόλλυμι", (U "zugrunde richten; verlieren", U "ἀπόλλυμι, ἀπολῶ, ἀπώλεσα", U "Aor. M. ἀπωλόμην, Perf. ἀπολώλεκα/ἀπόλωλα"));
   (U "ἀπολογέομαι", (U "sich verteidigen", U "ἀπολογέομαι", []));
   (U "ἀπορία", (U "Ratlosigkeit; Mangel", U "ἀπορία, ας, ἡ", []));
   (U "ἀποφαίνω", (U "zeigen, darlegen", U "ἀποφαίνω", []));
   (U "ἅπτομαι", (U "berühren, anfassen; sich befassen mit", U "ἅπτομαι, ἅψομαι, ἡψάμην, ἧμμαι, ἥφθην", []));
   (U "ἄρα", (U "also, folglich", U "ἄρα", []));
   (U "ἆρα", (U "Fragepartikel", U "ἆρα", []));
   (U "ἀργύριον", (U "Silber, Geld", U "ἀργύριον, ου, τό", []));
   (U "ἀρετή", (U "Tüchtigkeit, Tugend; Tapferkeit; Leistung", U "ἀρετή, ῆς, ἡ", []));
   (U "ἀριθμός", (U "Zahl", U "ἀριθμός, οῦ, ὁ", []));
   (U "ἄριστος", (U "der beste, tüchtigste", U "ἄριστος, η, ον", U "Superlativ von ἀγαθός"));
   (U "ἀρκέω", (U "stark genug sein, genügen", U "ἀρκέω", []));
   (U "ἀρχαῖος", (U "alt, früher", U "ἀρχαῖος, α, ον", []));
   (U "ἀρχή", (U "Anfang; Herrschaft, Reich; Amt", U "ἀρχή, ῆς, ἡ", []));
   (U "ἄρχομαι", (U "anfangen", U "ἄρχομαι, ἄρξομαι, ἠρξάμην", []));
   (U "ἄρχω", (U "herrschen; den Anfang machen", U "ἄρχω, ἄρξω, ἦρξα, ἦργμαι, ἦρχθην", []));
   (U "ἄρχων", (U "Herrscher, Anführer; Archont", U "ἄρχων, οντος, ὁ", []));
   (U "ἀσθενής", (U "schwach, kraftlos; krank", U "ἀσθενής, ές", []));
   (U "ἀσκέω", (U "üben, ausüben", U "ἀσκέω", []));
   (U "ἄστρον", (U "Stern", U "ἄστρον, ου, τό", []));
   (U "ἄτε", (U "da, weil", U "ἄτε", U "objektiver Grund im Unterschied zu ὡς + Part."));
   (U "ἄτοπος", (U "unpassend, seltsam", U "ἄτοπος, ον", []));
   (U "αὖ", (U "wieder; wiederum", U "αὖ, αὖθις", []));
   (U "αὐτίκα", (U "sofort", U "αὐτίκα", []));
   (U "αὐτός", (U "selbst; derselbe", U "αὐτός, ή, ό", U "Personalpronomen der 3.Ps."));
   (U "αὐτοῦ", (U "ebendort", U "αὐτοῦ", []));
   (U "ἀφαιρέω", (U "wegnehmen", U "ἀφαιρέω, ἀφαιρήσω, ἀφεῖλον, ἀφήρηκα, ἀφήρημαι, ἀφηρέθην", []));
   (U "ἀφίημι", (U "losschicken; freilassen", U "ἀφίημι, ἀφήσω, ἀφῆκα, ἀφεῖκα, ἀφεῖμαι, ἀφείθην", []));
   (U "ἀφικνέομαι", (U "ankommen", U "ἀφικνέομαι, ἀφίξομαι, ἀφικόμην, ἀφῖγμαι", []));
   (U "ἄφρων", (U "unvernünftig", U "ἄφρων, ον", []));
   (U "ἄχθομαι", (U "unwillig sein, sich ärgern", U "ἄχθομαι", []))].

Definition vocab_beta : list (str * (str * str * str)) :=
  [(U "βαίνω", (U "gehen", U "βαίνω, βήσομαι, ἔβην, βέβηκα", []));
   (U "βάλλω", (U "werfen; treffen", U "βάλλω, βαλῶ, ἔβαλον, βέβληκα, βέβλημαι, ἐβλήθην", []));
   (U "βάρβαρος", (U "nichtgriechisch", U "βάρβαρος, ον", []));
   (U "βασιλεύς", (U "König", U "βασιλεύς, έως, ὁ", []));
   (U "βέβαιος", (U "fest, beständig, zuverlässig", U "βέβαιος, α, ον", []));
   (U "βελτίων", (U "besser", U "βελτίων, βέλτιον", U "Komp. zu ἀγαθός, Superl. βέλτιστος"));
   (U "βιάζομαι", (U "zwingen, überwältigen", U "βιάζομαι", []));
   (U "βιβλίον", (U "Buch", U "βιβλίον, ου, τό", []));
   (U "βίος", (U "Leben; Lebensunterhalt", U "βίος, ου, ὁ", []));
   (U "βιόω", (U "leben", U "βιόω, βιώσομαι, ἐβίων, βεβίωκα", []));
   (U "βλάπτω", (U "schädigen, schaden", U "βλάπτω, βλάψω, ἔβλαψα, βέβλαφα, βέβλαμμαι, ἐβλάβην", []));
   (U "βλέπω", (U "blicken, sehen", U "βλέπω, βλέψομαι, ἔβλεψα", []));
   (U "βοηθέω", (U "helfen", U "βοηθέω, βοηθήσω, ἐβοήθησα, βεβοήθηκα", []));
   (U "βουλεύω", (U "beraten, überlegen; beschließen", U "βουλεύω, βουλεύσω, ἐβούλευσα, βεβούλευκα, βεβούλευμαι, ἐβουλεύθην", []));
   (U "βουλή", (U "Plan, Rat, Absicht; Ratsversammlung", U "βουλή, ῆς, ἡ", []));
   (U "βούλομαι", (U "wollen", U "βούλομαι, βουλήσομαι, βεβούλημαι, ἐβουλήθην", []));
   (U "βοῦς", (U "Rind, Kuh", U "βοῦς, βοός, ὁ/ἡ", []));
   (U "βροτός", (U "sterblich", U "βροτός, ή, όν", []))].

Definition vocab_gamma : list (str * (str * str * str)) :=
  [(U "γάμος", (U "Hochzeit, Ehe", U "γάμος, ου, ὁ", []));
   (U "γάρ", (U "denn, nämlich", U "γάρ", []));
   (U "γε", (U "jedenfalls; wenigstens", U "γε", U "häufig unübersetzt"));
   (U "γελάω", (U "lachen; auslachen", U "γελάω, γελάσομαι, ἐγέλασα", []));
   (U "γενναῖος", (U "edel, adlig; tüchtig; echt", U "γενναῖος, α, ον", []));
   (U "γένος", (U "Geschlecht, Gattung, Abstammung", U "γένος, ους, τό", []));
   (U "γέρων", (U "alter Mann, Greis", U "γέρων, οντος, ὁ", []));
   (U "γεωργός", (U "Bauer", U "γεωργός, οῦ, ὁ", []));
   (U "γῆ", (U "Erde; Land", U "γῆ, γῆς, ἡ", []));
   (U "γίγνομαι", (U "werden; entstehen; geschehen", U "γίγνομαι, γενήσομαι, ἐγενόμην, γέγονα/γεγένημαι", []));
   (U "γιγνώσκω", (U "erkennen, kennen", U "γιγνώσκω, γνώσομαι, ἔγνων, ἔγνωκα, ἔγνωσμαι, ἐγνώσθην", []));
   (U "γλυκύς", (U "süß, lieb", U "γλυκύς, εῖα, ύ", []));
   (U "γλῶττα", (U "Zunge; Sprache", U "γλῶττα, ης, ἡ", []));
   (U "γνώμη", (U "Verstand, Einsicht; Gesinnung, Meinung", U "γνώμη, ης, ἡ", []));
   (U "γοῦν", (U "jedenfalls, wenigstens", U "γοῦν", []));
   (U "γράμμα", (U "Buchstabe; Schrift; Wissenschaft", U "γράμμα, ατος, τό", U "τὰ γράμματα - Literatur, Wissenschaften"));
   (U "γράφω", (U "schreiben", U "γράφω, γράψω, ἔγραψα, γέγραφα, γέγραμμαι, ἐγράφην", U "γραφὴν γράφομαι - anklagen"));
   (U "γυμνάζω", (U "üben, trainieren", U "γυμνάζω", []));
   (U "γυμνός", (U "nackt; unbewaffnet", U "γυμνός, ή, όν", []));
   (U "γυνή", (U "Frau", U "γυνή, γυναικός, ἡ", []))].

Definition vocab_delta : list (str * (str * str * str)) :=
  [(U "δαιμόνιον", (U "göttliches Wesen, göttliche Stimme", U "δαιμόνιον, ου, τό", []));
   (U "δαίμων", (U "Gottheit; Götterwille", U "δαίμων, ονος, ὁ/ἡ", []));
   (U "δέ", (U "aber; und", U "δέ", []));
   (U "δέδοικα", (U "fürchten", U "δέδοικα/δέδια, δείσομαι, ἔδεισα", U "Perfekt mit Präsensbedeutung"));
   (U "δεῖ", (U "es ist nötig; man muss", U "δεῖ, δεήσει, ἔδει", U "verneint: man darf nicht"));
   (U "δείκνυμι", (U "zeigen; nachweisen", U "δείκνυμι, δείξω, ἔδειξα, δέδειχα, δέδειγμαι, ἐδείχθην", []));
   (U "δειλός", (U "furchtsam, feige; elend", U "δειλός, ή, όν", []));
   (U "δεινός", (U "gewaltig; furchtbar; tüchtig", U "δεινός, ή, όν", []));
   (U "δεῖπνον", (U "Mahlzeit, Abendessen", U "δεῖπνον, ου, τό", []));
   (U "δέκα", (U "zehn", U "δέκα", []));
   (U "δένδρον", (U "Baum", U "δένδρον, ου, τό", []));
   (U "δέομαι", (U "bedürfen, nötig haben; bitten", U "δέομαι, δεήσομαι, ἐδεήθην", U "δέομαί τινος τί - jdn. um etw. bitten"));
   (U "δέον", (U "da es nötig ist", U "δέον", U "τὸ δέον/τὰ δέοντα - das Nötige"));
   (U "δεσπότης", (U "Herr, Herrscher", U "δεσπότης, ου, ὁ", []));
   (U "δεῦρο", (U "hierher", U "δεῦρο", []));
   (U "δεύτερος", (U "der zweite", U "δεύτερος, α, ον", []));
   (U "δέχομαι", (U "annehmen, aufnehmen", U "δέχομαι, δέξομαι, ἐδεξάμην, δέδεγμαι, ἐδέχθην", []));
   (U "δέω", (U "fesseln, binden", U "δέω", []));
   (U "δή", (U "also, wirklich", U "δή", U "oft zur Verstärkung"));
   (U "δῆλος", (U "offensichtlich, klar", U "δῆλος, η, ον", []));
   (U "δηλόω", (U "klar machen, zeigen", U "δηλόω, δηλώσω, ἐδήλωσα, δεδήλωκα, ἐδηλώθην", []));
   (U "δημιουργός", (U "Handwerker; Schöpfer", U "δημιουργός, οῦ, ὁ", []));
   (U "δῆμος", (U "Gemeinde; Volk", U "δῆμος, ου, ὁ", []));
   (U "δημόσιος", (U "staatlich, öffentlich", U "δημόσιος, α, ον", U "δημοσίᾳ - öffentlich, Ggs. ἰδίᾳ"));
   (U "δήπου", (U "doch wohl, sicherlich", U "δήπου", []));
   (U "δῆτα", (U "bestimmt, durchaus", U "δῆτα", []));
   (U "διά", (U "durch (+Gen.); wegen (+Akk.)", U "διά", U "διὰ τί - weshalb; διὰ τοῦτο - deshalb"));
   (U "διαβάλλω", (U "verleumden", U "διαβάλλω", []));
   (U "διαλέγομαι", (U "sich unterhalten", U "διαλέγομαι, διαλέξομαι, διελέχθην, διείλεγμαι", []));
   (U "διανοέομαι", (U "denken, beabsichtigen", U "διανοέομαι", []));
   (U "διαφέρω", (U "sich unterscheiden", U "διαφέρω, διοίσω, διήνεγκον, διενήνοχα, διενήνεγμαι", U "διαφέρει - es macht einen Unterschied"));
   (U "διαφθείρω", (U "verderben, vernichten", U "διαφθείρω, διαφθερῶ, διέφθειρα, διέφθαρκα, διέφθαρμαι, διεφθάρην", []));
   (U "διδάσκαλος", (U "Lehrer", U "διδάσκαλος, ου, ὁ", []));
   (U "διδάσκω", (U "lehren, unterrichten", U "διδάσκω, διδάξω, ἐδίδαξα, δεδίδαχα, δεδίδαγμαι, ἐδιδάχθην", []));
   (U "δίδωμι", (U "geben", U "δίδωμι, δώσω, ἔδωκα, δέδωκα, δέδομαι, ἐδόθην", U "δίκην δίδωμι - bestraft werden"));
   (U "διέρχομαι", (U "hindurchgehen; erörtern", U "διέρχομαι", []));
   (U "δικάζω", (U "Recht sprechen, urteilen", U "δικάζω", U "δικάζομαι - prozessieren"));
   (U "δίκαιος", (U "gerecht, richtig", U "δίκαιος, ία, ιον", U "δικαιός εἰμι + Inf. - berechtigt sein"));
   (U "δικαιοσύνη", (U "Gerechtigkeit", U "δικαιοσύνη, ης, ἡ", []));
   (U "δικαιόω", (U "für recht halten, fordern", U "δικαιόω", []));
   (U "δικαστήριον", (U "Gericht", U "δικαστήριον, ου, τό", []));
   (U "δικαστής", (U "Richter", U "δικαστής, οῦ, ὁ", []));
   (U "δίκη", (U "Recht, Gerechtigkeit; Prozess, Strafe", U "δίκη, ης, ἡ", U "δίκην δίδωμι - bestraft werden"));
   (U "διό", (U "deshalb", U "διό", []));
   (U "διώκω", (U "verfolgen; anklagen", U "διώκω, διώξομαι, ἐδίωξα, δεδίωχα, δεδίωγμαι, ἐδιώχθην", []));
   (U "δοκέω", (U "scheinen; meinen, glauben", U "δοκέω, δόξω, ἔδοξα", U "δοκεῖ μοι - ich beschließe"));
   (U "δόξα", (U "Meinung; Schein; Ruf", U "δόξα, ης, ἡ", []));
   (U "δοξάζω", (U "meinen", U "δοξάζω", []));
   (U "δοῦλος", (U "Sklave, Knecht", U "δοῦλος, ου, ὁ", []));
   (U "δράω", (U "tun, handeln", U "δράω, δράσω, ἔδρασα, δέδρακα, δέδραμαι, ἐδράσθην", []));
   (U "δύναμαι", (U "können, vermögen; bedeuten", U "δύναμαι, δυνήσομαι, ἐδυνήθην, δεδύνημαι", []));
   (U "δύναμις", (U "Kraft, Macht, Fähigkeit", U "δύναμις, εως, ἡ", []));
   (U "δυνατός", (U "fähig; mächtig; möglich", U "δυνατός, ή, όν", []));
   (U "δύο", (U "zwei", U "δύο", []));
   (U "δῶρον", (U "Geschenk, Gabe", U "δῶρον, ου, τό", []))].

Definition vocab_epsilon : list (str * (str * str * str)) :=
  [(U "ἐάν", (U "wenn; immer wenn", U "ἐάν", []));
   (U "ἑαυτοῦ", (U "seiner/ihrer selbst, sich", U "ἑαυτοῦ, ἑαυτῆς, ἑαυτοῦ", U "Reflexivpronomen der 3.Ps."));
   (U "ἐάω", (U "lassen, zulassen", U "ἐάω, ἐάσω, εἴασα", []));
   (U "ἐγώ", (U "ich", U "ἐγώ, ἐμοῦ", []));
   (U "ἐθέλω", (U "wollen; bereit sein", U "ἐθέλω, ἐθελήσω, ἠθέλησα, ἠθέληκα", []));
   (U "ἔθνος", (U "Volk, Volksstamm", U "ἔθνος, ους, τό", []));
   (U "ἔθος", (U "Sitte; Gewohnheit", U "ἔθος, ους, τό", []));
   (U "εἰ", (U "wenn, falls; ob", U "εἰ", []));
   (U "εἰ γάρ", (U "wenn doch, hoffentlich", U "εἰ γάρ", []));
   (U "εἶδος", (U "Gestalt, Aussehen; Idee", U "εἶδος, ους, τό", []));
   (U "εἴδωλον", (U "Bild, Götterbild", U "εἴδωλον, ου, τό", []));
   (U "εἶεν", (U "nun gut", U "εἶεν", []));
   (U "εἶθε", (U "wenn doch, hoffentlich", U "εἶθε", []));
   (U "εἰκός", (U "Wahrscheinlichkeit; Angemessenheit", U "εἰκός, ότος, τό", U "εἰκός ἐστι - es ist wahrscheinlich/angemessen"));
   (U "εἰκών", (U "Bild; Statue", U "εἰκών, όνος, ἡ", []));
   (U "εἰμί", (U "sein", U "εἰμί, ἔσομαι, ἦν", U "ἔστιν - es gibt, es ist möglich"));
   (U "εἶμι", (U "gehen", U "εἶμι", U "Futur zu ἔρχομαι"));
   (U "εἶπερ", (U "wenn wirklich", U "εἶπερ", []));
   (U "εἰρήνη", (U "Friede", U "εἰρήνη, ης, ἡ", []));
   (U "εἷς", (U "einer", U "εἷς, μία, ἕν", []));
   (U "εἰς", (U "in...hinein; zu...hin", U "εἰς", []));
   (U "εἶτα", (U "da, dann; ferner", U "εἶτα", []));
   (U "εἴτε...εἴτε", (U "sei es... sei es", U "εἴτε...εἴτε", []));
   (U "εἴωθα", (U "gewohnt sein", U "εἴωθα", U "Perfekt mit Präsensbedeutung"));
   (U "ἐκ", (U "aus; seit; infolge von", U "ἐκ, ἐξ", []));
   (U "ἕκαστος", (U "jeder", U "ἕκαστος, ἑκάστη, ἕκαστον", []));
   (U "ἑκάστοτε", (U "jedesmal", U "ἑκάστοτε", []));
   (U "ἑκάτερος", (U "jeder von beiden", U "ἑκάτερος, ἑκατέρα, ἑκάτερον", []));
   (U "ἑκατόν", (U "hundert", U "ἑκατόν", []));
   (U "ἐκβάλλω", (U "hinauswerfen, vertreiben", U "ἐκβάλλω, ἐκβαλῶ, ἐξέβαλον, ἐκβέβληκα, ἐκβέβλημαι, ἐξεβλήθην", []));
   (U "ἐκεῖ", (U "dort", U "ἐκεῖ", []));
   (U "ἐκεῖνος", (U "jener", U "ἐκεῖνος, η, ο", []));
   (U "ἐκκλησία", (U "Volksversammlung; Kirche", U "ἐκκλησία, ας, ἡ", []));
   (U "ἐκπλήττω", (U "erschrecken", U "ἐκπλήττω", []));
   (U "ἑκών", (U "freiwillig, willentlich", U "ἑκών, ἑκοῦσα, ἑκόν", []));
   (U "ἐλάττων", (U "kleiner, geringer", U "ἐλάττων, ον", U "Komp. zu μικρός/ὀλίγος"));
   (U "ἐλαύνω", (U "treiben, marschieren", U "ἐλαύνω, ἐλῶ, ἤλασα, ἐλήλακα, ἐλήλαμαι, ἠλάθην", []));
   (U "ἐλέγχω", (U "prüfen; widerlegen", U "ἐλέγχω", []));
   (U "ἐλευθερία", (U "Freiheit", U "ἐλευθερία, ας, ἡ", []));
   (U "ἐλεύθερος", (U "frei", U "ἐλεύθερος, α, ον", []));
   (U "ἐλπίζω", (U "hoffen, erwarten", U "ἐλπίζω", []));
   (U "ἐλπίς", (U "Hoffnung, Erwartung", U "ἐλπίς, ίδος, ἡ", []));
   (U "ἐμαυτοῦ", (U "meiner selbst", U "ἐμαυτοῦ, ῆς, οῦ", U "Reflexivpronomen 1.Ps."));
   (U "ἐμός", (U "mein", U "ἐμός, ή, όν", []));
   (U "ἔμπειρος", (U "erfahren, kundig", U "ἔμπειρος, ον", []));
   (U "ἐμπίπτω", (U "hineinfallen, geraten in", U "ἐμπίπτω", []));
   (U "ἔμπροσθεν", (U "vorne; früher", U "ἔμπροσθεν", []));
   (U "ἐν", (U "in, an, auf, bei; während", U "ἐν", []));
   (U "ἐν ᾧ", (U "während", U "ἐν ᾧ", []));
   (U "ἐναντίος", (U "gegenüber; entgegengesetzt", U "ἐναντίος, α, ον", U "ὁ ἐναντίος - Gegner"));
   (U "ἔνεκα", (U "wegen; um...willen", U "ἔνεκα", []));
   (U "ἔνθα", (U "da, dort", U "ἔνθα", []));
   (U "ἐνθάδε", (U "hier", U "ἐνθάδε", []));
   (U "ἐνθυμέομαι", (U "bedenken, überlegen", U "ἐνθυμέομαι", []));
   (U "ἔνιοι", (U "einige", U "ἔνιοι, αι, α", []));
   (U "ἐνίοτε", (U "manchmal", U "ἐνίοτε", []));
   (U "ἐννοέω", (U "bedenken; begreifen", U "ἐννοέω", []));
   (U "ἐνταῦθα", (U "hier; dort", U "ἐνταῦθα", []));
   (U "ἐντυγχάνω", (U "treffen auf, geraten in", U "ἐντυγχάνω, ἐντεύξομαι, ἐνέτυχον, ἐντετύχηκα", []));
   (U "ἕξ", (U "sechs", U "ἕξ", []));
   (U "ἐξ οὗ", (U "seitdem", U "ἐξ οὗ", []));
   (U "ἔξεστι", (U "es ist möglich; es ist erlaubt", U "ἔξεστι", []));
   (U "ἐξετάζω", (U "untersuchen, prüfen", U "ἐξετάζω", []));
   (U "ἔοικα", (U "scheinen; gleichen", U "ἔοικα", U "Perfekt mit Präsensbedeutung"));
   (U "ἐπαγγέλλομαι", (U "ankündigen; angeben", U "ἐπαγγέλλομαι", []));
   (U "ἐπαινέω", (U "loben", U "ἐπαινέω", []));
   (U "ἔπαινος", (U "Lob", U "ἔπαινος, ου, ὁ", []));
   (U "ἐπεί", (U "als, nachdem; da, weil", U "ἐπεί", []));
   (U "ἐπειδή", (U "als, nachdem; da, weil", U "ἐπειδή", []));
   (U "ἔπειμι", (U "hingehen; angreifen", U "ἔπειμι", []));
   (U "ἔπειτα", (U "dann, darauf", U "ἔπειτα", []));
   (U "ἐπί", (U "auf (+Gen.); bei (+Dat.); zu (+Akk.)", U "ἐπί", []));
   (U "ἐπιβουλεύω", (U "einen Anschlag planen", U "ἐπιβουλεύω", []));
   (U "ἐπιδείκνυμι", (U "vorzeigen, zur Schau stellen", U "ἐπιδείκνυμι", []));
   (U "ἐπιθυμέω", (U "begehren, wollen", U "ἐπιθυμέω", []));
   (U "ἐπιθυμία", (U "Begierde, Verlangen", U "ἐπιθυμία, ας, ἡ", []));
   (U "ἐπιλανθάνομαι", (U "vergessen", U "ἐπιλανθάνομαι, ἐπιλήσομαι, ἐπελαθόμην, ἐπιλέλησμαι", []));
   (U "ἐπιμέλεια", (U "Sorge, Fürsorge", U "ἐπιμέλεια, ας, ἡ", []));
   (U "ἐπιμελέομαι", (U "sich kümmern", U "ἐπιμελέομαι", []));
   (U "ἐπίσταμαι", (U "verstehen; wissen; können", U "ἐπίσταμαι", []));
   (U "ἐπιστήμη", (U "Wissen, Wissenschaft", U "ἐπιστήμη, ης, ἡ", []));
   (U "ἐπιστολή", (U "Brief", U "ἐπιστολή, ῆς, ἡ", []));
   (U "ἐπιτήδειος", (U "geeignet, passend", U "ἐπιτήδειος, ον", U "τὰ ἐπιτήδεια - Lebensmittel"));
   (U "ἐπιτίθημι", (U "darauflegen; zufügen", U "ἐπιτίθημι", []));
   (U "ἐπιτρέπω", (U "überlassen; gestatten", U "ἐπιτρέπω", []));
   (U "ἐπιχειρέω", (U "versuchen; angreifen", U "ἐπιχειρέω", []));
   (U "ἕπομαι", (U "folgen", U "ἕπομαι, ἕψομαι, ἑσπόμην", []));
   (U "ἔπος", (U "Wort", U "ἔπος, ους, τό", []));
   (U "ἐράω", (U "lieben, begehren", U "ἐράω", []));
   (U "ἐργάζομαι", (U "arbeiten, tun", U "ἐργάζομαι, ἐργάσομαι, εἰργασάμην, εἴργασμαι", []));
   (U "ἔργον", (U "Werk, Arbeit; Tat", U "ἔργον, ου, τό", []));
   (U "ἔρημος", (U "einsam, verlassen", U "ἔρημος, η, ον", []));
   (U "ἔρις", (U "Streit, Zank", U "ἔρις, ιδος, ἡ", []));
   (U "ἔρχομαι", (U "gehen, kommen", U "ἔρχομαι, εἶμι, ἦλθον, ἐλήλυθα", []));
   (U "ἔρως", (U "Liebe, Verlangen", U "ἔρως, ωτος, ὁ", []));
   (U "ἐρωτάω", (U "fragen", U "ἐρωτάω, ἐρήσομαι, ἠρόμην", []));
   (U "ἐσθίω", (U "essen", U "ἐσθίω", []));
   (U "ἑσπέρα", (U "Abend", U "ἑσπέρα, ας, ἡ", []));
   (U "ἔσχατος", (U "letzter, äußerster", U "ἔσχατος, η, ον", []));
   (U "ἑταῖρος", (U "Freund, Gefährte", U "ἑταῖρος, ου, ὁ", []));
   (U "ἕτερος", (U "der andere", U "ἕτερος, α, ον", []));
   (U "ἔτι", (U "noch", U "ἔτι", []));
   (U "ἕτοιμος", (U "bereit", U "ἕτοιμος, η, ον", []));
   (U "ἔτος", (U "Jahr", U "ἔτος, ους, τό", []));
   (U "εὖ", (U "gut", U "εὖ", []));
   (U "εὐδαιμονία", (U "Glück, Glückseligkeit", U "εὐδαιμονία, ας, ἡ", []));
   (U "εὐδαίμων", (U "glücklich, selig", U "εὐδαίμων, ον", []));
   (U "εὐθύς", (U "sofort", U "εὐθύς", []));
   (U "εὑρίσκω", (U "finden, erfinden", U "εὑρίσκω, εὑρήσω, ηὗρον/εὗρον, ηὕρηκα/εὕρηκα", []));
   (U "εὐχή", (U "Gebet, Bitte", U "εὐχή, ῆς, ἡ", []));
   (U "εὔχομαι", (U "beten; erflehen", U "εὔχομαι", []));
   (U "ἐφίστημι", (U "voranstellen", U "ἐφίστημι", []));
   (U "ἐχθρός", (U "feindlich, verhasst", U "ἐχθρός, ά, όν", U "ὁ ἐχθρός - der Feind"));
   (U "ἔχω", (U "haben, halten; können", U "ἔχω, ἕξω/σχήσω, ἔσχον, ἔσχηκα", U "εὖ ἔχω - es geht mir gut"))].

Definition vocab_zeta : list (str * (str * str * str)) :=
  [(U "Ζεύς", (U "Zeus", U "Ζεύς, Διός, ὁ", U "νὴ Δία/μὰ Δία - bei Zeus!"));
   (U "ζηλόω", (U "nacheifern, bewundern", U "ζηλόω", []));
   (U "ζημία", (U "Strafe", U "ζημία, ας, ἡ", []));
   (U "ζητέω", (U "suchen; untersuchen; streben", U "ζητέω, ζητήσω, ἐζήτησα, ἐζήτηκα", []));
   (U "ζήτησις", (U "Untersuchung", U "ζήτησις, εως, ἡ", []));
   (U "ζάω", (U "leben", U "ζάω, ζήσω, ἔζησα, ἔζηκα", []));
   (U "ζωή", (U "Leben", U "ζωή, ῆς, ἡ", []));
   (U "ζῷον", (U "Lebewesen; Tier", U "ζῷον, ου, τό", []))].

Definition vocab_eta : list (str * (str * str * str)) :=
  [(U "ἤ", (U "oder; als", U "ἤ", []));
   (U "ἡγεμών", (U "Führer, Anführer", U "ἡγεμών, όνος, ὁ", []));
   (U "ἡγέομαι", (U "führen; glauben, meinen", U "ἡγέομαι, ἡγήσομαι, ἡγησάμην", []));
   (U "ἤδη", (U "schon", U "ἤδη", []));
   (U "ἥδομαι", (U "sich freuen", U "ἥδομαι", []));
   (U "ἡδονή", (U "Vergnügen, Lust", U "ἡδονή, ῆς, ἡ", []));
   (U "ἡδύς", (U "süß, angenehm", U "ἡδύς, εῖα, ύ", []));
   (U "ἦθος", (U "Charakter, Wesensart", U "ἦθος, ους, τό", []));
   (U "ἥκω", (U "kommen, da sein", U "ἥκω, ἥξω", []));
   (U "ἡλικία", (U "Lebensalter", U "ἡλικία, ας, ἡ", []));
   (U "ἥλιος", (U "Sonne", U "ἥλιος, ου, ὁ", []));
   (U "ἡμεῖς", (U "wir", U "ἡμεῖς, ἡμῶν, ἡμῖν, ἡμᾶς", []));
   (U "ἡμέρα", (U "Tag", U "ἡμέρα, ας, ἡ", []));
   (U "ἡμέτερος", (U "unser", U "ἡμέτερος, α, ον", []));
   (U "ἥρως", (U "Held, Halbgott", U "ἥρως, ωος, ὁ", []));
   (U "ἡσυχία", (U "Ruhe", U "ἡσυχία, ας, ἡ", U "ἡσυχίαν ἄγω - Ruhe bewahren"));
   (U "ἥττων", (U "geringer, schwächer", U "ἥττων, ἧττον", U "οὐδὲν ἧττον - trotzdem"))].

Definition vocab_theta : list (str * (str * str * str)) :=
  [(U "θάλαττα", (U "Meer", U "θάλαττα, ης, ἡ", []));
   (U "θάνατος", (U "Tod", U "θάνατος, ου, ὁ", []));
   (U "θάπτω", (U "bestatten, begraben", U "θάπτω", []));
   (U "θαρρέω", (U "kühn sein, mutig sein", U "θαρρέω", []));
   (U "θαυμάζω", (U "staunen, bewundern", U "θαυμάζω, θαυμάσομαι, ἐθαύμασα, τεθαύμακα", []));
   (U "θαυμάσιος", (U "erstaunlich, wunderbar", U "θαυμάσιος, α, ον", []));
   (U "θεάομαι", (U "betrachten, anschauen", U "θεάομαι, θεάσομαι, ἐθεασάμην, τεθέαμαι", []));
   (U "θέατρον", (U "Theater", U "θέατρον, ου, τό", []));
   (U "θεῖος", (U "göttlich", U "θεῖος, θεία, θεῖον", []));
   (U "θεός", (U "Gott, Göttin", U "θεός, οῦ, ὁ/ἡ", []));
   (U "θεραπεύω", (U "verehren; pflegen", U "θεραπεύω", []));
   (U "θερμός", (U "warm", U "θερμός, ή, όν", []));
   (U "θεωρέω", (U "betrachten, zuschauen", U "θεωρέω", []));
   (U "θηράω", (U "jagen, erjagen", U "θηράω", []));
   (U "θησαυρός", (U "Schatzkammer, Schatz", U "θησαυρός, οῦ, ὁ", []));
   (U "θνητός", (U "sterblich", U "θνητός, ή, όν", []));
   (U "θρόνος", (U "Sessel, Thron", U "θρόνος, ου, ὁ", []));
   (U "θυγάτηρ", (U "Tochter", U "θυγάτηρ, τρός, ἡ", []));
   (U "θυμός", (U "Mut, Zorn; Herz, Gemüt", U "θυμός, οῦ, ὁ", []));
   (U "θύρα", (U "Tür, Tor", U "θύρα, ας, ἡ", []));
   (U "θύω", (U "opfern", U "θύω, θύσω, ἔθυσα, τέθυκα", []))].

Definition vocab_iota : list (str * (str * str * str)) :=
  [(U "ἰατρική", (U "Heilkunst", U "ἰατρική, ῆς, ἡ", []));
   (U "ἰατρός", (U "Arzt", U "ἰατρός, οῦ, ὁ", []));
   (U "ἴδιος", (U "eigen; privat", U "ἴδιος, ία, ιον", U "ἰδίᾳ - privat"));
   (U "ἰδιώτης", (U "Privatmann, Laie", U "ἰδιώτης, ου, ὁ", []));
   (U "ἱερός", (U "heilig, geweiht", U "ἱερός, ά, όν", []));
   (U "ἵημι", (U "in Bewegung setzen", U "ἵημι, ἥσω, ἧκα, εἷκα, εἷμαι, εἵθην", []));
   (U "ἱκανός", (U "ausreichend; geeignet", U "ἱκανός, ή, όν", []));
   (U "ἱκετεύω", (U "anflehen", U "ἱκετεύω", []));
   (U "ἵνα", (U "damit, um zu; wo", U "ἵνα", []));
   (U "ἵππος", (U "Pferd", U "ἵππος, ου, ὁ", []));
   (U "ἴσος", (U "gleich; gerecht", U "ἴσος, η, ον", []));
   (U "ἵστημι", (U "stellen, hinstellen", U "ἵστημι, στήσω, ἔστησα/ἔστην, ἔστηκα", []));
   (U "ἰστορία", (U "Forschung, Geschichte", U "ἰστορία, ας, ἡ", []));
   (U "ἰσχυρός", (U "stark, kraftvoll", U "ἰσχυρός, ά, όν", []));
   (U "ἴσως", (U "vielleicht", U "ἴσως", []))].

Definition vocab_kappa : list (str * (str * str * str)) :=
  [(U "καθεύδω", (U "schlafen", U "καθεύδω", []));
   (U "κάθημαι", (U "sitzen", U "κάθημαι", []));
   (U "καί", (U "und; auch, sogar", U "καί", U "καί...καί - sowohl...als auch, καὶ δὴ καί - und ganz besonders"));
   (U "καίπερ", (U "obwohl", U "καίπερ", []));
   (U "καιρός", (U "rechte Zeit, Gelegenheit", U "καιρός, οῦ, ὁ", U "κατὰ καιρόν - zur rechten Zeit"));
   (U "καίτοι", (U "und doch", U "καίτοι", []));
   (U "καίω", (U "anzünden, verbrennen", U "καίω", []));
   (U "κακός", (U "schlecht, böse", U "κακός, ή, όν", U "κακῶς λέγω - schlecht reden"));
   (U "καλέω", (U "rufen; nennen", U "καλέω, καλῶ, ἐκάλεσα, κέκληκα, κέκλημαι, ἐκλήθην", U "ὁ καλούμενος - der sogenannte"));
   (U "καλός", (U "schön, gut", U "καλός, ή, όν", []));
   (U "καρδία", (U "Herz", U "καρδία, ας, ἡ", []));
   (U "κατά", (U "von...herab (+Gen.); gemäß (+Akk.)", U "κατά", U "κατὰ φύσιν - gemäß der Natur"));
   (U "κατανοέω", (U "wahrnehmen, verstehen", U "κατανοέω", []));
   (U "κατασκευάζω", (U "einrichten", U "κατασκευάζω", []));
   (U "καταφρονέω", (U "verachten", U "καταφρονέω", []));
   (U "κατέχω", (U "niederhalten, festhalten", U "κατέχω", []));
   (U "κατηγορέω", (U "anklagen", U "κατηγορέω", []));
   (U "κεῖμαι", (U "liegen", U "κεῖμαι, κείσομαι", []));
   (U "κελεύω", (U "befehlen, auffordern", U "κελεύω, κελεύσω, ἐκέλευσα", []));
   (U "κερδαίνω", (U "gewinnen", U "κερδαίνω", []));
   (U "κέρδος", (U "Gewinn, Vorteil", U "κέρδος, ους, τό", []));
   (U "κεφαλή", (U "Kopf", U "κεφαλή, ῆς, ἡ", []));
   (U "κινδυνεύω", (U "in Gefahr sein; scheinen", U "κινδυνεύω", []));
   (U "κίνδυνος", (U "Gefahr", U "κίνδυνος, ου, ὁ", []));
   (U "κινέω", (U "bewegen", U "κινέω", []));
   (U "κλέπτω", (U "stehlen", U "κλέπτω", []));
   (U "κοινός", (U "gemeinsam", U "κοινός, ή, όν", U "κοινῇ - gemeinsam"));
   (U "κολάζω", (U "bestrafen", U "κολάζω", []));
   (U "κομίζω", (U "bringen, transportieren", U "κομίζω", []));
   (U "κόρη", (U "Mädchen, Tochter", U "κόρη, ης, ἡ", []));
   (U "κοσμέω", (U "ordnen, schmücken", U "κοσμέω", []));
   (U "κόσμος", (U "Ordnung; Schmuck; Welt", U "κόσμος, ου, ὁ", []));
   (U "κρατέω", (U "stärker sein; besiegen", U "κρατέω, κρατήσω, ἐκράτησα", []));
   (U "κράτος", (U "Stärke, Macht", U "κράτος, ους, τό", []));
   (U "κρείττων", (U "stärker, besser", U "κρείττων, κρεῖττον", U "Komp. zu ἀγαθός"));
   (U "κρίνω", (U "unterscheiden; urteilen", U "κρίνω, κρινῶ, ἔκρινα, κέκρικα", []));
   (U "κρίσις", (U "Entscheidung, Urteil", U "κρίσις, εως, ἡ", []));
   (U "κρύπτω", (U "verbergen", U "κρύπτω", []));
   (U "κτάομαι", (U "erwerben", U "κτάομαι, κτήσομαι, ἐκτησάμην, κέκτημαι", U "κέκτημαι - besitzen"));
   (U "κτῆμα", (U "Besitz", U "κτῆμα, ατος, τό", []));
   (U "κύκλος", (U "Kreis", U "κύκλος, ου, ὁ", []));
   (U "κύριος", (U "Herr", U "κύριος, ου, ὁ", []));
   (U "κωλύω", (U "hindern, abhalten", U "κωλύω, κωλύσω, ἐκώλυσα", []))].

Definition vocab_lamda : list (str * (str * str * str)) :=
  [(U "λαμβάνω", (U "nehmen, ergreifen; erhalten", U "λαμβάνω, λήψομαι, ἔλαβον, εἴληφα, εἴλημμαι, ἐλήφθην", []));
   (U "λανθάνω", (U "verborgen sein", U "λανθάνω, λήσω, ἔλαθον, λέληθα", U "λανθάνω ποιῶν τι - etw. unbemerkt tun"));
   (U "λέγω", (U "sagen, sprechen; nennen", U "λέγω, ἐρῶ, εἶπον, εἴρηκα, εἴρημαι, ἐλέχθην/ἐρρήθην", U "ὡς ἔπος εἰπεῖν - sozusagen"));
   (U "λείπω", (U "lassen; verlassen", U "λείπω, λείψω, ἔλιπον, λέλοιπα, λέλειμμαι, ἐλείφθην", []));
   (U "λίθος", (U "Stein", U "λίθος, ου, ὁ", []));
   (U "λογίζομαι", (U "rechnen, überlegen", U "λογίζομαι, λογιοῦμαι, ἐλογισάμην, λελόγισμαι", []));
   (U "λόγος", (U "Wort, Rede; Gedanke; Erzählung", U "λόγος, ου, ὁ", U "λόγον δίδωμι - Rechenschaft ablegen"));
   (U "λοιπός", (U "übrig", U "λοιπός, ή, όν", U "τὸ λοιπόν - künftig"));
   (U "λυπέω", (U "betrüben", U "λυπέω", []));
   (U "λύπη", (U "Schmerz, Leid", U "λύπη, ης, ἡ", []));
   (U "λύω", (U "lösen, auflösen", U "λύω, λύσω, ἔλυσα, λέλυκα, λέλυμαι, ἐλύθην", []))].

Definition vocab_my : list (str * (str * str * str)) :=
  [(U "μάθημα", (U "Lerngegenstand, Kenntnis", U "μάθημα, ατος, τό", []));
   (U "μαθητής", (U "Schüler", U "μαθητής, οῦ, ὁ", []));
   (U "μαίνομαι", (U "rasen, wüten", U "μαίνομαι", []));
   (U "μακάριος", (U "glückselig, selig", U "μακάριος, α, ον", []));
   (U "μακρός", (U "lang, groß", U "μακρός, ά, όν", []));
   (U "μάλα", (U "sehr", U "μάλα, μᾶλλον, μάλιστα", []));
   (U "μάλιστα", (U "am meisten, besonders", U "μάλιστα", []));
   (U "μᾶλλον", (U "mehr, lieber", U "μᾶλλον", U "μᾶλλον δέ - vielmehr"));
   (U "μανθάνω", (U "lernen; verstehen", U "μανθάνω, μαθήσομαι, ἔμαθον, μεμάθηκα", []));
   (U "μάντις", (U "Seher, Wahrsager", U "μάντις, εως, ὁ", []));
   (U "μαρτυρέω", (U "bezeugen", U "μαρτυρέω", []));
   (U "μάρτυς", (U "Zeuge", U "μάρτυς, υρος, ὁ/ἡ", []));
   (U "μάχη", (U "Kampf", U "μάχη, ης, ἡ", []));
   (U "μάχομαι", (U "kämpfen", U "μάχομαι, μαχοῦμαι, ἐμαχεσάμην, μεμάχημαι", []));
   (U "μέγας", (U "groß, bedeutend", U "μέγας, μεγάλη, μέγα", []));
   (U "μέγεθος", (U "Größe", U "μέγεθος, ους, τό", []));
   (U "μείς", (U "Monat", U "μείς, μηνός, ὁ", []));
   (U "μέλει", (U "es liegt am Herzen", U "μέλει", U "μέλει μοί τινος - ich kümmere mich um etw."));
   (U "μέλλω", (U "im Begriff sein; sollen; zögern", U "μέλλω, μελλήσω, ἐμέλλησα", U "τὰ μέλλοντα - die Zukunft"));
   (U "μέλος", (U "Glied; Lied", U "μέλος, ους, τό", []));
   (U "μέν", (U "zwar", U "μέν", U "μέν...δέ - zwar...aber"));
   (U "μέντοι", (U "freilich, allerdings", U "μέντοι", []));
   (U "μένω", (U "bleiben, warten", U "μένω, μενῶ, ἔμεινα, μεμένηκα", []));
   (U "μέρος", (U "Teil", U "μέρος, ους, τό", U "τὸ ἐμὸν μέρος - was mich betrifft"));
   (U "μέσος", (U "mittlerer, mitten", U "μέσος, η, ον", []));
   (U "μετά", (U "mit (+Gen.); nach (+Akk.)", U "μετά", []));
   (U "μετέχω", (U "Anteil haben", U "μετέχω", []));
   (U "μέτρον", (U "Maß", U "μέτρον, ου, τό", []));
   (U "μή", (U "nicht", U "μή", []));
   (U "μηδέ", (U "und nicht, auch nicht", U "μηδέ", []));
   (U "μηδείς", (U "niemand, nichts", U "μηδείς, μηδεμία, μηδέν", []));
   (U "μήν", (U "wahrlich", U "μήν", []));
   (U "μήτηρ", (U "Mutter", U "μήτηρ, τρός, ἡ", []));
   (U "μηχανή", (U "Kunstgriff, Mittel, Maschine", U "μηχανή, ῆς, ἡ", []));
   (U "μικρός", (U "klein", U "μικρός, ά, όν", U "μικροῦ δεῖν - beinahe"));
   (U "μιμέομαι", (U "nachahmen", U "μιμέομαι", []));
   (U "μιμνήσκω", (U "erinnern", U "μιμνήσκω", []));
   (U "μισέω", (U "hassen", U "μισέω", []));
   (U "μνήμη", (U "Gedächtnis, Andenken", U "μνήμη, ης, ἡ", []));
   (U "μοῖρα", (U "Anteil; Schicksal", U "μοῖρα, ας, ἡ", []));
   (U "μόνος", (U "allein, einzig", U "μόνος, η, ον", U "μόνον - nur"));
   (U "μῦθος", (U "Wort; Erzählung", U "μῦθος, ου, ὁ", []));
   (U "μύριοι", (U "zehntausend", U "μύριοι, αι, α", []))].

Definition vocab_ny : list (str * (str * str * str)) :=
  [(U "ναί", (U "ja", U "ναί", []));
   (U "ναός", (U "Tempel", U "ναός, οῦ, ὁ", []));
   (U "ναῦς", (U "Schiff", U "ναῦς, νεώς, ἡ", []));
   (U "νεκρός", (U "tot; Leichnam", U "νεκρός, ά, όν", []));
   (U "νέμω", (U "zuteilen; weiden", U "νέμω", []));
   (U "νέος", (U "neu, jung", U "νέος, α, ον", U "οἱ νέοι - die jungen Männer"));
   (U "νῆσος", (U "Insel", U "νῆσος, ου, ἡ", []));
   (U "νικάω", (U "siegen, besiegen", U "νικάω, νικήσω, ἐνίκησα, νενίκηκα", []));
   (U "νίκη", (U "Sieg", U "νίκη, ης, ἡ", []));
   (U "νοέω", (U "denken; erkennen", U "νοέω", []));
   (U "νομίζω", (U "glauben, meinen; anerkennen", U "νομίζω, νομιῶ, ἐνόμισα, νενόμικα", []));
   (U "νόμιμος", (U "gesetzlich", U "νόμιμος, η, ον", []));
   (U "νόμος", (U "Gesetz; Sitte", U "νόμος, ου, ὁ", []));
   (U "νόσος", (U "Krankheit", U "νόσος, ου, ἡ", []));
   (U "νοῦς", (U "Verstand, Geist", U "νοῦς, νοῦ, ὁ", U "τὸν νοῦν προσέχειν - achten auf"));
   (U "νῦν", (U "nun", U "νῦν", []));
   (U "νύξ", (U "Nacht", U "νύξ, νυκτός, ἡ", U "νυκτός - nachts"))].

Definition vocab_xi : list (str * (str * str * str)) :=
  [(U "ξένος", (U "Fremder; Gast; Söldner", U "ξένος, ου, ὁ", []));
   (U "ξύλον", (U "Holz", U "ξύλον, ου, τό", []))].

Definition vocab_omicron : list (str * (str * str * str)) :=
  [(U "ὁ", (U "der", U "ὁ, ἡ, τό", U "ὁ μέν...ὁ δέ - der eine...der andere"));
   (U "ὅδε", (U "dieser hier", U "ὅδε, ἥδε, τόδε", []));
   (U "ὁδός", (U "Weg, Reise", U "ὁδός, οῦ, ἡ", []));
   (U "οἶδα", (U "wissen, kennen", U "οἶδα, εἴσομαι", []));
   (U "οἰκεῖος", (U "häuslich; eigen; verwandt", U "οἰκεῖος, α, ον", []));
   (U "οἰκέω", (U "wohnen, bewohnen", U "οἰκέω, οἰκήσω, ᾤκησα", []));
   (U "οἰκία", (U "Haus, Gebäude", U "οἰκία, ας, ἡ", []));
   (U "οἶκος", (U "Haus; Familie", U "οἶκος, ου, ὁ", []));
   (U "οἶνος", (U "Wein", U "οἶνος, ου, ὁ", []));
   (U "οἴομαι", (U "glauben, meinen", U "οἴομαι/οἶμαι", []));
   (U "οἷος", (U "wie beschaffen", U "οἷος, οία, οἷον", U "οἷός τέ εἰμι - imstande sein"));
   (U "οἴχομαι", (U "fortgehen, fortsein", U "οἴχομαι", []));
   (U "ὀλίγος", (U "wenig, gering", U "ὀλίγος, η, ον", U "ὀλίγου δεῖν - beinahe"));
   (U "ὅλος", (U "ganz", U "ὅλος, η, ον", U "καθ' ὅλου - im allgemeinen"));
   (U "ὅμοιος", (U "gleich, ähnlich", U "ὅμοιος, α, ον", []));
   (U "ὁμολογέω", (U "übereinstimmen, zustimmen", U "ὁμολογέω", []));
   (U "ὅμως", (U "dennoch", U "ὅμως", []));
   (U "ὄνομα", (U "Name; Ruf", U "ὄνομα, ατος, τό", []));
   (U "ὀνομάζω", (U "nennen, benennen", U "ὀνομάζω", []));
   (U "ὁπλίτης", (U "Schwerbewaffneter", U "ὁπλίτης, ου, ὁ", []));
   (U "ὅπλον", (U "Waffe", U "ὅπλον, ου, τό", []));
   (U "ὁπότε", (U "als, wenn", U "ὁπότε", []));
   (U "ὅπου", (U "wo", U "ὅπου", []));
   (U "ὁράω", (U "sehen", U "ὁράω, ὄψομαι, εἶδον, ἑώρακα, ὦμμαι, ὤφθην", []));
   (U "ὄργανον", (U "Werkzeug, Instrument", U "ὄργανον, ου, τό", []));
   (U "ὀργή", (U "Zorn", U "ὀργή, ῆς, ἡ", []));
   (U "ὀρθός", (U "gerade, aufrecht; richtig", U "ὀρθός, ή, όν", []));
   (U "ὁρίζω", (U "begrenzen, definieren", U "ὁρίζω", []));
   (U "ὁρμάω", (U "sich in Bewegung setzen", U "ὁρμάω", []));
   (U "ὄρνις", (U "Vogel", U "ὄρνις, ιθος, ὁ/ἡ", []));
   (U "ὄρος", (U "Berg", U "ὄρος, ους, τό", []));
   (U "ὅς", (U "welcher, der", U "ὅς, ἥ, ὅ", U "ὃς ἄν - wer auch immer"));
   (U "ὅσιος", (U "heilig, recht; fromm", U "ὅσιος, α, ον", []));
   (U "ὅσος", (U "wie groß, wie viel", U "ὅσος, η, ον", U "ὅσῳ...τοσούτῳ - je...desto"));
   (U "ὅστις", (U "wer auch immer", U "ὅστις, ἥτις, ὅ τι", []));
   (U "ὅταν", (U "immer wenn", U "ὅταν", []));
   (U "ὅτε", (U "als, wenn", U "ὅτε", []));
   (U "ὅτι", (U "dass, weil", U "ὅτι", []));
   (U "οὐ", (U "nicht", U "οὐ, οὐκ, οὐχ", []));
   (U "οὐδέ", (U "und nicht, auch nicht", U "οὐδέ", []));
   (U "οὐδείς", (U "niemand, nichts", U "οὐδείς, οὐδεμία, οὐδέν", []));
   (U "οὐκέτι", (U "nicht mehr", U "οὐκέτι", []));
   (U "οὖν", (U "nun; also", U "οὖν", []));
   (U "οὔπω", (U "noch nicht", U "οὔπω", []));
   (U "οὐρανός", (U "Himmel", U "οὐρανός, οῦ, ὁ", []));
   (U "οὔτε...οὔτε", (U "weder... noch", U "οὔτε...οὔτε", []));
   (U "οὗτος", (U "dieser", U "οὗτος, αὕτη, τοῦτο", []));
   (U "οὕτως", (U "so", U "οὕτως/οὕτω", []));
   (U "ὀφείλω", (U "schulden, sollen", U "ὀφείλω", U "ὤφελες - du hättest sollen"));
   (U "ὀφθαλμός", (U "Auge", U "ὀφθαλμός, οῦ, ὁ", []));
   (U "ὄψις", (U "Sehkraft, Aussehen", U "ὄψις, εως, ἡ", []))].

Definition vocab_pi : list (str * (str * str * str)) :=
  [(U "πάθος", (U "Erlebnis; Leid, Leiden; Leidenschaft", U "πάθος, ους, τό", []));
   (U "παιδεία", (U "Erziehung, Bildung", U "παιδεία, ας, ἡ", []));
   (U "παιδεύω", (U "erziehen, bilden", U "παιδεύω", []));
   (U "παιδίον", (U "Kind", U "παιδίον, ου, τό", []));
   (U "παῖς", (U "Kind; Sklave", U "παῖς, παιδός, ὁ/ἡ", []));
   (U "παλαιός", (U "alt", U "παλαιός, ά, όν", []));
   (U "πάλιν", (U "wieder, zurück", U "πάλιν", []));
   (U "παντάπασι", (U "ganz und gar", U "παντάπασι", []));
   (U "πάνυ", (U "ganz, sehr", U "πάνυ", []));
   (U "παρά", (U "von (+Gen.); bei (+Dat.); zu (+Akk.)", U "παρά", []));
   (U "παραγίγνομαι", (U "hinzukommen", U "παραγίγνομαι", []));
   (U "παραδίδωμι", (U "übergeben, überliefern", U "παραδίδωμι", []));
   (U "παρακαλέω", (U "herbeirufen, auffordern", U "παρακαλέω", []));
   (U "παρασκευάζω", (U "vorbereiten", U "παρασκευάζω", []));
   (U "πάρειμι", (U "da sein, anwesend sein", U "πάρειμι", U "πάρεστί μοι - es steht in meiner Macht"));
   (U "παρέχω", (U "gewähren, geben", U "παρέχω", []));
   (U "πᾶς", (U "all, ganz, jeder", U "πᾶς, πᾶσα, πᾶν", []));
   (U "πάσχω", (U "erleiden; erleben", U "πάσχω, πείσομαι, ἔπαθον, πέπονθα", []));
   (U "πατήρ", (U "Vater", U "πατήρ, πατρός, ὁ", []));
   (U "πατρίς", (U "Vaterland, Heimat", U "πατρίς, ίδος, ἡ", []));
   (U "παύω", (U "beenden, aufhören lassen", U "παύω, παύσω, ἔπαυσα", []));
   (U "πείθω", (U "überreden, überzeugen", U "πείθω, πείσω, ἔπεισα, πέποιθα, πέπεισμαι, ἐπείσθην", []));
   (U "πειράω", (U "versuchen", U "πειράω", []));
   (U "πέμπω", (U "schicken, senden", U "πέμπω, πέμψω, ἔπεμψα", []));
   (U "πέντε", (U "fünf", U "πέντε", []));
   (U "περί", (U "über (+Gen.); um (+Akk.)", U "περί", []));
   (U "πέτρα", (U "Fels, Stein", U "πέτρα, ας, ἡ", []));
   (U "πίνω", (U "trinken", U "πίνω, πίομαι, ἔπιον", []));
   (U "πίπτω", (U "fallen", U "πίπτω, πεσοῦμαι, ἔπεσον, πέπτωκα", []));
   (U "πιστεύω", (U "glauben, vertrauen", U "πιστεύω, πιστεύσω, ἐπίστευσα", []));
   (U "πίστις", (U "Treue, Vertrauen", U "πίστις, εως, ἡ", []));
   (U "πιστός", (U "treu, zuverlässig", U "πιστός, ή, όν", []));
   (U "πλανάομαι", (U "sich verirren, umherirren", U "πλανάομαι", []));
   (U "πλέω", (U "segeln, fahren", U "πλέω, πλεύσομαι, ἔπλευσα", []));
   (U "πλήθος", (U "Menge", U "πλήθος, ους, τό", []));
   (U "πλήν", (U "außer", U "πλήν", []));
   (U "πλήττω", (U "schlagen", U "πλήττω", []));
   (U "πλοῖον", (U "Schiff", U "πλοῖον, ου, τό", []));
   (U "πλοῦτος", (U "Reichtum", U "πλοῦτος, ου, ὁ", []));
   (U "ποιέω", (U "machen, tun; dichten", U "ποιέω, ποιήσω, ἐποίησα, πεποίηκα, πεποίημαι, ἐποιήθην", []));
   (U "ποίησις", (U "Dichtung, Poesie", U "ποίησις, εως, ἡ", []));
   (U "ποιητής", (U "Dichter; Schöpfer", U "ποιητής, οῦ, ὁ", []));
   (U "ποῖος", (U "wie beschaffen?", U "ποῖος, α, ον", []));
   (U "πόλεμος", (U "Krieg", U "πόλεμος, ου, ὁ", []));
   (U "πόλις", (U "Stadt; Staat", U "πόλις, εως, ἡ", []));
   (U "πολιτεία", (U "Staatsverfassung", U "πολιτεία, ας, ἡ", []));
   (U "πολίτης", (U "Bürger", U "πολίτης, ου, ὁ", []));
   (U "πολιτικός", (U "bürgerlich, politisch", U "πολιτικός, ή, όν", []));
   (U "πολλάκις", (U "oft", U "πολλάκις", []));
   (U "πολύς", (U "viel", U "πολύς, πολλή, πολύ", U "οἱ πολλοί - die meisten"));
   (U "πονηρός", (U "schlecht, böse", U "πονηρός, ά, όν", []));
   (U "πόνος", (U "Mühe, Arbeit", U "πόνος, ου, ὁ", []));
   (U "πορεύομαι", (U "reisen, marschieren", U "πορεύομαι, πορεύσομαι, ἐπορεύθην", []));
   (U "ποταμός", (U "Fluss", U "ποταμός, οῦ, ὁ", []));
   (U "πότε", (U "wann?", U "πότε", []));
   (U "ποτέ", (U "einst, jemals", U "ποτέ", []));
   (U "πότερος", (U "welcher von beiden?", U "πότερος, α, ον", []));
   (U "ποῦ", (U "wo?", U "ποῦ", []));
   (U "πούς", (U "Fuß", U "πούς, ποδός, ὁ", []));
   (U "πρᾶγμα", (U "Tat, Sache, Angelegenheit", U "πρᾶγμα, ατος, τό", U "πράγματα παρέχω - Schwierigkeiten bereiten"));
   (U "πρᾶξις", (U "Handlung, Tätigkeit", U "πρᾶξις, εως, ἡ", []));
   (U "πράττω", (U "tun, handeln", U "πράττω, πράξω, ἔπραξα, πέπραχα", U "εὖ πράττω - es geht mir gut"));
   (U "πρέπει", (U "es gehört sich", U "πρέπει", []));
   (U "πρέσβυς", (U "alter Mann; Gesandter", U "πρέσβυς, εως, ὁ", []));
   (U "πρίν", (U "ehe, bevor", U "πρίν", []));
   (U "πρό", (U "vor", U "πρό", []));
   (U "πρός", (U "zu, gegen, bei", U "πρός", []));
   (U "προσέχω", (U "hinlenken", U "προσέχω", U "προσέχω τὸν νοῦν - achten auf"));
   (U "πρόσωπον", (U "Gesicht; Person", U "πρόσωπον, ου, τό", []));
   (U "πρότερος", (U "der frühere", U "πρότερος, α, ον", U "πρότερον - früher"));
   (U "πρῶτος", (U "der erste", U "πρῶτος, η, ον", U "πρῶτον - zuerst"));
   (U "πυνθάνομαι", (U "sich erkundigen, erfahren", U "πυνθάνομαι, πεύσομαι, ἐπυθόμην, πέπυσμαι", []));
   (U "πῦρ", (U "Feuer", U "πῦρ, πυρός, τό", []));
   (U "πώποτε", (U "jemals", U "πώποτε", []));
   (U "πῶς", (U "wie?", U "πῶς", []));
   (U "πως", (U "irgendwie", U "πως", []))].

Definition vocab_rho : list (str * (str * str * str)) :=
  [(U "ῥᾴδιος", (U "leicht", U "ῥᾴδιος, α, ον", []));
   (U "ῥέω", (U "fließen", U "ῥέω", []));
   (U "ῥήτωρ", (U "Redner", U "ῥήτωρ, ορος, ὁ", []))].

Definition vocab_sigma : list (str * (str * str * str)) :=
  [(U "σαφής", (U "deutlich, klar", U "σαφής, ές", []));
   (U "σεαυτοῦ", (U "deiner selbst", U "σεαυτοῦ, ῆς, οῦ", []));
   (U "σέβομαι", (U "verehren", U "σέβομαι", []));
   (U "σημαίνω", (U "zeigen, anzeigen", U "σημαίνω", []));
   (U "σῖτος", (U "Getreide, Nahrung", U "σῖτος, ου, ὁ", []));
   (U "σκηνή", (U "Zelt; Bühne", U "σκηνή, ῆς, ἡ", []));
   (U "σκοπέω", (U "betrachten, prüfen", U "σκοπέω", []));
   (U "σός", (U "dein", U "σός, σή, σόν", []));
   (U "σοφία", (U "Weisheit, Klugheit", U "σοφία, ας, ἡ", []));
   (U "σοφός", (U "weise, klug", U "σοφός, ή, όν", []));
   (U "σπεύδω", (U "eilen, sich beeilen", U "σπεύδω", []));
   (U "σπουδάζω", (U "sich beeilen, sich bemühen", U "σπουδάζω", []));
   (U "σπουδή", (U "Eifer, Ernst; Eile", U "σπουδή, ῆς, ἡ", []));
   (U "στάσις", (U "Aufstand, Unruhe", U "στάσις, εως, ἡ", []));
   (U "στέφανος", (U "Kranz, Siegeskranz", U "στέφανος, ου, ὁ", []));
   (U "στοά", (U "Säulenhalle", U "στοά, ᾶς, ἡ", []));
   (U "στρατηγός", (U "Feldherr", U "στρατηγός, οῦ, ὁ", []));
   (U "στρατιώτης", (U "Soldat", U "στρατιώτης, ου, ὁ", []));
   (U "στρατός", (U "Heer", U "στρατός, οῦ, ὁ", []));
   (U "στρέφω", (U "drehen, wenden", U "στρέφω", []));
   (U "σύ", (U "du", U "σύ, σοῦ", []));
   (U "συγγίγνομαι", (U "zusammenkommen", U "συγγίγνομαι", []));
   (U "συγχωρέω", (U "nachgeben, zustimmen", U "συγχωρέω", []));
   (U "συμβαίνω", (U "sich ereignen", U "συμβαίνω, συμβήσομαι, συνέβην, συμβέβηκα", []));
   (U "συμβουλεύω", (U "raten", U "συμβουλεύω", []));
   (U "σύμμαχος", (U "verbündet", U "σύμμαχος, ον", []));
   (U "σύν", (U "mit", U "σύν", []));
   (U "σύνειμι", (U "zusammen sein", U "σύνειμι", []));
   (U "συνίημι", (U "verstehen", U "συνίημι", []));
   (U "σφόδρα", (U "sehr", U "σφόδρα", []));
   (U "σχεδόν", (U "beinahe", U "σχεδόν", []));
   (U "σχῆμα", (U "Haltung, Gestalt", U "σχῆμα, ατος, τό", []));
   (U "σχολή", (U "Muße; Schule", U "σχολή, ῆς, ἡ", []));
   (U "σῴζω", (U "retten, bewahren", U "σῴζω, σώσω, ἔσωσα, σέσωκα", []));
   (U "σῶμα", (U "Körper", U "σῶμα, ατος, τό", []));
   (U "σωτήρ", (U "Retter", U "σωτήρ, ῆρος, ὁ", []));
   (U "σωφροσύνη", (U "Besonnenheit", U "σωφροσύνη, ης, ἡ", []));
   (U "σώφρων", (U "besonnen, vernünftig", U "σώφρων, ον", []))].

Definition vocab_tau : list (str * (str * str * str)) :=
  [(U "τάττω", (U "aufstellen, anordnen", U "τάττω, τάξω, ἔταξα, τέταχα, τέταγμαι, ἐτάχθην", []));
   (U "ταχύς", (U "schnell", U "ταχύς, εῖα, ύ", []));
   (U "τε", (U "und", U "τε", U "...τε...καί - sowohl...als auch"));
   (U "τεῖχος", (U "Mauer", U "τεῖχος, ους, τό", []));
   (U "τεκμήριον", (U "Beweis", U "τεκμήριον, ου, τό", []));
   (U "τέκνον", (U "Kind", U "τέκνον, ου, τό", []));
   (U "τελευτάω", (U "beenden; sterben", U "τελευτάω", []));
   (U "τελέω", (U "vollenden, bezahlen", U "τελέω", []));
   (U "τέλος", (U "Ende; Ziel", U "τέλος, ους, τό", U "τέλος - endlich"));
   (U "τέμνω", (U "schneiden", U "τέμνω, τεμῶ, ἔτεμον", []));
   (U "τέτταρες", (U "vier", U "τέτταρες, α", []));
   (U "τέχνη", (U "Kunst, Fähigkeit", U "τέχνη, ης, ἡ", []));
   (U "τίθημι", (U "setzen, stellen, legen", U "τίθημι, θήσω, ἔθηκα, τέθηκα, κεῖμαι, ἐτέθην", []));
   (U "τίκτω", (U "zeugen, gebären", U "τίκτω, τέξομαι, ἔτεκον, τέτοκα", []));
   (U "τιμάω", (U "ehren", U "τιμάω, τιμήσω, ἐτίμησα, τετίμηκα", []));
   (U "τιμή", (U "Ehre", U "τιμή, ῆς, ἡ", []));
   (U "τις", (U "jemand, irgendeiner", U "τις, τι", []));
   (U "τίς", (U "wer? was?", U "τίς, τί", []));
   (U "τοι", (U "wahrlich", U "τοι", []));
   (U "τοίνυν", (U "also, folglich", U "τοίνυν", []));
   (U "τοιοῦτος", (U "solcher, derartig", U "τοιοῦτος, αύτη, οῦτο", []));
   (U "τολμάω", (U "wagen", U "τολμάω", []));
   (U "τόπος", (U "Ort, Platz", U "τόπος, ου, ὁ", []));
   (U "τοσοῦτος", (U "so groß", U "τοσοῦτος, αύτη, οῦτο", []));
   (U "τότε", (U "da, damals, dann", U "τότε", []));
   (U "τρεῖς", (U "drei", U "τρεῖς, τρία", []));
   (U "τρέπω", (U "wenden", U "τρέπω, τρέψω, ἔτρεψα", []));
   (U "τρέφω", (U "ernähren, aufziehen", U "τρέφω, θρέψω, ἔθρεψα, τέθραμμαι, ἐτράφην", []));
   (U "τρόπος", (U "Art und Weise; Charakter", U "τρόπος, ου, ὁ", []));
   (U "τυγχάνω", (U "treffen; gerade tun", U "τυγχάνω, τεύξομαι, ἔτυχον, τετύχηκα", U "τυγχάνω ποιῶν τι - gerade etw. tun"));
   (U "τύπτω", (U "schlagen", U "τύπτω", []));
   (U "τύραννος", (U "Gewaltherrscher", U "τύραννος, ου, ὁ", []));
   (U "τύχη", (U "Zufall, Schicksal, Glück", U "τύχη, ης, ἡ", []))].

Definition vocab_ypsilon : list (str * (str * str * str)) :=
  [(U "ὕβρις", (U "Hochmut; Freveltat", U "ὕβρις, εως, ἡ", []));
   (U "ὑγίεια", (U "Gesundheit", U "ὑγίεια, ας, ἡ", []));
   (U "ὑγιής", (U "gesund", U "ὑγιής, ές", []));
   (U "ὕδωρ", (U "Wasser", U "ὕδωρ, ατος, τό", []));
   (U "υἱός", (U "Sohn", U "υἱός, οῦ, ὁ", []));
   (U "ὑμεῖς", (U "ihr", U "ὑμεῖς, ὑμῶν, ὑμῖν, ὑμᾶς", []));
   (U "ὑμέτερος", (U "euer", U "ὑμέτερος, α, ον", []));
   (U "ὕπνος", (U "Schlaf", U "ὕπνος, ου, ὁ", []));
   (U "ὑπό", (U "unter (+Gen./Dat./Akk.)", U "ὑπό", []));
   (U "ὑπολαμβάνω", (U "vermuten; entgegnen", U "ὑπολαμβάνω", []))].

Definition vocab_phi : list (str * (str * str * str)) :=
  [(U "φαίνω", (U "zeigen; erscheinen", U "φαίνω, φανῶ, ἔφηνα, πέφηνα, πέφασμαι, ἐφάνην", []));
   (U "φανερός", (U "sichtbar, deutlich", U "φανερός, ά, όν", []));
   (U "φάρμακον", (U "Heilmittel, Gift", U "φάρμακον, ου, τό", []));
   (U "φάσκω", (U "sagen, behaupten", U "φάσκω", []));
   (U "φαῦλος", (U "schlecht", U "φαῦλος, η, ον", []));
   (U "φέρω", (U "tragen, bringen, ertragen", U "φέρω, οἴσω, ἤνεγκον, ἐνήνοχα, ἐνήνεγμαι, ἠνέχθην", []));
   (U "φεύγω", (U "fliehen, meiden", U "φεύγω, φεύξομαι, ἔφυγον, πέφευγα", []));
   (U "φημί", (U "sagen, behaupten", U "φημί, φήσω, ἔφησα/ἔφην", []));
   (U "φθονέω", (U "beneiden", U "φθονέω", []));
   (U "φιλέω", (U "lieben", U "φιλέω", []));
   (U "φιλία", (U "Freundschaft", U "φιλία, ας, ἡ", []));
   (U "φίλος", (U "lieb; Freund", U "φίλος, η, ον", []));
   (U "φιλοσοφία", (U "Philosophie", U "φιλοσοφία, ας, ἡ", []));
   (U "φιλόσοφος", (U "Philosoph", U "φιλόσοφος, ου, ὁ", []));
   (U "φοβέομαι", (U "sich fürchten", U "φοβέομαι, φοβήσομαι, ἐφοβήθην", []));
   (U "φόβος", (U "Furcht", U "φόβος, ου, ὁ", []));
   (U "φονεύω", (U "ermorden", U "φονεύω", []));
   (U "φράζω", (U "sagen, zeigen", U "φράζω, φράσω, ἔφρασα", []));
   (U "φρονέω", (U "denken, Verstand haben", U "φρονέω", []));
   (U "φρόνιμος", (U "verständig, klug", U "φρόνιμος, ον", []));
   (U "φροντίζω", (U "sich kümmern", U "φροντίζω", []));
   (U "φυλάττω", (U "bewachen, bewahren", U "φυλάττω, φυλάξω, ἐφύλαξα", []));
   (U "φύσις", (U "Natur; Wesen", U "φύσις, εως, ἡ", []));
   (U "φωνή", (U "Stimme; Klang", U "φωνή, ῆς, ἡ", []));
   (U "φῶς", (U "Licht", U "φῶς, φωτός, τό", []))].

Definition vocab_chi : list (str * (str * str * str)) :=
  [(U "χαίρω", (U "sich freuen", U "χαίρω, χαιρήσω, κεχάρηκα, ἐχάρην", U "χαῖρε - sei gegrüßt!"));
   (U "χαλεπός", (U "schwer, schwierig", U "χαλεπός, ή, όν", []));
   (U "χάρις", (U "Gefälligkeit, Dank; Anmut", U "χάρις, ιτος, ἡ", U "χάριν ἀποδίδωμι - danken"));
   (U "χείρ", (U "Hand", U "χείρ, χειρός, ἡ", []));
   (U "χείρων", (U "schlechter", U "χείρων, χεῖρον", U "Komp. zu κακός"));
   (U "χέω", (U "gießen, vergießen", U "χέω", []));
   (U "χορός", (U "Tanz, Reigen", U "χορός, οῦ, ὁ", []));
   (U "χράομαι", (U "gebrauchen, benutzen", U "χράομαι, χρήσομαι, ἐχρησάμην, κέχρημαι", []));
   (U "χρή", (U "es ist nötig, man muss", U "χρή", []));
   (U "χρῆμα", (U "Sache; pl. Geld", U "χρῆμα, ατος, τό", []));
   (U "χρήσιμος", (U "nützlich, brauchbar", U "χρήσιμος, η, ον", []));
   (U "χρόνος", (U "Zeit", U "χρόνος, ου, ὁ", []));
   (U "χρυσός", (U "Gold", U "χρυσός, οῦ, ὁ", []));
   (U "χώρα", (U "Land, Gegend; Ort", U "χώρα, ας, ἡ", []));
   (U "χωρέω", (U "weichen, gehen", U "χωρέω", []));
   (U "χωρίς", (U "getrennt von, ohne", U "χωρίς", []))].

Definition vocab_psi : list (str * (str * str * str)) :=
  [(U "ψεύδω", (U "täuschen; lügen", U "ψεύδω, ψεύσω, ἔψευσα", []));
   (U "ψυχή", (U "Seele, Leben", U "ψυχή, ῆς, ἡ", []));
   (U "ψυχρός", (U "kalt", U "ψυχρός, ά, όν", []))].

Definition vocab_omega : list (str * (str * str * str)) :=
  [(U "ὦ", (U "o!", U "ὦ", []));
   (U "ὦδε", (U "so, folgendermaßen", U "ὦδε", []));
   (U "ᾠδή", (U "Gesang, Lied", U "ᾠδή, ῆς, ἡ", []));
   (U "ὥρα", (U "Jahreszeit; rechte Zeit", U "ὥρα, ας, ἡ", []));
   (U "ὡς", (U "wie, dass; damit", U "ὡς", []));
   (U "ὥσπερ", (U "wie, gerade wie", U "ὥσπερ", []));
   (U "ὥστε", (U "so dass; daher", U "ὥστε", []));
   (U "ὠφελέω", (U "nützen; unterstützen", U "ὠφελέω", []));
   (U "ὠφέλιμος", (U "nützlich", U "ὠφέλιμος, ον", []))].
Definition synonyme_items : list (str * str) :=
  [(U "νόος", U "νοῦς");
   (U "νόος", U "νοῦς");
   (U "ἐσθίω", U "ἔσθω");
   (U "Ζεύς", U "Ζεύς");
   (U "ἐάω", U "ἐάω");
   (U "θέλω", U "ἐθέλω");
   (U "βιόω", U "ζάω");
   (U "γῆ", U "γαῖα");
   (U "θάλαττα", U "θάλασσα");
   (U "πλείων", U "πλέων");
   (U "σμικρός", U "μικρός");
   (U "ξύν", U "σύν");
   (U "τέσσαρες", U "τέτταρες")].

Definition accent_items : list (str * str) :=
  [(U "ά", U "α"); (U "ὰ", U "α"); (U "ἀ", U "α"); (U "ἁ", U "α"); (U "ἂ", U "α"); (U "ἃ", U "α"); (U "ἄ", U "α"); (U "ἅ", U "α");
   (U "έ", U "ε"); (U "ὲ", U "ε"); (U "ἐ", U "ε"); (U "ἑ", U "ε"); (U "ἒ", U "ε"); (U "ἓ", U "ε"); (U "ἔ", U "ε"); (U "ἕ", U "ε");
   (U "ή", U "η"); (U "ὴ", U "η"); (U "ἠ", U "η"); (U "ἡ", U "η"); (U "ἢ", U "η"); (U "ἣ", U "η"); (U "ἤ", U "η"); (U "ἥ", U "η");
   (U "ί", U "ι"); (U "ὶ", U "ι"); (U "ἰ", U "ι"); (U "ἱ", U "ι"); (U "ἲ", U "ι"); (U "ἳ", U "ι"); (U "ἴ", U "ι"); (U "ἵ", U "ι");
   (U "ό", U "ο"); (U "ὸ", U "ο"); (U "ὀ", U "ο"); (U "ὁ", U "ο"); (U "ὂ", U "ο"); (U "ὃ", U "ο"); (U "ὄ", U "ο"); (U "ὅ", U "ο");
   (U "ύ", U "υ"); (U "ὺ", U "υ"); (U "ὐ", U "υ"); (U "ὑ", U "υ"); (U "ὒ", U "υ"); (U "ὓ", U "υ"); (U "ὔ", U "υ"); (U "ὕ", U "υ");
   (U "ώ", U "ω"); (U "ὼ", U "ω"); (U "ὠ", U "ω"); (U "ὡ", U "ω"); (U "ὢ", U "ω"); (U "ὣ", U "ω"); (U "ὤ", U "ω"); (U "ὥ", U "ω");
   (U "ΐ", U "ι"); (U "ῒ", U "ι"); (U "ῗ", U "ι"); (U "ΰ", U "υ"); (U "ῢ", U "υ"); (U "ῧ", U "υ");
   (U "ᾶ", U "α"); (U "ῆ", U "η"); (U "ῖ", U "ι"); (U "ῦ", U "υ"); (U "ῶ", U "ω")].

Definition artikel_items : list str :=
  [U "ὁ"; U "ἡ"; U "τό"; U "τὸ"; U "οἱ"; U "αἱ"; U "τά"; U "τὰ"; U "τὸν"; U "τὴν"; U "τοῦ"; U "τῆς"; U "τῷ"; U "τῇ"; U "τούς"; U "τάς"].

(** [OmegaWortschatz.__init__] *)
Definition _build_dictionary : dict (str * str * str) :=
  fold_left dict_update
    [vocab_alpha; vocab_beta; vocab_gamma; vocab_delta; vocab_epsilon;
     vocab_zeta; vocab_eta; vocab_theta; vocab_iota; vocab_kappa; vocab_lamda;
     vocab_my; vocab_ny; vocab_xi; vocab_omicron; vocab_pi; vocab_rho;
     vocab_sigma; vocab_tau; vocab_ypsilon; vocab_phi; vocab_chi; vocab_psi;
     vocab_omega]
    [].

Definition _build_synonyme : dict str := dict_literal synonyme_items.

Definition OmegaWortschatz_init : OmegaWortschatz :=
  {| vocab_dict := _build_dictionary; synonyme := _build_synonyme |}.

Definition accent_map : dict str := dict_literal accent_items.

(** [_remove_accents]: every character is replaced by
    [accent_map.get(char, char)] and the pieces are joined. *)
Definition _remove_accents (text : str) : str :=
  concat
    (map (fun char => match dict_get accent_map [char] with
                      | Some v => v
                      | None => [char]
                      end)
         text).

(** [[b.strip() for b in bedeutung.split(';')]] *)
Definition split_bedeutung (bedeutung : str) : list str :=
  map strip (split (ch ";") bedeutung).

(** The first key, in iteration order, whose accent-free form is the given
    one (the [for key in self.vocab_dict] loop). *)
Definition find_no_accent {V} (d : dict V) (no_accent : str) : option (str * V) :=
  find (fun kv => str_eqb (_remove_accents (fst kv)) no_accent) d.

Definition finde_bedeutung (self : OmegaWortschatz) (griechisch : str)
  : option (list str) * bool * str :=
  let suchbegriff := strip griechisch in
  match dict_get (vocab_dict self) suchbegriff with
  | Some (bedeutung, stammformen, zusatz) =>
      (Some (split_bedeutung bedeutung), true,
       strip (stammformen ++ U " " ++ zusatz))
  | None =>
      let synonym :=
        match dict_get (synonyme self) suchbegriff with
        | Some hauptform =>
            match dict_get (vocab_dict self) hauptform with
            | Some (bedeutung, stammformen, zusatz) =>
                Some (Some (split_bedeutung bedeutung), true,
                      strip (stammformen ++ U " " ++ zusatz
                             ++ U " [Synonym zu " ++ hauptform ++ U "]"))
            | None => None
            end
        | None => None
        end in
      match synonym with
      | Some r => r
      | None =>
          let suchbegriff_no_accent := _remove_accents suchbegriff in
          match find_no_accent (vocab_dict self) suchbegriff_no_accent with
          | Some (_, (bedeutung, stammformen, zusatz)) =>
              (Some (split_bedeutung bedeutung), true,
               strip (stammformen ++ U " " ++ zusatz))
          | None => (None, false, [])
          end
      end
  end.

(** ** [VokabelPDFParser] *)

Record VokabelPDFParser := {
  omega : OmegaWortschatz;
  artikel : list str
}.

(** [VokabelPDFParser.__init__] *)
Definition VokabelPDFParser_init : VokabelPDFParser :=
  {| omega := OmegaWortschatz_init; artikel := artikel_items |}.

(** [bedeutungen if bedeutungen else []] *)
Definition or_empty (bedeutungen : option (list str)) : list str :=
  match bedeutungen with Some l => l | None => [] end.

(** The first Greek word that is no article, else the first Greek word. *)
Definition pick_hauptwort (artikel : list str) (greek_words : list str)
  : option str :=
  match find (fun w => negb (str_in w artikel)) greek_words with
  | Some w => Some w
  | None =>
      match greek_words with
      | w :: _ => Some w
      | [] => None
      end
  end.

(** The local variables of [_parse_text] that the loop over the lines
    updates. *)
Record parse_state := {
  result : list VokabelEintrag;
  current_main : Z;
  next_sub : Z
}.

Definition parse_start : parse_state :=
  {| result := []; current_main := 0; next_sub := 0 |}.

(** The body of [for raw_line in lines]. *)
Definition parse_line (self : VokabelPDFParser) (st : parse_state)
  (raw_line : str) : parse_state :=
  let line := strip raw_line in
  match line with
  | [] => st
  | _ :: _ =>
      match match_number line with
      | Some (num, tail) =>
          let current_main := int num in
          let rest := strip tail in
          let greek_words := findall_greek rest in
          let hauptwort := pick_hauptwort (artikel self) greek_words in
          let eintrag :=
            match hauptwort with
            | Some ((_ :: _) as w) =>
                let '(bedeutungen, gefunden, _) := finde_bedeutung (omega self) w in
                {| main_num := current_main; sub_num := 0; griechisch := w;
                   stammformen := rest; bedeutungen := or_empty bedeutungen;
                   gefunden := gefunden; original_zeile := line |}
            | _ =>
                {| main_num := current_main; sub_num := 0; griechisch := [];
                   stammformen := rest; bedeutungen := [];
                   gefunden := false; original_zeile := line |}
            end in
          {| result := result st ++ [eintrag];
             current_main := current_main; next_sub := 0 |}
      | None =>
          if (current_main st =? 0)%Z then st
          else
            match findall_greek line with
            | [] => st
            | suchwort :: _ =>
                let next_sub := (next_sub st + 1)%Z in
                let '(bedeutungen, gefunden, _) :=
                  finde_bedeutung (omega self) suchwort in
                let eintrag :=
                  {| main_num := current_main st; sub_num := next_sub;
                     griechisch := suchwort; stammformen := line;
                     bedeutungen := or_empty bedeutungen;
                     gefunden := gefunden; original_zeile := line |} in
                {| result := result st ++ [eintrag];
                   current_main := current_main st; next_sub := next_sub |}
            end
      end
  end.

(** The loop over the lines of one page, from any state. *)
Definition parse_lines (self : VokabelPDFParser) (st : parse_state)
  (lines : list str) : parse_state :=
  fold_left (parse_line self) lines st.

Definition _parse_text (self : VokabelPDFParser) (text : str)
  : list VokabelEintrag :=
  let lines := split 0x0A text in
  result (parse_lines self parse_start lines).

(** The sort key [(x.main_num, x.sub_num)] and the order of tuples of
    integers. *)
Definition sort_key (x : VokabelEintrag) : Z * Z := (main_num x, sub_num x).

Definition key_lt (a b : Z * Z) : bool :=
  ((fst a <? fst b) || ((fst a =? fst b) && (snd a <? snd b)))%Z.

(** [list.sort(key=...)] is a stable sort that compares keys with [<].  The
    stable sorted arrangement of a list is unique, so the insertion sort below
    computes the same list as the interpreter's algorithm. *)
Fixpoint sort_insert (x : VokabelEintrag) (l : list VokabelEintrag)
  : list VokabelEintrag :=
  match l with
  | [] => [x]
  | y :: r =>
      if key_lt (sort_key y) (sort_key x) then y :: sort_insert x r
      else x :: l
  end.

Fixpoint sort (l : list VokabelEintrag) : list VokabelEintrag :=
  match l with
  | [] => []
  | x :: r => sort_insert x (sort r)
  end.

(** [parse_pdf], over the texts that [page.extract_text()] gives for the
    pages of the file ([None] or an empty text for a page without text). *)
Definition parse_pdf (self : VokabelPDFParser) (pages : list (option str))
  : list VokabelEintrag :=
  let eintraege :=
    fold_left
      (fun eintraege page =>
         match page with
         | Some ((_ :: _) as text) => eintraege ++ _parse_text self text
         | _ => eintraege
         end)
      pages [] in
  sort eintraege.

(** ** The earlier parser of [src/ja.py]

    It reads numbered lines only.  Its [OmegaWortschatz] is left out of that
    file (the file says the class is the same as before), so the parser is
    given the class above. *)

Module Ja.

Record VokabelEintrag := {
  position : Z;
  griechisch : str;
  stammformen : str;
  zusatz : str;
  bedeutungen : list str;
  gefunden : bool;
  original_zeile : str
}.

(** The body of [for line in lines]. *)
Definition parse_line (self : VokabelPDFParser)
  (eintraege : list VokabelEintrag) (raw_line : str) : list VokabelEintrag :=
  let line := strip raw_line in
  match line with
  | [] => eintraege
  | _ :: _ =>
      match match_number line with
      | None => eintraege
      | Some (digits, tail) =>
          let num := int digits in
          let rest := strip tail in
          match findall_greek rest with
          | [] => eintraege
          | (first :: _) as greek_words =>
              let hauptwort :=
                match find (fun w => negb (str_in w (artikel self))) greek_words with
                | Some w => w
                | None => first
                end in
              let '(bedeutungen, gefunden, _) :=
                finde_bedeutung (omega self) hauptwort in
              eintraege ++
              [{| position := num; griechisch := hauptwort;
                  stammformen := rest; zusatz := [];
                  bedeutungen := or_empty bedeutungen;
                  gefunden := gefunden; original_zeile := line |}]
          end
      end
  end.

Definition _parse_text (self : VokabelPDFParser) (text : str)
  : list VokabelEintrag :=
  fold_left (parse_line self) (split 0x0A text) [].

End Ja.


(** ** Vocabulary of the statements *)

(** What the exact match and the scan return for a record. *)
Definition treffer (eintrag : str * str * str) : option (list str) * bool * str :=
  let '(bedeutung, stammformen, zusatz) := eintrag in
  (Some (split_bedeutung bedeutung), true, strip (stammformen ++ U " " ++ zusatz)).

(** What the synonym tier returns for the record of [hauptform]. *)
Definition treffer_synonym (hauptform : str) (eintrag : str * str * str)
  : option (list str) * bool * str :=
  let '(bedeutung, stammformen, zusatz) := eintrag in
  (Some (split_bedeutung bedeutung), true,
   strip (stammformen ++ U " " ++ zusatz ++ U " [Synonym zu " ++ hauptform ++ U "]")).

(** The annotation marks a synonym redirection. *)
Definition synonym_marker : str := U "[Synonym zu".

(** The line has a Greek character, hence a Greek word. *)
Definition has_greek (s : str) : bool := existsb is_greek s.

(** The line, stripped, starts with a number (a primary line). *)
Definition starts_with_number (raw_line : str) : bool :=
  match match_number (strip raw_line) with Some _ => true | None => false end.

(** The number a primary line starts with. *)
Definition line_number (raw_line : str) : Z :=
  match match_number (strip raw_line) with
  | Some (num, _) => int num
  | None => 0
  end.

(** The line [c] under a main line numbered [n] gives an entry: it has
    Greek, and [n] is not 0 (the mark for no main line yet). *)
Definition gives_entry (n : Z) (c : str) : bool :=
  negb (n =? 0)%Z && has_greek c.

(** The numbering of an entry and the line it was made from. *)
Definition numbering (e : VokabelEintrag) : Z * Z * str :=
  (main_num e, sub_num e, original_zeile e).

(** The lines [cs] numbered [(n, k)], [(n, k + 1)], ... *)
Fixpoint numbered (n k : Z) (cs : list str) : list (Z * Z * str) :=
  match cs with
  | [] => []
  | c :: r => (n, k, c) :: numbered n (k + 1) r
  end.

(** The list is in the order of the sort key. *)
Fixpoint ordered (l : list VokabelEintrag) : bool :=
  match l with
  | [] => true
  | x :: r =>
      match r with
      | [] => true
      | y :: _ => negb (key_lt (sort_key y) (sort_key x)) && ordered r
      end
  end.

(** Two sort keys are the same. *)
Definition key_eqb (a b : Z * Z) : bool :=
  ((fst a =? fst b) && (snd a =? snd b))%Z.

(** ** The first parser, of [src/ins.py]

    It takes every Greek word of a page as an entry.  Its [OmegaWortschatz]
    is the class above. *)

Module Ins.

Record VokabelEintrag := {
  position : Z;
  griechisch : str;
  stammformen : str;
  zusatz : str;
  bedeutungen : list str;
  gefunden : bool;
  original_zeile : str
}.

Record VokabelPDFParser := {
  omega : OmegaWortschatz
}.

(** The ranges of the character class of [greek_pattern], as written. *)
Definition greek_pattern : list (N * N) :=
  [(ch "α", ch "ω"); (ch "ἀ", ch "ὥ"); (ch "ἐ", ch "ἕ"); (ch "ἠ", ch "ὥ");
   (ch "ἰ", ch "ΐ"); (ch "ἱ", ch "ἵ"); (ch "ὀ", ch "ὅ"); (ch "ὐ", ch "ϋ");
   (ch "ὑ", ch "ὕ"); (ch "ὠ", ch "ὧ"); (ch "ᾀ", ch "ᾠ"); (ch "ᾰ", ch "ᾱ");
   (ch "ᾳ", ch "ῳ")].

(** A character class compiles when no range of it runs backwards; else
    [re] raises [re.error] (bad character range). *)
Definition class_compiles (ranges : list (N * N)) : bool :=
  forallb (fun r => fst r <=? snd r) ranges.

Definition in_class (ranges : list (N * N)) (x : N) : bool :=
  existsb (fun r => (fst r <=? x) && (x <=? snd r)) ranges.

Fixpoint class_scan (ranges : list (N * N)) (s : str) : str * list str :=
  match s with
  | [] => ([], [])
  | x :: r =>
      let '(cur, later) := class_scan ranges r in
      if in_class ranges x then (x :: cur, later)
      else ([], match cur with [] => later | _ => cur :: later end)
  end.

(** [re.findall] for a pattern that is one group of a repeated class: the
    maximal runs of characters of the class; [None] for [re.error]. *)
Definition re_findall (ranges : list (N * N)) (s : str) : option (list str) :=
  if class_compiles ranges then
    let '(cur, later) := class_scan ranges s in
    Some (match cur with [] => later | _ => cur :: later end)
  else None.

(** The characters of [str.isdigit] (Unicode 14). *)
Definition digit_ranges : list (N * N) :=
  [(0x30, 0x39); (0xb2, 0xb3); (0xb9, 0xb9); (0x660, 0x669); (0x6f0, 0x6f9);
   (0x7c0, 0x7c9); (0x966, 0x96f); (0x9e6, 0x9ef); (0xa66, 0xa6f); (0xae6,
   0xaef); (0xb66, 0xb6f); (0xbe6, 0xbef); (0xc66, 0xc6f); (0xce6, 0xcef);
   (0xd66, 0xd6f); (0xde6, 0xdef); (0xe50, 0xe59); (0xed0, 0xed9); (0xf20,
   0xf29); (0x1040, 0x1049); (0x1090, 0x1099); (0x1369, 0x1371); (0x17e0,
   0x17e9); (0x1810, 0x1819); (0x1946, 0x194f); (0x19d0, 0x19da); (0x1a80,
   0x1a89); (0x1a90, 0x1a99); (0x1b50, 0x1b59); (0x1bb0, 0x1bb9); (0x1c40,
   0x1c49); (0x1c50, 0x1c59); (0x2070, 0x2070); (0x2074, 0x2079); (0x2080,
   0x2089); (0x2460, 0x2468); (0x2474, 0x247c); (0x2488, 0x2490); (0x24ea,
   0x24ea); (0x24f5, 0x24fd); (0x24ff, 0x24ff); (0x2776, 0x277e); (0x2780,
   0x2788); (0x278a, 0x2792); (0xa620, 0xa629); (0xa8d0, 0xa8d9); (0xa900,
   0xa909); (0xa9d0, 0xa9d9); (0xa9f0, 0xa9f9); (0xaa50, 0xaa59); (0xabf0,
   0xabf9); (0xff10, 0xff19); (0x104a0, 0x104a9); (0x10a40, 0x10a43);
   (0x10d30, 0x10d39); (0x10e60, 0x10e68); (0x11052, 0x1105a); (0x11066,
   0x1106f); (0x110f0, 0x110f9); (0x11136, 0x1113f); (0x111d0, 0x111d9);
   (0x112f0, 0x112f9); (0x11450, 0x11459); (0x114d0, 0x114d9); (0x11650,
   0x11659); (0x116c0, 0x116c9); (0x11730, 0x11739); (0x118e0, 0x118e9);
   (0x11950, 0x11959); (0x11c50, 0x11c59); (0x11d50, 0x11d59); (0x11da0,
   0x11da9); (0x16a60, 0x16a69); (0x16ac0, 0x16ac9); (0x16b50, 0x16b59);
   (0x1d7ce, 0x1d7ff); (0x1e140, 0x1e149); (0x1e2f0, 0x1e2f9); (0x1e950,
   0x1e959); (0x1f100, 0x1f10a); (0x1fbf0, 0x1fbf9)].

(** [s.isdigit()] *)
Definition str_isdigit (s : str) : bool :=
  match s with
  | [] => false
  | _ :: _ => forallb (in_class digit_ranges) s
  end.

(** The body of [for match in matches], on [eintraege] and [current_pos]. *)
Definition parse_match (self : VokabelPDFParser) (line : str)
  (st : list VokabelEintrag * Z) (m : str) : list VokabelEintrag * Z :=
  let '(eintraege, current_pos) := st in
  if (2 <=? length m)%nat then
    if negb (str_isdigit m) then
      let '(bedeutungen, gefunden, zusatz) := finde_bedeutung (omega self) m in
      (eintraege ++
       [{| position := current_pos; griechisch := m; stammformen := zusatz;
           zusatz := []; bedeutungen := or_empty bedeutungen;
           gefunden := gefunden; original_zeile := line |}],
       (current_pos + 1)%Z)
    else st
  else st.

(** The body of [for line in lines]; [None] once an exception is raised. *)
Definition parse_line (self : VokabelPDFParser)
  (st : option (list VokabelEintrag * Z)) (line : str)
  : option (list VokabelEintrag * Z) :=
  match st with
  | None => None
  | Some s =>
      match re_findall greek_pattern line with
      | None => None
      | Some matches => Some (fold_left (parse_match self line) matches s)
      end
  end.

(** [_parse_text]: the entries, or [None] when an exception is raised. *)
Definition _parse_text (self : VokabelPDFParser) (text : str)
  : option (list VokabelEintrag) :=
  match fold_left (parse_line self) (split 0x0A text) (Some ([], 1%Z)) with
  | Some (eintraege, _) => Some eintraege
  | None => None
  end.

End Ins.

(** ** The table of [PDFGenerator.erstelle_pdf] and the steps of [main] *)

(** [sep.join(l)] *)
Fixpoint join (sep : str) (l : list str) : str :=
  match l with
  | [] => []
  | x :: r =>
      match r with
      | [] => x
      | _ :: _ => x ++ sep ++ join sep r
      end
  end.

(** The decimal digits of [n] before [acc]; [fuel] bounds their number. *)
Fixpoint decimal (fuel : nat) (n : N) (acc : str) : str :=
  match fuel with
  | O => acc
  | S f =>
      let acc' := (0x30 + n mod 10) :: acc in
      if n / 10 =? 0 then acc' else decimal f (n / 10) acc'
  end.

(** [str(z)] for an integer. *)
Definition str_of_int (z : Z) : str :=
  match z with
  | Z0 => [0x30]
  | Zpos p => decimal (Pos.size_nat p) (Npos p) []
  | Zneg p => 0x2D :: decimal (Pos.size_nat p) (Npos p) []
  end.

Definition nicht_gefunden : str := U "⚠️ nicht gefunden".

(** The first row of [data]. *)
Definition tabellen_kopf : list str :=
  [U "Nr."; U "Griechisch"; U "Stammformen (PDF)"; U "Bedeutungen"].

(** The row [[nr, griech, stamm, bedeutung]] of one entry. *)
Definition tabellen_zeile (e : VokabelEintrag) : list str :=
  let nr := if (sub_num e =? 0)%Z then str_of_int (main_num e) else [] in
  let griech :=
    if (sub_num e >? 0)%Z then U "  " ++ griechisch e else griechisch e in
  let stamm := stammformen e in
  let bedeutung :=
    match bedeutungen e with
    | [] => nicht_gefunden
    | _ :: _ => join (U "; ") (bedeutungen e)
    end in
  [nr; griech; stamm; bedeutung].

(** The list [data] that [erstelle_pdf] lays out as the table. *)
Definition erstelle_pdf_data (eintraege : list VokabelEintrag) : list (list str) :=
  tabellen_kopf :: map tabellen_zeile eintraege.

(** [main]: [[e for e in eintraege if e.sub_num == 0]] *)
Definition haupt_eintraege (eintraege : list VokabelEintrag) : list VokabelEintrag :=
  filter (fun e => (sub_num e =? 0)%Z) eintraege.

(** [main]: the text shown in the text area of an entry. *)
Definition aktuell (e : VokabelEintrag) : str :=
  match bedeutungen e with
  | [] => []
  | _ :: _ => join (U "; ") (bedeutungen e)
  end.

(** [main]: the manual correction of an entry by the text [neu] of its text
    area. *)
Definition korrigiere (e : VokabelEintrag) (neu : str) : VokabelEintrag :=
  match neu with
  | [] => e
  | _ :: _ =>
      if negb (str_eqb neu (aktuell e)) then
        {| main_num := main_num e; sub_num := sub_num e;
           griechisch := griechisch e; stammformen := stammformen e;
           bedeutungen := map strip (split (ch ";") neu);
           gefunden := true; original_zeile := original_zeile e |}
      else e
  end.

(** ** Vocabulary of the further statements *)

(** A meaning has no semicolon in it and no blanks around it. *)
Definition clean (g : str) : Prop := strip g = g /\ ~ In (ch ";") g.

(** The entries of one page of the file. *)
Definition page_entries (self : VokabelPDFParser) (page : option str)
  : list VokabelEintrag :=
  match page with
  | Some text => _parse_text self text
  | None => []
  end.

(** The key of the last entry of [r], [prev] when there is none. *)
Definition last_key (prev : Z * Z) (r : list VokabelEintrag) : Z * Z :=
  fold_left (fun _ e => sort_key e) r prev.

(** An entry can follow an entry with the key [prev]: it is a main entry, or
    the next sub entry of the same main number. *)
Definition follows (prev : Z * Z) (e : VokabelEintrag) : bool :=
  ((sub_num e =? 0) || ((main_num e =? fst prev) && (sub_num e =? snd prev + 1)))%Z.

Fixpoint chain (prev : Z * Z) (l : list VokabelEintrag) : bool :=
  match l with
  | [] => true
  | e :: r => follows prev e && chain (sort_key e) r
  end.

(** The numbering of the entries of one page: a main entry first, and each
    further entry follows the one before. *)
Definition page_numbered (l : list VokabelEintrag) : bool :=
  match l with
  | [] => true
  | e :: r => (sub_num e =? 0)%Z && chain (sort_key e) r
  end.

(** The headword of an entry and its answer from the dictionary. *)
Definition looked_up (self : VokabelPDFParser) (e : VokabelEintrag) : Prop :=
  match griechisch e with
  | [] => bedeutungen e = [] /\ gefunden e = false
  | _ :: _ =>
      bedeutungen e = or_empty (fst (fst (finde_bedeutung (omega self) (griechisch e))))
      /\ gefunden e = snd (fst (finde_bedeutung (omega self) (griechisch e)))
  end.

(** The entry that a line with the number [n] and the text [rest] after it
    gives. *)
Definition main_record (self : VokabelPDFParser) (n : Z) (rest line : str)
  : VokabelEintrag :=
  match pick_hauptwort (artikel self) (findall_greek rest) with
  | Some ((_ :: _) as w) =>
      let '(bedeutungen, gefunden, _) := finde_bedeutung (omega self) w in
      {| main_num := n; sub_num := 0; griechisch := w;
         stammformen := rest; bedeutungen := or_empty bedeutungen;
         gefunden := gefunden; original_zeile := line |}
  | _ =>
      {| main_num := n; sub_num := 0; griechisch := [];
         stammformen := rest; bedeutungen := [];
         gefunden := false; original_zeile := line |}
  end.

(** The entry that a line without a number gives under the main number [n],
    as sub entry [k], for its first Greek word. *)
Definition sub_record (self : VokabelPDFParser) (n k : Z) (suchwort line : str)
  : VokabelEintrag :=
  let '(bedeutungen, gefunden, _) := finde_bedeutung (omega self) suchwort in
  {| main_num := n; sub_num := k; griechisch := suchwort; stammformen := line;
     bedeutungen := or_empty bedeutungen; gefunden := gefunden;
     original_zeile := line |}.




(** * Properties *)

(** ** Strings and dictionaries *)

Lemma str_eqb_eq (s t : str) : str_eqb s t = true <-> s = t.
Proof.
  revert t; induction s as [|x s IH]; intros [|y t]; simpl;
    try (split; [discriminate | congruence]); try tauto.
  rewrite andb_true_iff, N.eqb_eq, IH.
  split; [intros [-> ->]; reflexivity | intros H; injection H; auto].
Qed.


Lemma dict_get_In {V} (d : dict V) (k : str) (v : V) :
  dict_get d k = Some v -> In (k, v) d.
Proof.
  induction d as [|[k' v'] r IH]; simpl; [discriminate|].
  destruct (str_eqb k k') eqn:E.
  - apply str_eqb_eq in E; subst k'.
    intros H; injection H as ->; left; reflexivity.
  - intros H; right; auto.
Qed.

Lemma dict_get_key {V} (d : dict V) (k : str) (v : V) :
  dict_get d k = Some v -> In k (dict_keys d).
Proof.
  intros H; apply dict_get_In in H.
  unfold dict_keys; change k with (fst (k, v)); apply in_map; exact H.
Qed.

Lemma dict_mem_true {V} (d : dict V) (k : str) :
  dict_mem d k = true -> exists v, dict_get d k = Some v.
Proof.
  unfold dict_mem; destruct (dict_get d k) as [v|]; [|discriminate].
  intros _; exists v; reflexivity.
Qed.

Lemma dict_mem_false {V} (d : dict V) (k : str) :
  dict_mem d k = false -> dict_get d k = None.
Proof.
  unfold dict_mem; destruct (dict_get d k); [discriminate|reflexivity].
Qed.

Lemma split_not_nil (sep : N) (s : str) : split sep s <> [].
Proof.
  destruct s as [|x r]; simpl; [discriminate|].
  destruct (x =? sep); [discriminate|].
  destruct (split sep r); discriminate.
Qed.

Lemma split_bedeutung_not_nil (bedeutung : str) : split_bedeutung bedeutung <> [].
Proof.
  unfold split_bedeutung; intros H; apply map_eq_nil in H.
  exact (split_not_nil _ _ H).
Qed.

(** ** The three tiers of [finde_bedeutung], for any dictionary *)

Section Tiers.

Variable self : OmegaWortschatz.

Lemma tier_exact (w : str) (eintrag : str * str * str) :
  dict_get (vocab_dict self) (strip w) = Some eintrag ->
  finde_bedeutung self w = treffer eintrag.
Proof.
  intros H; unfold finde_bedeutung; rewrite H.
  destruct eintrag as [[b s] z]; reflexivity.
Qed.

Lemma tier_synonym (w hauptform : str) (eintrag : str * str * str) :
  dict_get (vocab_dict self) (strip w) = None ->
  dict_get (synonyme self) (strip w) = Some hauptform ->
  dict_get (vocab_dict self) hauptform = Some eintrag ->
  finde_bedeutung self w = treffer_synonym hauptform eintrag.
Proof.
  intros H1 H2 H3; unfold finde_bedeutung; rewrite H1, H2, H3.
  destruct eintrag as [[b s] z]; reflexivity.
Qed.

Lemma tier_scan (w : str) :
  dict_get (vocab_dict self) (strip w) = None ->
  (forall h, dict_get (synonyme self) (strip w) = Some h ->
             dict_get (vocab_dict self) h = None) ->
  finde_bedeutung self w =
  match find_no_accent (vocab_dict self) (_remove_accents (strip w)) with
  | Some (_, eintrag) => treffer eintrag
  | None => (None, false, [])
  end.
Proof.
  intros H1 H2; unfold finde_bedeutung; rewrite H1.
  destruct (dict_get (synonyme self) (strip w)) as [h|] eqn:E.
  - rewrite (H2 h eq_refl).
    destruct (find_no_accent _ _) as [[k [[b s] z]]|]; reflexivity.
  - destruct (find_no_accent _ _) as [[k [[b s] z]]|]; reflexivity.
Qed.

Lemma find_no_accent_none (w : str) :
  (forall k, In k (dict_keys (vocab_dict self)) ->
             _remove_accents k <> _remove_accents w) ->
  find_no_accent (vocab_dict self) (_remove_accents w) = None.
Proof.
  intros H; unfold find_no_accent.
  destruct (find _ _) as [[k v]|] eqn:E; [|reflexivity].
  apply find_some in E; destruct E as [Hin Heq]; simpl in Heq.
  apply str_eqb_eq in Heq.
  exfalso; apply (H k); [|exact Heq].
  unfold dict_keys; change k with (fst (k, v)); apply in_map; exact Hin.
Qed.

(** The two side conditions as tests that can be run. *)
Lemma no_synonym_key (w : str) :
  dict_get (synonyme self) w = None ->
  forall h, dict_get (synonyme self) w = Some h ->
            dict_get (vocab_dict self) h = None.
Proof. intros H h Hh; rewrite H in Hh; discriminate Hh. Qed.

Lemma synonym_without_key (w h : str) :
  dict_get (synonyme self) w = Some h ->
  dict_mem (vocab_dict self) h = false ->
  forall h', dict_get (synonyme self) w = Some h' ->
             dict_get (vocab_dict self) h' = None.
Proof.
  intros H Hm h' Hh'; rewrite H in Hh'; injection Hh' as <-.
  apply dict_mem_false; exact Hm.
Qed.

Lemma no_accent_key (w : str) :
  forallb (fun k => negb (str_eqb (_remove_accents k) (_remove_accents w)))
    (dict_keys (vocab_dict self)) = true ->
  forall k, In k (dict_keys (vocab_dict self)) ->
            _remove_accents k <> _remove_accents w.
Proof.
  intros H k Hin Heq.
  pose proof (proj1 (forallb_forall _ _) H k Hin) as Hk; cbv beta in Hk.
  apply (proj2 (str_eqb_eq _ _)) in Heq.
  rewrite Heq in Hk; discriminate Hk.
Qed.

(** The shape of every answer. *)
Lemma finde_bedeutung_cases (w : str) :
  (exists eintrag, finde_bedeutung self w = treffer eintrag) \/
  (exists h eintrag, finde_bedeutung self w = treffer_synonym h eintrag) \/
  finde_bedeutung self w = (None, false, []).
Proof.
  unfold finde_bedeutung.
  destruct (dict_get (vocab_dict self) (strip w)) as [[[b s] z]|].
  { left; exists (b, s, z); reflexivity. }
  destruct (dict_get (synonyme self) (strip w)) as [h|].
  - destruct (dict_get (vocab_dict self) h) as [[[b s] z]|].
    { right; left; exists h, (b, s, z); reflexivity. }
    destruct (find_no_accent _ _) as [[k [[b s] z]]|].
    + left; exists (b, s, z); reflexivity.
    + right; right; reflexivity.
  - destruct (find_no_accent _ _) as [[k [[b s] z]]|].
    + left; exists (b, s, z); reflexivity.
    + right; right; reflexivity.
Qed.

End Tiers.

(** ** The static dictionary *)

Lemma keys_stripped (k : str) :
  In k (dict_keys (vocab_dict OmegaWortschatz_init)) -> strip k = k.
Proof.
  assert (H : forallb (fun k => str_eqb (strip k) k)
                (dict_keys (vocab_dict OmegaWortschatz_init)) = true)
    by (vm_compute; reflexivity).
  intros Hin; apply str_eqb_eq.
  exact (proj1 (forallb_forall _ _) H k Hin).
Qed.

(** C3: for every key [k] of the static dictionary, with record
    [(bedeutung, stammformen, zusatz)], [finde_bedeutung k] is found, its
    meanings are the pieces of [bedeutung] between semicolons, each stripped,
    and its annotation is [stammformen] joined with [zusatz] (by a blank, the
    whole stripped). *)
Theorem finde_bedeutung_key (k bedeutung stammformen zusatz : str) :
  dict_get (vocab_dict OmegaWortschatz_init) k = Some (bedeutung, stammformen, zusatz) ->
  finde_bedeutung OmegaWortschatz_init k =
  (Some (map strip (split (ch ";") bedeutung)), true,
   strip (stammformen ++ U " " ++ zusatz)).
Proof.
  intros H.
  assert (Hk : strip k = k) by (eapply keys_stripped, dict_get_key, H).
  rewrite (tier_exact OmegaWortschatz_init k (bedeutung, stammformen, zusatz)).
  - reflexivity.
  - rewrite Hk; exact H.
Qed.

Lemma finde_bedeutung_key_witness :
  finde_bedeutung OmegaWortschatz_init (U "ψεύδω") =
  (Some (map strip (split (ch ";") (U "täuschen; lügen"))), true,
   strip (U "ψεύδω, ψεύσω, ἔψευσα" ++ U " " ++ [])).
Proof.
  apply (finde_bedeutung_key (U "ψεύδω") (U "täuschen; lügen")
           (U "ψεύδω, ψεύσω, ἔψευσα") []).
  vm_compute; reflexivity.
Defined.

(** C4 as stated fails: the annotation of [βιόω] has no synonym marker. *)
Lemma biow_annotation_unmarked :
  contains synonym_marker (snd (finde_bedeutung OmegaWortschatz_init (U "βιόω"))) = false.
Proof. vm_compute; reflexivity. Qed.

(** C4, amended: [βιόω] and [ζάω] have the same meanings; [βιόω] is a key of
    the dictionary itself, so the exact match answers before the synonym table
    is read: the annotation is that of the record of [βιόω], without a synonym
    marker. *)
Theorem biow_exact_match :
  fst (fst (finde_bedeutung OmegaWortschatz_init (U "βιόω"))) =
  fst (fst (finde_bedeutung OmegaWortschatz_init (U "ζάω")))
  /\ dict_get (synonyme OmegaWortschatz_init) (U "βιόω") = Some (U "ζάω")
  /\ dict_get (vocab_dict OmegaWortschatz_init) (U "βιόω") =
     Some (U "leben", U "βιόω, βιώσομαι, ἐβίων, βεβίωκα", [])
  /\ finde_bedeutung OmegaWortschatz_init (U "βιόω") =
     (Some [U "leben"], true, U "βιόω, βιώσομαι, ἐβίων, βεβίωκα").
Proof.
  assert (H : dict_get (vocab_dict OmegaWortschatz_init) (strip (U "βιόω")) =
              Some (U "leben", U "βιόω, βιώσομαι, ἐβίων, βεβίωκα", []))
    by (vm_compute; reflexivity).
  pose proof (tier_exact _ _ _ H) as E.
  split; [|split; [|split]].
  - rewrite E; vm_compute; reflexivity.
  - vm_compute; reflexivity.
  - vm_compute; reflexivity.
  - rewrite E; vm_compute; reflexivity.
Qed.

(** A redirection that is taken: [θέλω] is no key, its main form [ἐθέλω] is. *)
Example thelw_synonym :
  finde_bedeutung OmegaWortschatz_init (U "θέλω") =
  (Some [U "wollen"; U "bereit sein"], true,
   U "ἐθέλω, ἐθελήσω, ἠθέλησα, ἠθέληκα  [Synonym zu ἐθέλω]").
Proof. vm_compute; reflexivity. Qed.

(** C7: [ανθρωπος] is neither a key nor a synonym; the scan without accents
    finds the key [ἄνθρωπος], and the answer has its meanings, [Mensch]. *)
Theorem anthropos_without_accents :
  dict_mem (vocab_dict OmegaWortschatz_init) (U "ανθρωπος") = false
  /\ dict_mem (synonyme OmegaWortschatz_init) (U "ανθρωπος") = false
  /\ find_no_accent (vocab_dict OmegaWortschatz_init)
       (_remove_accents (U "ανθρωπος")) =
     Some (U "ἄνθρωπος", (U "Mensch", U "ἄνθρωπος, ου, ὁ", []))
  /\ finde_bedeutung OmegaWortschatz_init (U "ανθρωπος") =
     (Some [U "Mensch"], true, U "ἄνθρωπος, ου, ὁ")
  /\ fst (fst (finde_bedeutung OmegaWortschatz_init (U "ανθρωπος"))) =
     fst (fst (finde_bedeutung OmegaWortschatz_init (U "ἄνθρωπος"))).
Proof.
  assert (H1 : dict_get (vocab_dict OmegaWortschatz_init) (strip (U "ανθρωπος")) = None)
    by (vm_compute; reflexivity).
  assert (H2 : dict_get (synonyme OmegaWortschatz_init) (strip (U "ανθρωπος")) = None)
    by (vm_compute; reflexivity).
  pose proof (tier_scan _ _ H1 (no_synonym_key _ _ H2)) as E.
  split; [|split; [|split; [|split]]].
  - vm_compute; reflexivity.
  - vm_compute; reflexivity.
  - vm_compute; reflexivity.
  - rewrite E; vm_compute; reflexivity.
  - rewrite E; vm_compute; reflexivity.
Qed.

(** C6: a word that is no key, whose synonym (if it has one) leads to no key,
    and whose accent-free form is that of no key, is answered by
    [(None, False, "")]: not found, no list of meanings (the caller reads it
    as the empty list), an empty annotation.  [finde_bedeutung] is a total
    function: there is an answer for every string, and no step of it can
    fail. *)
Theorem finde_bedeutung_unmatched (self : OmegaWortschatz) (w : str) :
  dict_get (vocab_dict self) (strip w) = None ->
  (forall h, dict_get (synonyme self) (strip w) = Some h ->
             dict_get (vocab_dict self) h = None) ->
  (forall k, In k (dict_keys (vocab_dict self)) ->
             _remove_accents k <> _remove_accents (strip w)) ->
  finde_bedeutung self w = (None, false, [])
  /\ or_empty (fst (fst (finde_bedeutung self w))) = [].
Proof.
  intros H1 H2 H3.
  assert (E : finde_bedeutung self w = (None, false, [])).
  { rewrite (tier_scan self w H1 H2), (find_no_accent_none self (strip w) H3).
    reflexivity. }
  rewrite E; split; reflexivity.
Qed.

Lemma finde_bedeutung_unmatched_witness :
  finde_bedeutung OmegaWortschatz_init (U "ξξξξ") = (None, false, [])
  /\ or_empty (fst (fst (finde_bedeutung OmegaWortschatz_init (U "ξξξξ")))) = [].
Proof.
  apply (finde_bedeutung_unmatched OmegaWortschatz_init (U "ξξξξ")).
  - vm_compute; reflexivity.
  - apply no_synonym_key; vm_compute; reflexivity.
  - apply no_accent_key; vm_compute; reflexivity.
Defined.

(** C10: whatever the dictionary and the word, the answer is found exactly
    when it carries at least one meaning: a found answer has a non-empty list
    of meanings, an answer that is not found has none. *)
Theorem gefunden_iff_bedeutungen (self : OmegaWortschatz) (w : str) :
  let '(bedeutungen, gefunden, _) := finde_bedeutung self w in
  (gefunden = true -> exists l, bedeutungen = Some l /\ l <> [])
  /\ (gefunden = false -> bedeutungen = None)
  /\ (gefunden = true <-> or_empty bedeutungen <> []).
Proof.
  destruct (finde_bedeutung_cases self w) as [[[[b s] z] E]|[[h [[[b s] z] E]]|E]];
    rewrite E; unfold treffer, treffer_synonym.
  - split; [|split; [|split]].
    + intros _; eexists; split; [reflexivity|apply split_bedeutung_not_nil].
    + discriminate.
    + intros _; apply split_bedeutung_not_nil.
    + reflexivity.
  - split; [|split; [|split]].
    + intros _; eexists; split; [reflexivity|apply split_bedeutung_not_nil].
    + discriminate.
    + intros _; apply split_bedeutung_not_nil.
    + reflexivity.
  - split; [|split; [|split]].
    + discriminate.
    + reflexivity.
    + discriminate.
    + intros H; exfalso; apply H; reflexivity.
Qed.

(** C8 as stated fails: [πλείων] redirects to [πλέων], which is no key. *)
Lemma synonym_pleiwn_no_key :
  dict_get (synonyme OmegaWortschatz_init) (U "πλείων") = Some (U "πλέων")
  /\ dict_mem (vocab_dict OmegaWortschatz_init) (U "πλέων") = false.
Proof. split; vm_compute; reflexivity. Qed.

Lemma synonyme_without_key :
  filter (fun kv => negb (dict_mem (vocab_dict OmegaWortschatz_init) (snd kv)))
    (synonyme OmegaWortschatz_init) =
  [(U "ἐσθίω", U "ἔσθω"); (U "γῆ", U "γαῖα"); (U "θάλαττα", U "θάλασσα");
   (U "πλείων", U "πλέων")].
Proof. vm_compute; reflexivity. Qed.

(** C8, amended: four values of the synonym table ([ἔσθω], [γαῖα], [θάλασσα],
    [πλέων]) are no keys of the dictionary; the other values are.  The synonym
    tier tests that the main form is a key before it redirects: a redirection
    that is taken is answered from the record of the main form, and a word
    whose main form is no key is passed on to the scan without accents (which
    finds nothing for it). *)
Theorem synonym_redirect_guarded :
  map snd
    (filter (fun kv => negb (dict_mem (vocab_dict OmegaWortschatz_init) (snd kv)))
       (synonyme OmegaWortschatz_init)) =
  [U "ἔσθω"; U "γαῖα"; U "θάλασσα"; U "πλέων"]
  /\ (forall w h,
        dict_get (vocab_dict OmegaWortschatz_init) (strip w) = None ->
        dict_get (synonyme OmegaWortschatz_init) (strip w) = Some h ->
        dict_mem (vocab_dict OmegaWortschatz_init) h = true ->
        exists eintrag,
          dict_get (vocab_dict OmegaWortschatz_init) h = Some eintrag
          /\ finde_bedeutung OmegaWortschatz_init w = treffer_synonym h eintrag)
  /\ (forall w h,
        dict_get (vocab_dict OmegaWortschatz_init) (strip w) = None ->
        dict_get (synonyme OmegaWortschatz_init) (strip w) = Some h ->
        dict_mem (vocab_dict OmegaWortschatz_init) h = false ->
        strip w = U "πλείων"
        /\ finde_bedeutung OmegaWortschatz_init w = (None, false, [])).
Proof.
  split; [rewrite synonyme_without_key; vm_compute; reflexivity|split].
  - intros w h H1 H2 H3.
    destruct (dict_mem_true _ _ H3) as [eintrag E].
    exists eintrag; split; [exact E|].
    apply tier_synonym; assumption.
  - intros w h H1 H2 H3.
    assert (Hin : In (strip w, h)
                    (filter (fun kv => negb (dict_mem (vocab_dict OmegaWortschatz_init) (snd kv)))
                       (synonyme OmegaWortschatz_init))).
    { apply (proj2 (filter_In _ (strip w, h) (synonyme OmegaWortschatz_init))).
      split.
      - exact (dict_get_In _ _ _ H2).
      - cbv beta; cbn [snd]; rewrite H3; reflexivity. }
    rewrite synonyme_without_key in Hin.
    assert (Hw : strip w = U "πλείων").
    { destruct Hin as [E|[E|[E|[E|[]]]]]; injection E as Ew Eh.
      - exfalso; rewrite <- Ew in H1; revert H1; vm_compute; discriminate.
      - exfalso; rewrite <- Ew in H1; revert H1; vm_compute; discriminate.
      - exfalso; rewrite <- Ew in H1; revert H1; vm_compute; discriminate.
      - symmetry; exact Ew. }
    split; [exact Hw|].
    rewrite (tier_scan OmegaWortschatz_init w H1 (synonym_without_key _ _ _ H2 H3)).
    rewrite Hw; vm_compute; reflexivity.
Qed.

(** ** Lines without Greek *)

Lemma findall_greek_cons (x : N) (r : str) :
  findall_greek (x :: r) =
  if is_greek x then (x :: fst (greek_scan r)) :: snd (greek_scan r)
  else findall_greek r.
Proof.
  unfold findall_greek; simpl.
  destruct (greek_scan r) as [cur later]; destruct (is_greek x); reflexivity.
Qed.

Lemma findall_greek_nil (s : str) :
  findall_greek s = [] <-> has_greek s = false.
Proof.
  induction s as [|x r IH]; [split; reflexivity|].
  rewrite findall_greek_cons; unfold has_greek in *; simpl.
  destruct (is_greek x); simpl; [split; discriminate|exact IH].
Qed.

Lemma has_greek_lstrip (s : str) :
  has_greek s = false -> has_greek (lstrip s) = false.
Proof.
  unfold has_greek; induction s as [|x r IH]; simpl; [reflexivity|].
  intros H; apply orb_false_iff in H; destruct H as [Hx Hr].
  destruct (isspace x); [auto|]; simpl; rewrite Hx, Hr; reflexivity.
Qed.

Lemma has_greek_rev (s : str) : has_greek (rev s) = has_greek s.
Proof.
  unfold has_greek; induction s as [|x r IH]; simpl; [reflexivity|].
  rewrite existsb_app, IH; simpl; rewrite orb_false_r; apply orb_comm.
Qed.

Lemma has_greek_strip (s : str) :
  has_greek s = false -> has_greek (strip s) = false.
Proof.
  intros H; unfold strip, rstrip.
  rewrite has_greek_rev; apply has_greek_lstrip.
  rewrite has_greek_rev; apply has_greek_lstrip; exact H.
Qed.

Lemma has_greek_span_digits (s : str) :
  has_greek s = false -> has_greek (snd (span_digits s)) = false.
Proof.
  unfold has_greek; induction s as [|x r IH]; simpl; [reflexivity|].
  intros H; destruct (isdigit x).
  - apply orb_false_iff in H; destruct H as [_ Hr].
    specialize (IH Hr); destruct (span_digits r); exact IH.
  - exact H.
Qed.

Lemma match_number_tail (line num tail : str) :
  match_number line = Some (num, tail) -> tail = snd (span_digits line).
Proof.
  unfold match_number; destruct (span_digits line) as [[|d ds] tl]; [discriminate|].
  intros H; injection H as _ <-; reflexivity.
Qed.

(** C5 as stated fails: a numbered line without Greek gives an entry. *)
Lemma numbered_line_without_greek :
  findall_greek (U "7 Haus") = []
  /\ _parse_text VokabelPDFParser_init (U "7 Haus") =
     [{| main_num := 7; sub_num := 0; griechisch := []; stammformen := U "Haus";
         bedeutungen := []; gefunden := false; original_zeile := U "7 Haus" |}].
Proof. split; vm_compute; reflexivity. Qed.

(** C5, amended: a line without Greek that does not start with a number
    gives no entry and leaves the state of the parser as it is; a line without
    Greek that starts with a number gives one main entry, with an empty
    headword, no meanings and [gefunden = False].  The earlier parser of
    [ja.py] gives no entry for any line without Greek. *)
Theorem line_without_greek (self : VokabelPDFParser) (st : parse_state)
  (raw_line : str) :
  findall_greek raw_line = [] ->
  (starts_with_number raw_line = false -> parse_line self st raw_line = st)
  /\ (forall num tail,
        match_number (strip raw_line) = Some (num, tail) ->
        parse_line self st raw_line =
        {| result := result st ++
                     [{| main_num := int num; sub_num := 0; griechisch := [];
                         stammformen := strip tail; bedeutungen := [];
                         gefunden := false; original_zeile := strip raw_line |}];
           current_main := int num; next_sub := 0 |})
  /\ (forall eintraege, Ja.parse_line self eintraege raw_line = eintraege).
Proof.
  intros H; apply findall_greek_nil in H.
  pose proof (has_greek_strip _ H) as Hline.
  assert (Hrest : forall num tail,
             match_number (strip raw_line) = Some (num, tail) ->
             findall_greek (strip tail) = []).
  { intros num tail Hm; apply findall_greek_nil, has_greek_strip.
    rewrite (match_number_tail _ _ _ Hm); apply has_greek_span_digits, Hline. }
  apply findall_greek_nil in Hline.
  split; [|split].
  - unfold starts_with_number, parse_line.
    destruct (strip raw_line) as [|x r]; [reflexivity|].
    destruct (match_number (x :: r)) as [[num tail]|]; [discriminate|].
    intros _; rewrite Hline; destruct (current_main st =? 0)%Z; reflexivity.
  - intros num tail Hm; unfold parse_line.
    pose proof (Hrest num tail Hm) as Hr.
    destruct (strip raw_line) as [|x r]; [discriminate Hm|].
    rewrite Hm, Hr; reflexivity.
  - intros eintraege; unfold Ja.parse_line.
    destruct (strip raw_line) as [|x r]; [reflexivity|].
    destruct (match_number (x :: r)) as [[num tail]|] eqn:Hm; [|reflexivity].
    rewrite (Hrest num tail eq_refl); reflexivity.
Qed.

Lemma line_without_greek_witness :
  (starts_with_number (U "nur deutsch") = false ->
   parse_line VokabelPDFParser_init parse_start (U "nur deutsch") = parse_start)
  /\ (forall num tail,
        match_number (strip (U "nur deutsch")) = Some (num, tail) ->
        parse_line VokabelPDFParser_init parse_start (U "nur deutsch") =
        {| result := result parse_start ++
                     [{| main_num := int num; sub_num := 0; griechisch := [];
                         stammformen := strip tail; bedeutungen := [];
                         gefunden := false;
                         original_zeile := strip (U "nur deutsch") |}];
           current_main := int num; next_sub := 0 |})
  /\ (forall eintraege,
        Ja.parse_line VokabelPDFParser_init eintraege (U "nur deutsch") = eintraege).
Proof.
  apply (line_without_greek VokabelPDFParser_init parse_start (U "nur deutsch")).
  vm_compute; reflexivity.
Defined.

(** C2: the line [1ὁ ἀνήρ τοῦ ἀνδρός] gives exactly one entry: main number 1,
    sub number 0, headword [ἀνήρ] (the article [ὁ], a member of the set of
    articles, is passed over), middle text [ὁ ἀνήρ τοῦ ἀνδρός]. *)
Theorem parse_aner :
  str_in (U "ὁ") (artikel VokabelPDFParser_init) = true
  /\ _parse_text VokabelPDFParser_init (U "1ὁ ἀνήρ τοῦ ἀνδρός") =
     [{| main_num := 1; sub_num := 0; griechisch := U "ἀνήρ";
         stammformen := U "ὁ ἀνήρ τοῦ ἀνδρός"; bedeutungen := [U "Mann"];
         gefunden := true; original_zeile := U "1ὁ ἀνήρ τοῦ ἀνδρός" |}].
Proof. split; vm_compute; reflexivity. Qed.

(** ** The numbering of main lines and of the lines under them *)

Lemma parse_lines_app (self : VokabelPDFParser) (st : parse_state)
  (l1 l2 : list str) :
  parse_lines self st (l1 ++ l2) = parse_lines self (parse_lines self st l1) l2.
Proof. apply fold_left_app. Qed.

(** A line that starts with a number: one entry with sub number 0; the
    number becomes the current main number and the counter is reset. *)
Lemma main_line (self : VokabelPDFParser) (st : parse_state) (p : str) :
  starts_with_number p = true ->
  exists e,
    parse_line self st p =
    {| result := result st ++ [e]; current_main := line_number p; next_sub := 0 |}
    /\ numbering e = (line_number p, 0%Z, strip p).
Proof.
  unfold starts_with_number, line_number, parse_line.
  destruct (strip p) as [|x r]; [discriminate|].
  destruct (match_number (x :: r)) as [[num tail]|]; [intros _|discriminate].
  destruct (pick_hauptwort (artikel self) (findall_greek (strip tail))) as [[|y w]|].
  - eexists; split; reflexivity.
  - destruct (finde_bedeutung (omega self) (y :: w)) as [[b g] a].
    eexists; split; reflexivity.
  - eexists; split; reflexivity.
Qed.

(** A line that does not start with a number, under a main number: with
    Greek, one entry with the current main number and the next sub number;
    without, nothing. *)
Lemma sub_line (self : VokabelPDFParser) (st : parse_state) (c : str) :
  starts_with_number c = false ->
  current_main st <> 0%Z ->
  if has_greek (strip c) then
    exists e,
      parse_line self st c =
      {| result := result st ++ [e]; current_main := current_main st;
         next_sub := next_sub st + 1 |}
      /\ numbering e = (current_main st, (next_sub st + 1)%Z, strip c)
  else parse_line self st c = st.
Proof.
  unfold starts_with_number, parse_line; intros Hc Hm.
  destruct (has_greek (strip c)) eqn:Hg.
  - destruct (strip c) as [|x r]; [discriminate Hg|].
    destruct (match_number (x :: r)) as [[num tail]|]; [discriminate Hc|].
    apply Z.eqb_neq in Hm; rewrite Hm.
    destruct (findall_greek (x :: r)) as [|suchwort ws] eqn:Hf.
    { apply findall_greek_nil in Hf; rewrite Hf in Hg; discriminate Hg. }
    destruct (finde_bedeutung (omega self) suchwort) as [[b g] a].
    eexists; split; reflexivity.
  - apply findall_greek_nil in Hg.
    destruct (strip c) as [|x r]; [reflexivity|].
    destruct (match_number (x :: r)) as [[num tail]|]; [discriminate Hc|].
    rewrite Hg; destruct (current_main st =? 0)%Z; reflexivity.
Qed.

Lemma sub_lines (self : VokabelPDFParser) (conts : list str) :
  forall st,
    Forall (fun c => starts_with_number c = false) conts ->
    current_main st <> 0%Z ->
    exists es,
      result (parse_lines self st conts) = result st ++ es
      /\ map numbering es =
         numbered (current_main st) (next_sub st + 1)
           (filter has_greek (map strip conts)).
Proof.
  induction conts as [|c cs IH]; intros st Hall Hm.
  - exists []; split; [symmetry; apply app_nil_r|reflexivity].
  - inversion Hall as [|c' cs' Hc Hcs]; subst.
    pose proof (sub_line self st c Hc Hm) as Hline.
    change (parse_lines self st (c :: cs))
      with (parse_lines self (parse_line self st c) cs).
    simpl map; simpl filter.
    destruct (has_greek (strip c)).
    + destruct Hline as [e [-> He]].
      destruct (IH {| result := result st ++ [e];
                      current_main := current_main st;
                      next_sub := next_sub st + 1 |} Hcs Hm)
        as [es [Hres Hnum]].
      exists (e :: es); split.
      * rewrite Hres; simpl; rewrite <- app_assoc; reflexivity.
      * simpl in *; rewrite He, Hnum; reflexivity.
    + rewrite Hline; apply IH; assumption.
Qed.

(** The main number 0 is also the mark for a page on which no main line
    has been read yet: the lines under a main line numbered 0 give no
    entries. *)
Remark sub_line_under_zero (self : VokabelPDFParser) (st : parse_state)
  (c : str) :
  starts_with_number c = false ->
  current_main st = 0%Z ->
  parse_line self st c = st.
Proof.
  unfold starts_with_number, parse_line; intros Hc Hm.
  destruct (strip c) as [|x r]; [reflexivity|].
  destruct (match_number (x :: r)) as [[num tail]|]; [discriminate Hc|].
  rewrite Hm; reflexivity.
Qed.

Lemma sub_lines_under_zero (self : VokabelPDFParser) (conts : list str) :
  forall st,
    Forall (fun c => starts_with_number c = false) conts ->
    current_main st = 0%Z ->
    parse_lines self st conts = st.
Proof.
  induction conts as [|c cs IH]; intros st Hall Hm; [reflexivity|].
  inversion Hall as [|c' cs' Hc Hcs]; subst.
  change (parse_lines self st (c :: cs))
    with (parse_lines self (parse_line self st c) cs).
  rewrite (sub_line_under_zero self st c Hc Hm); apply IH; assumption.
Qed.

Lemma gives_entry_zero (cs : list str) : filter (gives_entry 0) cs = [].
Proof. induction cs as [|c r IH]; [reflexivity|exact IH]. Qed.

Lemma gives_entry_nonzero (n : Z) (cs : list str) :
  n <> 0%Z -> filter (gives_entry n) cs = filter has_greek cs.
Proof.
  intros Hn; apply filter_ext; intros c; unfold gives_entry.
  apply Z.eqb_neq in Hn; rewrite Hn; reflexivity.
Qed.

(** C1: on one page, after the lines [pre], a main line [p] with number [n]
    followed by lines [conts] that start with no number: [p] gives an entry
    numbered [(n, 0)], whatever came before, and the lines of [conts] that
    give an entry (those with Greek; none when [n] is 0) give entries numbered
    [(n, 1)], [(n, 2)], ... in their order. *)
Theorem sub_numbering (self : VokabelPDFParser) (text : str)
  (pre : list str) (p : str) (conts : list str) :
  split 0x0A text = pre ++ p :: conts ->
  starts_with_number p = true ->
  Forall (fun c => starts_with_number c = false) conts ->
  exists e es,
    _parse_text self text =
    result (parse_lines self parse_start pre) ++ e :: es
    /\ numbering e = (line_number p, 0%Z, strip p)
    /\ map numbering es =
       numbered (line_number p) 1
         (filter (gives_entry (line_number p)) (map strip conts)).
Proof.
  intros Hsplit Hp Hconts.
  unfold _parse_text; rewrite Hsplit, parse_lines_app.
  set (st := parse_lines self parse_start pre).
  change (parse_lines self st (p :: conts))
    with (parse_lines self (parse_line self st p) conts).
  destruct (main_line self st p Hp) as [e [-> He]].
  destruct (Z.eq_dec (line_number p) 0) as [Hn|Hn].
  - exists e, []; split; [|split].
    + rewrite sub_lines_under_zero; [reflexivity|exact Hconts|exact Hn].
    + exact He.
    + rewrite Hn, gives_entry_zero; reflexivity.
  - destruct (sub_lines self conts
                {| result := result st ++ [e]; current_main := line_number p;
                   next_sub := 0 |} Hconts Hn) as [es [Hres Hnum]].
    exists e, es; split; [|split].
    + rewrite Hres; simpl; rewrite <- app_assoc; reflexivity.
    + exact He.
    + rewrite gives_entry_nonzero by exact Hn; exact Hnum.
Qed.

Lemma sub_numbering_witness :
  map numbering
    (_parse_text VokabelPDFParser_init
       (U "3μάλα sehr" ++ [0x0A] ++ U "μᾶλλον mehr" ++ [0x0A]
        ++ U "μάλιστα am meisten")) =
  [(3%Z, 0%Z, U "3μάλα sehr"); (3%Z, 1%Z, U "μᾶλλον mehr");
   (3%Z, 2%Z, U "μάλιστα am meisten")].
Proof.
  destruct (sub_numbering VokabelPDFParser_init
              (U "3μάλα sehr" ++ [0x0A] ++ U "μᾶλλον mehr" ++ [0x0A]
               ++ U "μάλιστα am meisten")
              [] (U "3μάλα sehr") [U "μᾶλλον mehr"; U "μάλιστα am meisten"])
    as [e [es [H [He Hes]]]].
  - vm_compute; reflexivity.
  - vm_compute; reflexivity.
  - constructor; [vm_compute; reflexivity|].
    constructor; [vm_compute; reflexivity|constructor].
  - rewrite H.
    change (numbering e :: map numbering es =
            [(3%Z, 0%Z, U "3μάλα sehr"); (3%Z, 1%Z, U "μᾶλλον mehr");
             (3%Z, 2%Z, U "μάλιστα am meisten")]).
    rewrite He, Hes; vm_compute; reflexivity.
Defined.

(** ** The final sort of [parse_pdf] *)

Lemma key_lt_asym (a b : Z * Z) : key_lt a b = true -> key_lt b a = false.
Proof. unfold key_lt; destruct a as [m s], b as [m' s']; simpl; lia. Qed.

Lemma ordered_cons (x y : VokabelEintrag) (r : list VokabelEintrag) :
  ordered (x :: y :: r) = true <->
  key_lt (sort_key y) (sort_key x) = false /\ ordered (y :: r) = true.
Proof.
  change (ordered (x :: y :: r))
    with (negb (key_lt (sort_key y) (sort_key x)) && ordered (y :: r)).
  rewrite andb_true_iff, negb_true_iff; tauto.
Qed.

Lemma ordered_tail (x : VokabelEintrag) (r : list VokabelEintrag) :
  ordered (x :: r) = true -> ordered r = true.
Proof.
  destruct r as [|y r]; [reflexivity|].
  intros H; apply ordered_cons in H; tauto.
Qed.

Lemma sort_insert_ordered (x : VokabelEintrag) (l : list VokabelEintrag) :
  ordered l = true -> ordered (sort_insert x l) = true.
Proof.
  induction l as [|y r IH]; intros H; [reflexivity|].
  simpl sort_insert.
  destruct (key_lt (sort_key y) (sort_key x)) eqn:E.
  - specialize (IH (ordered_tail _ _ H)).
    destruct r as [|z r'].
    + apply ordered_cons; split; [apply key_lt_asym; exact E|reflexivity].
    + apply ordered_cons in H; destruct H as [Hzy Hr].
      simpl sort_insert in *.
      destruct (key_lt (sort_key z) (sort_key x)).
      * apply ordered_cons; split; assumption.
      * apply ordered_cons; split; [apply key_lt_asym; exact E|exact IH].
  - apply ordered_cons; split; assumption.
Qed.

Lemma sort_is_ordered (l : list VokabelEintrag) : ordered (sort l) = true.
Proof.
  induction l as [|x r IH]; [reflexivity|].
  simpl; apply sort_insert_ordered; exact IH.
Qed.

Lemma sort_fixes_ordered (l : list VokabelEintrag) :
  ordered l = true -> sort l = l.
Proof.
  induction l as [|x r IH]; intros H; [reflexivity|].
  simpl; rewrite (IH (ordered_tail _ _ H)).
  destruct r as [|y r']; [reflexivity|].
  apply ordered_cons in H; destruct H as [Hyx _].
  simpl; rewrite Hyx; reflexivity.
Qed.

(** C9: sorting a list that is in the order of [(main_num, sub_num)] gives
    the list itself: no two entries change places, entries with the same key
    included, and a second sort gives the same list again. *)
Theorem sort_ordered (l : list VokabelEintrag) :
  ordered l = true -> sort l = l /\ sort (sort l) = l.
Proof.
  intros H; pose proof (sort_fixes_ordered l H) as E.
  rewrite E; split; [reflexivity|exact E].
Qed.

Lemma sort_ordered_witness :
  let e (m s : Z) (w : str) :=
    {| main_num := m; sub_num := s; griechisch := w; stammformen := w;
       bedeutungen := []; gefunden := false; original_zeile := w |} in
  let l := [e 1 0 (U "α"); e 3 0 (U "β"); e 3 1 (U "γ"); e 3 1 (U "δ");
            e 12 0 (U "ε")]%Z in
  sort l = l /\ sort (sort l) = l.
Proof.
  intros e l; apply sort_ordered; vm_compute; reflexivity.
Defined.

(** A second sort changes nothing, and so does sorting what [parse_pdf]
    returns. *)
Lemma sort_sort (l : list VokabelEintrag) : sort (sort l) = sort l.
Proof. apply sort_fixes_ordered, sort_is_ordered. Qed.

Lemma parse_pdf_sorted (self : VokabelPDFParser) (pages : list (option str)) :
  ordered (parse_pdf self pages) = true
  /\ sort (parse_pdf self pages) = parse_pdf self pages.
Proof. unfold parse_pdf; split; [apply sort_is_ordered|apply sort_sort]. Qed.

(** The sort is stable: the entries with one key keep their order. *)

Lemma sort_insert_stable (k : Z * Z) (x : VokabelEintrag)
  (l : list VokabelEintrag) :
  filter (fun e => key_eqb (sort_key e) k) (sort_insert x l) =
  filter (fun e => key_eqb (sort_key e) k) (x :: l).
Proof.
  induction l as [|y r IH]; [reflexivity|].
  simpl sort_insert.
  destruct (key_lt (sort_key y) (sort_key x)) eqn:E; [|reflexivity].
  simpl filter in *; rewrite IH.
  destruct (key_eqb (sort_key x) k) eqn:Ex; [|reflexivity].
  destruct (key_eqb (sort_key y) k) eqn:Ey; [|reflexivity].
  exfalso; revert E Ex Ey; unfold key_eqb, key_lt.
  destruct (sort_key x), (sort_key y), k; simpl; lia.
Qed.

Lemma sort_stable (k : Z * Z) (l : list VokabelEintrag) :
  filter (fun e => key_eqb (sort_key e) k) (sort l) =
  filter (fun e => key_eqb (sort_key e) k) l.
Proof.
  induction l as [|x r IH]; [reflexivity|].
  simpl sort; rewrite sort_insert_stable; simpl; rewrite IH; reflexivity.
Qed.

Lemma sort_insert_perm (x : VokabelEintrag) (l : list VokabelEintrag) :
  Permutation (x :: l) (sort_insert x l).
Proof.
  induction l as [|y r IH]; [apply Permutation_refl|].
  simpl; destruct (key_lt (sort_key y) (sort_key x)); [|apply Permutation_refl].
  eapply Permutation_trans; [apply perm_swap|apply perm_skip, IH].
Qed.

Lemma sort_perm (l : list VokabelEintrag) : Permutation l (sort l).
Proof.
  induction l as [|x r IH]; [apply perm_nil|].
  simpl; eapply Permutation_trans; [apply perm_skip, IH|apply sort_insert_perm].
Qed.

(** ** Stripping, and words without accents *)

Lemma lstrip_idem (s : str) : lstrip (lstrip s) = lstrip s.
Proof.
  induction s as [|x r IH]; simpl; [reflexivity|].
  destruct (isspace x) eqn:E; [exact IH|].
  simpl; rewrite E; reflexivity.
Qed.

Lemma lstrip_head (s : str) :
  lstrip s = [] \/ exists x r, lstrip s = x :: r /\ isspace x = false.
Proof.
  induction s as [|x r IH]; simpl; [left; reflexivity|].
  destruct (isspace x) eqn:E; [exact IH|].
  right; exists x, r; split; [reflexivity|exact E].
Qed.

Lemma lstrip_app_nonspace (l : str) (x : N) :
  isspace x = false -> lstrip (l ++ [x]) = lstrip l ++ [x].
Proof.
  intros H; induction l as [|y r IH]; simpl; [rewrite H; reflexivity|].
  destruct (isspace y); [exact IH|reflexivity].
Qed.

Lemma rstrip_cons_nonspace (x : N) (r : str) :
  isspace x = false -> rstrip (x :: r) = x :: rstrip r.
Proof.
  intros H; unfold rstrip; simpl rev.
  rewrite (lstrip_app_nonspace _ _ H), rev_app_distr; reflexivity.
Qed.

Lemma rstrip_idem (s : str) : rstrip (rstrip s) = rstrip s.
Proof. unfold rstrip; rewrite rev_involutive, lstrip_idem; reflexivity. Qed.

Lemma strip_idem (s : str) : strip (strip s) = strip s.
Proof.
  unfold strip.
  assert (H : lstrip (rstrip (lstrip s)) = rstrip (lstrip s)).
  { destruct (lstrip_head s) as [E|[x [r [E Hx]]]]; rewrite E.
    - reflexivity.
    - rewrite (rstrip_cons_nonspace _ _ Hx); simpl; rewrite Hx; reflexivity. }
  rewrite H; apply rstrip_idem.
Qed.

Lemma lstrip_In (x : N) (s : str) : In x (lstrip s) -> In x s.
Proof.
  induction s as [|y r IH]; simpl; [tauto|].
  destruct (isspace y); [auto|simpl; tauto].
Qed.

Lemma strip_In (x : N) (s : str) : In x (strip s) -> In x s.
Proof.
  unfold strip, rstrip; intros H.
  apply lstrip_In, (proj2 (in_rev _ _)), lstrip_In, (proj2 (in_rev _ _)), H.
Qed.

Lemma strip_space_cons (x : N) (s : str) :
  isspace x = true -> strip (x :: s) = strip s.
Proof. intros H; unfold strip; simpl; rewrite H; reflexivity. Qed.

Lemma accent_values (x : N) (v : str) :
  dict_get accent_map [x] = Some v ->
  length v = 1%nat /\ _remove_accents v = v /\ Forall (fun y => isspace y = false) v.
Proof.
  intros H; apply dict_get_In in H.
  assert (C : forallb
                (fun kv => (length (snd kv) =? 1)%nat
                           && str_eqb (_remove_accents (snd kv)) (snd kv)
                           && forallb (fun y => negb (isspace y)) (snd kv))
                accent_map = true) by (vm_compute; reflexivity).
  pose proof (proj1 (forallb_forall _ _) C _ H) as Hv; cbn [snd] in Hv.
  apply andb_true_iff in Hv; destruct Hv as [Hv H3].
  apply andb_true_iff in Hv; destruct Hv as [H1 H2].
  split; [apply Nat.eqb_eq; exact H1|split; [apply str_eqb_eq; exact H2|]].
  apply Forall_forall; intros y Hy.
  apply negb_true_iff; exact (proj1 (forallb_forall _ _) H3 y Hy).
Qed.

Lemma accent_keys_nonspace (x : N) (v : str) :
  dict_get accent_map [x] = Some v -> isspace x = false.
Proof.
  intros H; apply dict_get_In in H.
  assert (C : forallb (fun kv => forallb (fun y => negb (isspace y)) (fst kv))
                accent_map = true) by (vm_compute; reflexivity).
  pose proof (proj1 (forallb_forall _ _) C _ H) as Hk; cbn [fst] in Hk.
  simpl in Hk; rewrite andb_true_r in Hk; apply negb_true_iff; exact Hk.
Qed.

Lemma remove_accents_cons (x : N) (r : str) :
  _remove_accents (x :: r) =
  match dict_get accent_map [x] with Some v => v | None => [x] end
  ++ _remove_accents r.
Proof. reflexivity. Qed.

Lemma remove_accents_app (s t : str) :
  _remove_accents (s ++ t) = _remove_accents s ++ _remove_accents t.
Proof. unfold _remove_accents; rewrite map_app, concat_app; reflexivity. Qed.

Lemma remove_accents_char (x : N) :
  exists y, _remove_accents [x] = [y] /\ _remove_accents [y] = [y]
            /\ isspace y = isspace x.
Proof.
  rewrite remove_accents_cons.
  destruct (dict_get accent_map [x]) as [v|] eqn:E.
  - destruct (accent_values x v E) as [Hl [Hv Hs]].
    destruct v as [|y [|z v']]; try discriminate Hl.
    exists y; split; [reflexivity|split; [exact Hv|]].
    rewrite (accent_keys_nonspace x _ E); inversion Hs; assumption.
  - exists x; split; [reflexivity|split; [|reflexivity]].
    rewrite remove_accents_cons, E; reflexivity.
Qed.

Lemma remove_accents_cons_char (x : N) (r : str) :
  exists y, _remove_accents (x :: r) = y :: _remove_accents r
            /\ isspace y = isspace x.
Proof.
  destruct (remove_accents_char x) as [y [Hy [_ Hs]]].
  exists y; split; [|exact Hs].
  change (x :: r) with ([x] ++ r); rewrite remove_accents_app, Hy; reflexivity.
Qed.

Lemma remove_accents_length (text : str) :
  length (_remove_accents text) = length text.
Proof.
  induction text as [|x r IH]; [reflexivity|].
  destruct (remove_accents_cons_char x r) as [y [E _]].
  rewrite E; simpl; rewrite IH; reflexivity.
Qed.

Lemma remove_accents_lstrip (t : str) :
  lstrip (_remove_accents t) = _remove_accents (lstrip t).
Proof.
  induction t as [|x r IH]; [reflexivity|].
  destruct (remove_accents_cons_char x r) as [y [E Hs]].
  rewrite E; simpl; rewrite Hs.
  destruct (isspace x); [exact IH|symmetry; exact E].
Qed.

Lemma remove_accents_rev (t : str) :
  _remove_accents (rev t) = rev (_remove_accents t).
Proof.
  induction t as [|x r IH]; [reflexivity|].
  destruct (remove_accents_char x) as [y [Hy _]].
  simpl rev; rewrite remove_accents_app, IH, Hy.
  change (x :: r) with ([x] ++ r); rewrite remove_accents_app, Hy; reflexivity.
Qed.

Lemma remove_accents_strip (text : str) :
  strip (_remove_accents text) = _remove_accents (strip text).
Proof.
  unfold strip, rstrip.
  rewrite remove_accents_rev, <- remove_accents_lstrip, remove_accents_rev,
    <- remove_accents_lstrip; reflexivity.
Qed.

Lemma remove_accents_idem (text : str) :
  _remove_accents (_remove_accents text) = _remove_accents text.
Proof.
  induction text as [|x r IH]; [reflexivity|].
  destruct (remove_accents_char x) as [y [Hy [Hyy _]]].
  change (x :: r) with ([x] ++ r).
  rewrite !remove_accents_app, Hy, Hyy, IH; reflexivity.
Qed.

(** X1: [_remove_accents] works letter by letter: the text keeps its length,
    and blanks stay where they are, so taking the accents off and stripping
    can be done in either order. *)
Theorem remove_accents_shape (text : str) :
  length (_remove_accents text) = length text
  /\ strip (_remove_accents text) = _remove_accents (strip text).
Proof. split; [apply remove_accents_length|apply remove_accents_strip]. Qed.

(** X2: [_remove_accents] is idempotent: a text without accents is left as
    it is. *)
Theorem remove_accents_idempotent (text : str) :
  _remove_accents (_remove_accents text) = _remove_accents text.
Proof. apply remove_accents_idem. Qed.

(** ** Answers of [finde_bedeutung] *)

Lemma split_no_sep (sep : N) (s : str) :
  Forall (fun p => ~ In sep p) (split sep s).
Proof.
  induction s as [|x r IH]; simpl; [constructor; [tauto|constructor]|].
  destruct (x =? sep) eqn:E.
  - constructor; [simpl; tauto|exact IH].
  - apply N.eqb_neq in E.
    destruct (split sep r) as [|w ws]; [constructor; [|constructor]|].
    + simpl; intros [H|[]]; congruence.
    + inversion IH as [|w' ws' Hw Hws]; subst.
      constructor; [|exact Hws].
      simpl; intros [H|H]; [congruence|tauto].
Qed.

Lemma split_whole (sep : N) (a : str) : ~ In sep a -> split sep a = [a].
Proof.
  induction a as [|x r IH]; intros H; [reflexivity|].
  simpl in *; destruct (x =? sep) eqn:E.
  - apply N.eqb_eq in E; tauto.
  - rewrite IH by tauto; reflexivity.
Qed.

Lemma split_app_sep (sep : N) (a b : str) :
  ~ In sep a -> split sep (a ++ sep :: b) = a :: split sep b.
Proof.
  induction a as [|x r IH]; intros H.
  - simpl; rewrite N.eqb_refl; reflexivity.
  - simpl in *; destruct (x =? sep) eqn:E.
    + apply N.eqb_eq in E; tauto.
    + rewrite IH by tauto; reflexivity.
Qed.

Lemma split_bedeutung_clean (bedeutung : str) :
  Forall clean (split_bedeutung bedeutung).
Proof.
  unfold split_bedeutung; apply Forall_map.
  eapply Forall_impl; [|apply split_no_sep].
  intros p Hp; split; [apply strip_idem|].
  intros H; apply Hp, strip_In, H.
Qed.

Lemma join_cons (sep x y : str) (r : list str) :
  join sep (x :: y :: r) = x ++ sep ++ join sep (y :: r).
Proof. reflexivity. Qed.

Lemma split_join (l : list str) :
  l <> [] -> Forall clean l -> split_bedeutung (join (U "; ") l) = l.
Proof.
  unfold split_bedeutung.
  induction l as [|g r IH]; intros Hne Hl; [congruence|].
  inversion Hl as [|g' r' [Hg1 Hg2] Hr]; subst.
  destruct r as [|g2 r2].
  - simpl join; rewrite (split_whole _ _ Hg2); simpl; rewrite Hg1; reflexivity.
  - rewrite join_cons.
    change (U "; " ++ join (U "; ") (g2 :: r2))
      with (ch ";" :: 0x20 :: join (U "; ") (g2 :: r2)).
    rewrite (split_app_sep _ _ _ Hg2).
    specialize (IH ltac:(discriminate) Hr).
    change (split (ch ";") (0x20 :: join (U "; ") (g2 :: r2)))
      with (match split (ch ";") (join (U "; ") (g2 :: r2)) with
            | [] => [[0x20]]
            | w :: ws => (0x20 :: w) :: ws
            end).
    destruct (split (ch ";") (join (U "; ") (g2 :: r2))) as [|w ws];
      [discriminate IH|].
    simpl map in *; injection IH as Hw Hws.
    rewrite Hg1, (strip_space_cons 0x20 w eq_refl), Hw, Hws; reflexivity.
Qed.

Lemma answer_clean (self : OmegaWortschatz) (w : str) :
  Forall clean (or_empty (fst (fst (finde_bedeutung self w)))).
Proof.
  destruct (finde_bedeutung_cases self w) as [[[[b s] z] E]|[[h [[[b s] z] E]]|E]];
    rewrite E; simpl; try apply split_bedeutung_clean; constructor.
Qed.

Lemma answer_found (self : OmegaWortschatz) (w : str) :
  snd (fst (finde_bedeutung self w)) = true <->
  or_empty (fst (fst (finde_bedeutung self w))) <> [].
Proof.
  destruct (finde_bedeutung_cases self w) as [[[[b s] z] E]|[[h [[[b s] z] E]]|E]];
    rewrite E; simpl.
  - split; [intros _; apply split_bedeutung_not_nil|reflexivity].
  - split; [intros _; apply split_bedeutung_not_nil|reflexivity].
  - split; [discriminate|intros H; exfalso; apply H; reflexivity].
Qed.

(** X3: blanks around the word are of no account: the word and the stripped
    word have the same answer. *)
Theorem finde_bedeutung_strip (self : OmegaWortschatz) (w : str) :
  finde_bedeutung self (strip w) = finde_bedeutung self w.
Proof. unfold finde_bedeutung; rewrite strip_idem; reflexivity. Qed.






(** X6: a found answer comes from a record of the dictionary: the record of
    the word itself, of the main form its synonym names, or of a key with the
    same accent-free form; its meanings are the split meanings of that
    record. *)
Theorem found_from_record (self : OmegaWortschatz) (w : str) :
  snd (fst (finde_bedeutung self w)) = true ->
  exists k eintrag,
    In (k, eintrag) (vocab_dict self)
    /\ fst (fst (finde_bedeutung self w)) =
       Some (split_bedeutung (fst (fst eintrag)))
    /\ (k = strip w
        \/ dict_get (synonyme self) (strip w) = Some k
        \/ _remove_accents k = _remove_accents (strip w)).
Proof.
  unfold finde_bedeutung.
  destruct (dict_get (vocab_dict self) (strip w)) as [[[b s] z]|] eqn:E1.
  { intros _; exists (strip w), (b, s, z); split; [apply dict_get_In, E1|].
    split; [reflexivity|left; reflexivity]. }
  assert (Hscan :
    snd (fst (match find_no_accent (vocab_dict self) (_remove_accents (strip w)) with
              | Some (_, (bedeutung, stammformen, zusatz)) =>
                  (Some (split_bedeutung bedeutung), true,
                   strip (stammformen ++ U " " ++ zusatz))
              | None => (None, false, [])
              end)) = true ->
    exists k eintrag,
      In (k, eintrag) (vocab_dict self)
      /\ fst (fst (match find_no_accent (vocab_dict self) (_remove_accents (strip w)) with
                   | Some (_, (bedeutung, stammformen, zusatz)) =>
                       (Some (split_bedeutung bedeutung), true,
                        strip (stammformen ++ U " " ++ zusatz))
                   | None => (None, false, [])
                   end)) = Some (split_bedeutung (fst (fst eintrag)))
      /\ (k = strip w
          \/ dict_get (synonyme self) (strip w) = Some k
          \/ _remove_accents k = _remove_accents (strip w))).
  { unfold find_no_accent.
    destruct (find _ (vocab_dict self)) as [[k [[b s] z]]|] eqn:E3; [|discriminate].
    intros _; apply find_some in E3; destruct E3 as [Hin Heq]; simpl in Heq.
    exists k, (b, s, z); split; [exact Hin|split; [reflexivity|]].
    right; right; apply str_eqb_eq; exact Heq. }
  destruct (dict_get (synonyme self) (strip w)) as [h|] eqn:E2; [|exact Hscan].
  destruct (dict_get (vocab_dict self) h) as [[[b s] z]|] eqn:E3; [|exact Hscan].
  intros _; exists h, (b, s, z); split; [apply dict_get_In, E3|].
  split; [reflexivity|right; left; reflexivity].
Qed.

Lemma found_from_record_witness :
  exists k eintrag,
    In (k, eintrag) (vocab_dict OmegaWortschatz_init)
    /\ fst (fst (finde_bedeutung OmegaWortschatz_init (U "θέλω"))) =
       Some (split_bedeutung (fst (fst eintrag)))
    /\ (k = strip (U "θέλω")
        \/ dict_get (synonyme OmegaWortschatz_init) (strip (U "θέλω")) = Some k
        \/ _remove_accents k = _remove_accents (strip (U "θέλω"))).
Proof.
  apply (found_from_record OmegaWortschatz_init (U "θέλω")).
  vm_compute; reflexivity.
Defined.

(** X7: no meaning of an answer has a semicolon in it or blanks around it. *)
Theorem meanings_clean (self : OmegaWortschatz) (w : str) :
  Forall clean (or_empty (fst (fst (finde_bedeutung self w)))).
Proof. apply answer_clean. Qed.

(** X8: the meanings of a found answer, joined by [; ] as [main] shows and
    exports them, and split again as the correction does, are the same
    meanings. *)
Theorem meanings_round_trip (self : OmegaWortschatz) (w : str) :
  snd (fst (finde_bedeutung self w)) = true ->
  map strip
    (split (ch ";")
       (join (U "; ") (or_empty (fst (fst (finde_bedeutung self w)))))) =
  or_empty (fst (fst (finde_bedeutung self w))).
Proof.
  intros H; apply (split_join _ (proj1 (answer_found self w) H) (answer_clean self w)).
Qed.

Lemma meanings_round_trip_witness :
  map strip
    (split (ch ";")
       (join (U "; ")
          (or_empty (fst (fst (finde_bedeutung OmegaWortschatz_init (U "ψεύδω"))))))) =
  or_empty (fst (fst (finde_bedeutung OmegaWortschatz_init (U "ψεύδω")))).
Proof.
  apply (meanings_round_trip OmegaWortschatz_init (U "ψεύδω")).
  vm_compute; reflexivity.
Defined.

(** ** Numbers and Greek words of a line *)

Lemma int_acc_nonneg (s : str) (a : Z) :
  (0 <= a)%Z ->
  (0 <= fold_left
          (fun acc x =>
             10 * acc + Z.of_N (match digit_value x with Some v => v | None => 0 end))
          s a)%Z.
Proof.
  revert a; induction s as [|x r IH]; intros a Ha; cbn [fold_left]; [exact Ha|].
  apply IH.
  pose proof (N2Z.is_nonneg (match digit_value x with Some v => v | None => 0 end)).
  lia.
Qed.

Lemma int_nonneg (s : str) : (0 <= int s)%Z.
Proof. apply int_acc_nonneg; lia. Qed.

Lemma span_digits_spec (s : str) :
  fst (span_digits s) ++ snd (span_digits s) = s
  /\ forallb isdigit (fst (span_digits s)) = true
  /\ match snd (span_digits s) with
     | [] => True
     | x :: _ => isdigit x = false
     end.
Proof.
  induction s as [|x r IH]; simpl; [auto|].
  destruct (isdigit x) eqn:E.
  - destruct (span_digits r) as [ds tl]; simpl in *.
    destruct IH as [H1 [H2 H3]]; rewrite H1, E, H2; auto.
  - simpl; auto.
Qed.

Lemma match_number_spec (line num tail : str) :
  match_number line = Some (num, tail) ->
  line = num ++ tail /\ num <> [] /\ forallb isdigit num = true
  /\ match tail with [] => True | x :: _ => isdigit x = false end.
Proof.
  unfold match_number; pose proof (span_digits_spec line) as H.
  destruct (span_digits line) as [[|d ds] tl]; [discriminate|].
  intros E; injection E as <- <-; simpl in H.
  destruct H as [H1 [H2 H3]].
  split; [symmetry; exact H1|split; [discriminate|split; assumption]].
Qed.

Lemma greek_scan_spec (s : str) :
  forallb is_greek (fst (greek_scan s)) = true
  /\ Forall (fun w => w <> [] /\ forallb is_greek w = true) (snd (greek_scan s))
  /\ fst (greek_scan s) ++ concat (snd (greek_scan s)) = filter is_greek s.
Proof.
  induction s as [|x r IH]; simpl; [auto|].
  destruct (greek_scan r) as [cur later]; simpl in *.
  destruct IH as [H1 [H2 H3]].
  destruct (is_greek x) eqn:E; simpl.
  - rewrite E, H1, H3; auto.
  - destruct cur as [|c cur']; simpl in *; [auto|].
    split; [reflexivity|split; [|exact H3]].
    constructor; [split; [discriminate|exact H1]|exact H2].
Qed.

Lemma findall_greek_spec (s : str) :
  Forall (fun w => w <> [] /\ forallb is_greek w = true) (findall_greek s)
  /\ concat (findall_greek s) = filter is_greek s.
Proof.
  unfold findall_greek; pose proof (greek_scan_spec s) as H.
  destruct (greek_scan s) as [cur later]; simpl in H.
  destruct H as [H1 [H2 H3]].
  destruct cur as [|c cur']; [split; assumption|].
  split; [|exact H3].
  constructor; [split; [discriminate|exact H1]|exact H2].
Qed.

(** X9: the Greek words that the parser finds on a line are not empty, hold
    Greek letters only, and together are the Greek letters of the line in
    their order. *)
Theorem greek_words_of_line (s : str) :
  Forall (fun w => w <> [] /\ forallb is_greek w = true) (findall_greek s)
  /\ concat (findall_greek s) = filter is_greek s.
Proof. apply findall_greek_spec. Qed.

Lemma pick_hauptwort_spec (art ws : list str) :
  match pick_hauptwort art ws with
  | None => ws = []
  | Some w =>
      exists before after,
        ws = before ++ w :: after
        /\ forallb (fun v => str_in v art) before = true
        /\ (str_in w art = true ->
            before = [] /\ forallb (fun v => str_in v art) after = true)
  end.
Proof.
  unfold pick_hauptwort.
  destruct (find (fun w => negb (str_in w art)) ws) as [w|] eqn:E.
  - pose proof (find_some _ _ E) as [_ Hw]; apply negb_true_iff in Hw.
    induction ws as [|v r IH]; [discriminate E|].
    simpl in E; destruct (str_in v art) eqn:Ev; simpl in E.
    + destruct (IH E) as [before [after [H1 [H2 _]]]].
      exists (v :: before), after; split; [rewrite H1; reflexivity|].
      split; [simpl; rewrite Ev, H2; reflexivity|rewrite Hw; discriminate].
    + injection E as <-; exists [], r.
      split; [reflexivity|split; [reflexivity|rewrite Ev; discriminate]].
  - destruct ws as [|v r]; [reflexivity|].
    exists [], r; split; [reflexivity|split; [reflexivity|intros _]].
    split; [reflexivity|].
    apply forallb_forall; intros x Hx.
    pose proof (find_none _ _ E x (or_intror Hx)) as Hn; cbv beta in Hn.
    apply negb_false_iff in Hn; exact Hn.
Qed.

(** ** Every line of the parser *)

Lemma parse_line_cases (self : VokabelPDFParser) (st : parse_state) (line : str) :
  (match_number (strip line) = None /\ parse_line self st line = st)
  \/ (exists num tail,
        match_number (strip line) = Some (num, tail)
        /\ parse_line self st line =
           {| result := result st ++
                        [main_record self (int num) (strip tail) (strip line)];
              current_main := int num; next_sub := 0 |})
  \/ (exists suchwort ws,
        match_number (strip line) = None
        /\ current_main st <> 0%Z
        /\ findall_greek (strip line) = suchwort :: ws
        /\ parse_line self st line =
           {| result := result st ++
                        [sub_record self (current_main st) (next_sub st + 1)
                           suchwort (strip line)];
              current_main := current_main st;
              next_sub := next_sub st + 1 |}).
Proof.
  unfold parse_line, main_record, sub_record.
  destruct (strip line) as [|x r]; [left; split; reflexivity|].
  destruct (match_number (x :: r)) as [[num tail]|].
  - right; left; exists num, tail; split; [reflexivity|].
    reflexivity.
  - destruct (current_main st =? 0)%Z eqn:E; [left; split; reflexivity|].
    destruct (findall_greek (x :: r)) as [|suchwort ws];
      [left; split; reflexivity|].
    right; right; exists suchwort, ws.
    apply Z.eqb_neq in E.
    split; [reflexivity|split; [exact E|split; [reflexivity|]]].
    destruct (finde_bedeutung (omega self) suchwort) as [[b g] a]; reflexivity.
Qed.

Section Entries.

Variable self : VokabelPDFParser.
Variable P : VokabelEintrag -> Prop.

Hypothesis P_main : forall line num tail,
  match_number (strip line) = Some (num, tail) ->
  P (main_record self (int num) (strip tail) (strip line)).

Hypothesis P_sub : forall n k line suchwort ws,
  (0 < n)%Z -> (0 < k)%Z ->
  match_number (strip line) = None ->
  findall_greek (strip line) = suchwort :: ws ->
  P (sub_record self n k suchwort (strip line)).

Lemma parse_lines_Forall (lines : list str) :
  forall st,
    (0 <= current_main st)%Z -> (0 <= next_sub st)%Z ->
    Forall P (result st) ->
    Forall P (result (parse_lines self st lines)).
Proof.
  induction lines as [|line r IH]; intros st Hm Hs Hst; [exact Hst|].
  change (parse_lines self st (line :: r))
    with (parse_lines self (parse_line self st line) r).
  destruct (parse_line_cases self st line)
    as [[_ E]|[[num [tail [Hn E]]]|[w [ws [Hn [Hc [Hg E]]]]]]]; rewrite E.
  - apply IH; assumption.
  - apply IH; simpl; [apply int_nonneg|lia|].
    apply Forall_app; split; [exact Hst|].
    constructor; [apply (P_main _ _ _ Hn)|constructor].
  - apply IH; simpl; [exact Hm|lia|].
    apply Forall_app; split; [exact Hst|].
    constructor; [|constructor].
    apply (P_sub (current_main st) (next_sub st + 1) line w ws);
      [lia|lia|exact Hn|exact Hg].
Qed.

Lemma parse_text_Forall (text : str) : Forall P (_parse_text self text).
Proof.
  unfold _parse_text; apply parse_lines_Forall; simpl; try lia; constructor.
Qed.

End Entries.

(** ** [parse_pdf]: the pages together *)

Lemma parse_text_empty (self : VokabelPDFParser) : _parse_text self [] = [].
Proof. reflexivity. Qed.

Lemma pages_fold (self : VokabelPDFParser) (pages : list (option str)) :
  forall acc,
    fold_left
      (fun eintraege page =>
         match page with
         | Some ((_ :: _) as text) => eintraege ++ _parse_text self text
         | _ => eintraege
         end)
      pages acc =
    acc ++ flat_map (page_entries self) pages.
Proof.
  induction pages as [|page r IH]; intros acc; cbn [fold_left flat_map].
  - symmetry; apply app_nil_r.
  - rewrite IH; destruct page as [[|x t]|]; cbn [page_entries].
    + rewrite parse_text_empty; reflexivity.
    + rewrite <- app_assoc; reflexivity.
    + reflexivity.
Qed.

Lemma parse_pdf_sort (self : VokabelPDFParser) (pages : list (option str)) :
  parse_pdf self pages = sort (flat_map (page_entries self) pages).
Proof. unfold parse_pdf; rewrite pages_fold; reflexivity. Qed.

Lemma parse_pdf_Forall (self : VokabelPDFParser) (P : VokabelEintrag -> Prop) :
  (forall text, Forall P (_parse_text self text)) ->
  forall pages, Forall P (parse_pdf self pages).
Proof.
  intros H pages; rewrite parse_pdf_sort.
  eapply Permutation_Forall; [apply sort_perm|].
  apply Forall_flat_map, Forall_forall; intros [text|] _; simpl; [apply H|constructor].
Qed.

(** X10: [parse_pdf] loses and invents nothing: its list is in the order of
    [(main_num, sub_num)] and is a rearrangement of the entries of the pages
    (a page without text gives none); entries with the same numbers stay in
    the order of the pages. *)
Theorem parse_pdf_rearranges (self : VokabelPDFParser) (pages : list (option str)) :
  ordered (parse_pdf self pages) = true
  /\ Permutation (flat_map (page_entries self) pages) (parse_pdf self pages)
  /\ (forall k,
        filter (fun e => key_eqb (sort_key e) k) (parse_pdf self pages) =
        filter (fun e => key_eqb (sort_key e) k)
          (flat_map (page_entries self) pages)).
Proof.
  rewrite parse_pdf_sort; split; [apply sort_is_ordered|].
  split; [apply sort_perm|intros k; apply sort_stable].
Qed.

(** ** The entries *)

Lemma word_of_line (s w : str) (ws : list str) :
  findall_greek s = w :: ws -> w <> [] /\ forallb is_greek w = true /\ s <> [].
Proof.
  intros H; destruct (findall_greek_spec s) as [Hf _]; rewrite H in Hf.
  inversion Hf as [|w' ws' [H1 H2] _]; subst.
  split; [exact H1|split; [exact H2|]].
  intros ->; discriminate H.
Qed.

Lemma main_record_cases (self : VokabelPDFParser) (n : Z) (rest line : str) :
  (findall_greek rest = []
   /\ main_record self n rest line =
      {| main_num := n; sub_num := 0; griechisch := []; stammformen := rest;
         bedeutungen := []; gefunden := false; original_zeile := line |})
  \/ (exists w before after,
        w <> []
        /\ findall_greek rest = before ++ w :: after
        /\ forallb (fun v => str_in v (artikel self)) before = true
        /\ (str_in w (artikel self) = true ->
            before = [] /\ forallb (fun v => str_in v (artikel self)) after = true)
        /\ main_record self n rest line =
           {| main_num := n; sub_num := 0; griechisch := w; stammformen := rest;
              bedeutungen := or_empty (fst (fst (finde_bedeutung (omega self) w)));
              gefunden := snd (fst (finde_bedeutung (omega self) w));
              original_zeile := line |}).
Proof.
  unfold main_record.
  pose proof (pick_hauptwort_spec (artikel self) (findall_greek rest)) as H.
  destruct (pick_hauptwort (artikel self) (findall_greek rest)) as [w|].
  - destruct H as [before [after [H1 [H2 H3]]]].
    assert (Hw : w <> []).
    { destruct (findall_greek_spec rest) as [Hf _]; rewrite H1 in Hf.
      apply Forall_app in Hf; destruct Hf as [_ Hf].
      inversion Hf as [|w' ws' [Hne _] _]; exact Hne. }
    right; exists w, before, after.
    destruct w as [|y w]; [congruence|].
    destruct (finde_bedeutung (omega self) (y :: w)) as [[b g] a].
    repeat (split; [assumption|]); reflexivity.
  - left; split; [exact H|reflexivity].
Qed.

Lemma sub_record_eq (self : VokabelPDFParser) (n k : Z) (w line : str) :
  sub_record self n k w line =
  {| main_num := n; sub_num := k; griechisch := w; stammformen := line;
     bedeutungen := or_empty (fst (fst (finde_bedeutung (omega self) w)));
     gefunden := snd (fst (finde_bedeutung (omega self) w));
     original_zeile := line |}.
Proof.
  unfold sub_record.
  destruct (finde_bedeutung (omega self) w) as [[b g] a]; reflexivity.
Qed.

(** X11: the meanings and the [gefunden] mark of every entry of [parse_pdf]
    are the answer of the dictionary for its headword; an entry without
    headword has no meanings and is not found. *)
Theorem entries_looked_up (self : VokabelPDFParser) (pages : list (option str)) :
  Forall (looked_up self) (parse_pdf self pages).
Proof.
  apply parse_pdf_Forall; intros text; apply parse_text_Forall.
  - intros line num tail _.
    destruct (main_record_cases self (int num) (strip tail) (strip line))
      as [[_ E]|[w [before [after [Hw [_ [_ [_ E]]]]]]]]; rewrite E.
    + split; reflexivity.
    + unfold looked_up; simpl; destruct w; [congruence|split; reflexivity].
  - intros n k line w ws _ _ _ Hg.
    destruct (word_of_line _ _ _ Hg) as [Hw _].
    rewrite sub_record_eq; unfold looked_up; simpl.
    destruct w; [congruence|split; reflexivity].
Qed.

(** X12: for every entry of [parse_pdf], [gefunden] holds exactly when the
    entry has meanings; no meaning has a semicolon in it or blanks around it,
    so the text that [main] shows for the meanings splits back into them. *)
Theorem entries_meanings (self : VokabelPDFParser) (pages : list (option str)) :
  Forall
    (fun e =>
       (gefunden e = true <-> bedeutungen e <> [])
       /\ Forall clean (bedeutungen e)
       /\ (bedeutungen e <> [] ->
           map strip (split (ch ";") (aktuell e)) = bedeutungen e))
    (parse_pdf self pages).
Proof.
  assert (H : forall w g b,
             b = or_empty (fst (fst (finde_bedeutung (omega self) w))) ->
             g = snd (fst (finde_bedeutung (omega self) w)) ->
             (g = true <-> b <> []) /\ Forall clean b
             /\ (b <> [] -> map strip (split (ch ";")
                                         (match b with
                                          | [] => []
                                          | _ :: _ => join (U "; ") b
                                          end)) = b)).
  { intros w g b -> ->; split; [apply answer_found|].
    split; [apply answer_clean|].
    intros Hne.
    destruct (or_empty (fst (fst (finde_bedeutung (omega self) w)))) as [|x r] eqn:E;
      [congruence|].
    rewrite <- E; apply split_join; [rewrite E; discriminate|apply answer_clean]. }
  apply parse_pdf_Forall; intros text; apply parse_text_Forall.
  - intros line num tail _.
    destruct (main_record_cases self (int num) (strip tail) (strip line))
      as [[_ E]|[w [before [after [_ [_ [_ [_ E]]]]]]]]; rewrite E.
    + simpl; split; [split; [discriminate|congruence]|].
      split; [constructor|congruence].
    + apply (H w); reflexivity.
  - intros n k line w ws _ _ _ _.
    rewrite sub_record_eq; apply (H w); reflexivity.
Qed.

(** X13: the headword of every entry of [parse_pdf] holds Greek letters
    only; it is one of the Greek words of the middle text of the entry, or
    empty when that text has no Greek word, which only a main entry can be. *)
Theorem entries_headword (self : VokabelPDFParser) (pages : list (option str)) :
  Forall
    (fun e =>
       forallb is_greek (griechisch e) = true
       /\ (griechisch e = [] ->
           sub_num e = 0%Z /\ findall_greek (stammformen e) = [])
       /\ (griechisch e <> [] ->
           In (griechisch e) (findall_greek (stammformen e))))
    (parse_pdf self pages).
Proof.
  apply parse_pdf_Forall; intros text; apply parse_text_Forall.
  - intros line num tail _.
    destruct (main_record_cases self (int num) (strip tail) (strip line))
      as [[Hf E]|[w [before [after [Hw [Hf [_ [_ E]]]]]]]]; rewrite E; simpl.
    + split; [reflexivity|split; [auto|congruence]].
    + assert (Hin : In w (findall_greek (strip tail))).
      { rewrite Hf; apply in_or_app; right; left; reflexivity. }
      split; [|split; [congruence|intros _; exact Hin]].
      destruct (findall_greek_spec (strip tail)) as [HF _].
      exact (proj2 (proj1 (Forall_forall _ _) HF w Hin)).
  - intros n k line w ws _ _ _ Hg.
    destruct (word_of_line _ _ _ Hg) as [Hw [Hgr _]].
    rewrite sub_record_eq; simpl.
    split; [exact Hgr|split; [congruence|intros _; rewrite Hg; left; reflexivity]].
Qed.

(** X14: articles are passed over for the headword of a main entry: the
    Greek words before the headword are articles, and the headword is itself
    an article only when it is the first Greek word and all the others are
    articles too.  The headword of a sub entry is its first Greek word. *)
Theorem entries_articles (self : VokabelPDFParser) (pages : list (option str)) :
  Forall
    (fun e =>
       griechisch e <> [] ->
       exists before after,
         findall_greek (stammformen e) = before ++ griechisch e :: after
         /\ forallb (fun v => str_in v (artikel self)) before = true
         /\ (str_in (griechisch e) (artikel self) = true ->
             sub_num e = 0%Z ->
             before = [] /\ forallb (fun v => str_in v (artikel self)) after = true)
         /\ (sub_num e <> 0%Z -> before = []))
    (parse_pdf self pages).
Proof.
  apply parse_pdf_Forall; intros text; apply parse_text_Forall.
  - intros line num tail _.
    destruct (main_record_cases self (int num) (strip tail) (strip line))
      as [[Hf E]|[w [before [after [Hw [Hf [Hb [Ha E]]]]]]]]; rewrite E; simpl.
    + congruence.
    + intros _; exists before, after.
      split; [exact Hf|split; [exact Hb|split; [intros H _; exact (Ha H)|congruence]]].
  - intros n k line w ws _ Hk0 _ Hg.
    rewrite sub_record_eq; simpl; intros _; exists [], ws.
    split; [exact Hg|split; [reflexivity|split; [|reflexivity]]].
    intros _ Hk; lia.
Qed.

(** X15: the numbers of every entry of [parse_pdf] are not negative, and a
    sub entry stands under a main number that is not 0. *)
Theorem entries_numbers (self : VokabelPDFParser) (pages : list (option str)) :
  Forall
    (fun e =>
       (0 <= main_num e)%Z /\ (0 <= sub_num e)%Z
       /\ (sub_num e <> 0%Z -> (0 < main_num e)%Z))
    (parse_pdf self pages).
Proof.
  apply parse_pdf_Forall; intros text; apply parse_text_Forall.
  - intros line num tail _.
    pose proof (int_nonneg num) as Hn.
    destruct (main_record_cases self (int num) (strip tail) (strip line))
      as [[_ E]|[w [before [after [_ [_ [_ [_ E]]]]]]]]; rewrite E; simpl; lia.
  - intros n k line w ws Hn Hk _ _; rewrite sub_record_eq; simpl; lia.
Qed.

(** X16: every entry of [parse_pdf] keeps its line, stripped and not empty.
    The line of a main entry is a run of digits, whose value is the main
    number, and a rest, which stripped is the middle text; the line of a sub
    entry starts with no digit and is its middle text. *)
Theorem entries_lines (self : VokabelPDFParser) (pages : list (option str)) :
  Forall
    (fun e =>
       original_zeile e <> []
       /\ strip (original_zeile e) = original_zeile e
       /\ (sub_num e = 0%Z ->
           exists num tail,
             original_zeile e = num ++ tail /\ num <> []
             /\ forallb isdigit num = true /\ int num = main_num e
             /\ stammformen e = strip tail)
       /\ (sub_num e <> 0%Z ->
           stammformen e = original_zeile e
           /\ match_number (original_zeile e) = None))
    (parse_pdf self pages).
Proof.
  apply parse_pdf_Forall; intros text; apply parse_text_Forall.
  - intros line num tail Hm.
    destruct (match_number_spec _ _ _ Hm) as [H1 [H2 [H3 _]]].
    assert (Hne : strip line <> []).
    { rewrite H1; destruct num; [congruence|discriminate]. }
    assert (F : forall e, original_zeile e = strip line -> main_num e = int num ->
                          sub_num e = 0%Z -> stammformen e = strip tail ->
      original_zeile e <> []
      /\ strip (original_zeile e) = original_zeile e
      /\ (sub_num e = 0%Z ->
          exists num tail,
            original_zeile e = num ++ tail /\ num <> []
            /\ forallb isdigit num = true /\ int num = main_num e
            /\ stammformen e = strip tail)
      /\ (sub_num e <> 0%Z ->
          stammformen e = original_zeile e
          /\ match_number (original_zeile e) = None)).
    { intros e E1 E2 E3 E4; rewrite E1.
      split; [exact Hne|split; [apply strip_idem|split; [|congruence]]].
      intros _; exists num, tail; rewrite E2, E4; auto. }
    destruct (main_record_cases self (int num) (strip tail) (strip line))
      as [[_ E]|[w [before [after [_ [_ [_ [_ E]]]]]]]]; rewrite E;
      apply F; reflexivity.
  - intros n k line w ws _ Hk Hm Hg.
    destruct (word_of_line _ _ _ Hg) as [_ [_ Hne]].
    rewrite sub_record_eq; simpl.
    split; [exact Hne|split; [apply strip_idem|split; [lia|auto]]].
Qed.

(** ** The numbering on one page *)

Lemma last_key_snoc (prev : Z * Z) (r : list VokabelEintrag) (e : VokabelEintrag) :
  last_key prev (r ++ [e]) = sort_key e.
Proof. unfold last_key; rewrite fold_left_app; reflexivity. Qed.

Lemma chain_snoc (r : list VokabelEintrag) (e : VokabelEintrag) :
  forall prev, chain prev (r ++ [e]) = chain prev r && follows (last_key prev r) e.
Proof.
  induction r as [|x r IH]; intros prev; simpl.
  - apply andb_true_r.
  - rewrite IH, andb_assoc; reflexivity.
Qed.

Lemma page_numbered_snoc (r : list VokabelEintrag) (e : VokabelEintrag) :
  page_numbered (r ++ [e]) =
  match r with
  | [] => (sub_num e =? 0)%Z
  | _ :: _ => page_numbered r && follows (last_key (0, 0)%Z r) e
  end.
Proof.
  destruct r as [|x r]; simpl; [apply andb_true_r|].
  rewrite chain_snoc, andb_assoc; reflexivity.
Qed.

Lemma main_record_key (self : VokabelPDFParser) (n : Z) (rest line : str) :
  sort_key (main_record self n rest line) = (n, 0%Z).
Proof.
  destruct (main_record_cases self n rest line)
    as [[_ E]|[w [before [after [_ [_ [_ [_ E]]]]]]]]; rewrite E; reflexivity.
Qed.

Lemma sub_record_key (self : VokabelPDFParser) (n k : Z) (w line : str) :
  sort_key (sub_record self n k w line) = (n, k).
Proof. rewrite sub_record_eq; reflexivity. Qed.

Lemma page_invariant (self : VokabelPDFParser) (lines : list str) :
  forall st,
    page_numbered (result st) = true ->
    (current_main st, next_sub st) = last_key (0, 0)%Z (result st) ->
    page_numbered (result (parse_lines self st lines)) = true.
Proof.
  induction lines as [|line r IH]; intros st Hp Hk; [exact Hp|].
  change (parse_lines self st (line :: r))
    with (parse_lines self (parse_line self st line) r).
  destruct (parse_line_cases self st line)
    as [[_ E]|[[num [tail [Hn E]]]|[w [ws [Hn [Hc [Hg E]]]]]]]; rewrite E.
  - apply IH; assumption.
  - apply IH; simpl.
    + rewrite page_numbered_snoc.
      pose proof (main_record_key self (int num) (strip tail) (strip line)) as K.
      unfold sort_key in K; injection K as _ K2.
      unfold follows; rewrite K2; simpl.
      destruct (result st); [reflexivity|rewrite Hp; reflexivity].
    + rewrite last_key_snoc, main_record_key; reflexivity.
  - apply IH; simpl.
    + rewrite page_numbered_snoc.
      pose proof (sub_record_key self (current_main st) (next_sub st + 1) w
                    (strip line)) as K.
      unfold sort_key in K; injection K as K1 K2.
      destruct (result st) as [|x r'] eqn:Er.
      * simpl in Hk; injection Hk as Hk1 _; congruence.
      * rewrite Hp, <- Hk; unfold follows; rewrite K1, K2; simpl.
        rewrite !Z.eqb_refl; simpl; apply orb_true_r.
    + rewrite last_key_snoc, sub_record_key; reflexivity.
Qed.

(** X17: the entries of one page are numbered as a list: the first is a
    main entry, and every further entry is a main entry or the next sub entry
    (same main number, sub number one more) of the entry before it. *)
Theorem page_is_numbered (self : VokabelPDFParser) (text : str) :
  page_numbered (_parse_text self text) = true.
Proof. unfold _parse_text; apply page_invariant; reflexivity. Qed.

Lemma page_head (self : VokabelPDFParser) (text : str) :
  _parse_text self text = [] \/
  exists e r, _parse_text self text = e :: r /\ sub_num e = 0%Z.
Proof.
  pose proof (page_invariant self (split 0x0A text) parse_start eq_refl eq_refl) as H.
  fold (_parse_text self text) in H.
  destruct (_parse_text self text) as [|e r]; [left; reflexivity|right].
  exists e, r; split; [reflexivity|].
  simpl in H; apply andb_true_iff in H; destruct H as [H _].
  apply Z.eqb_eq; exact H.
Qed.

(** X18: the lines of a page before its first line with a number give no
    entries (the parser does not keep the main number of the page before): a
    page on which no line starts with a number gives none at all. *)
Theorem lines_before_first_number (self : VokabelPDFParser) (text : str)
  (pre rest : list str) :
  split 0x0A text = pre ++ rest ->
  Forall (fun c => starts_with_number c = false) pre ->
  _parse_text self text = result (parse_lines self parse_start rest).
Proof.
  intros Hs Hpre; unfold _parse_text.
  rewrite Hs, parse_lines_app, (sub_lines_under_zero self pre parse_start Hpre eq_refl).
  reflexivity.
Qed.

Lemma lines_before_first_number_witness :
  _parse_text VokabelPDFParser_init (U "μᾶλλον" ++ [0x0A] ++ U "μάλιστα") =
  result (parse_lines VokabelPDFParser_init parse_start []).
Proof.
  apply (lines_before_first_number VokabelPDFParser_init
           (U "μᾶλλον" ++ [0x0A] ++ U "μάλιστα") [U "μᾶλλον"; U "μάλιστα"] []).
  - vm_compute; reflexivity.
  - constructor; [vm_compute; reflexivity|].
    constructor; [vm_compute; reflexivity|constructor].
Defined.

Lemma flat_map_not_nil {A B} (f : A -> list B) (l : list A) :
  flat_map f l <> [] -> exists x, In x l /\ f x <> [].
Proof.
  induction l as [|x r IH]; simpl; [congruence|].
  destruct (f x) as [|y ys] eqn:E; simpl.
  - intros H; destruct (IH H) as [x' [Hin Hx']]; exists x'; auto.
  - intros _; exists x; split; [auto|rewrite E; discriminate].
Qed.

Lemma main_entry_exists (self : VokabelPDFParser) (pages : list (option str)) :
  parse_pdf self pages <> [] ->
  exists e, In e (parse_pdf self pages) /\ sub_num e = 0%Z.
Proof.
  rewrite parse_pdf_sort; intros H.
  assert (Hf : flat_map (page_entries self) pages <> []).
  { intros E; rewrite E in H; apply H; reflexivity. }
  destruct (flat_map_not_nil _ _ Hf) as [[text|] [Hin Hne]]; [|simpl in Hne; congruence].
  simpl in Hne; destruct (page_head self text) as [E|[e [r [E He]]]]; [congruence|].
  exists e; split; [|exact He].
  eapply Permutation_in; [apply sort_perm|].
  apply in_flat_map; exists (Some text); split; [exact Hin|].
  simpl; rewrite E; left; reflexivity.
Qed.

(** X19: when [parse_pdf] gives entries at all, one of them is a main entry:
    the share of found main words that [main] shows divides by a number of
    main entries that is not 0. *)
Theorem main_entries_exist (self : VokabelPDFParser) (pages : list (option str)) :
  parse_pdf self pages <> [] ->
  haupt_eintraege (parse_pdf self pages) <> []
  /\ (0 < length (haupt_eintraege (parse_pdf self pages)))%nat.
Proof.
  intros H; destruct (main_entry_exists self pages H) as [e [Hin He]].
  assert (Hh : In e (haupt_eintraege (parse_pdf self pages))).
  { apply filter_In; split; [exact Hin|apply Z.eqb_eq; exact He]. }
  destruct (haupt_eintraege (parse_pdf self pages)); [destruct Hh|].
  split; [discriminate|simpl; lia].
Qed.

Lemma main_entries_exist_witness :
  haupt_eintraege
    (parse_pdf VokabelPDFParser_init [None; Some (U "3μάλα" ++ [0x0A] ++ U "μᾶλλον")])
  <> []
  /\ Nat.lt 0
       (length
          (haupt_eintraege
             (parse_pdf VokabelPDFParser_init
                [None; Some (U "3μάλα" ++ [0x0A] ++ U "μᾶλλον")]))).
Proof.
  apply main_entries_exist.
  vm_compute; discriminate.
Defined.

(** ** The manual correction and the table *)

Lemma korrigiere_cases (e : VokabelEintrag) (neu : str) :
  korrigiere e neu = e
  \/ (neu <> [] /\ neu <> aktuell e
      /\ korrigiere e neu =
         {| main_num := main_num e; sub_num := sub_num e;
            griechisch := griechisch e; stammformen := stammformen e;
            bedeutungen := split_bedeutung neu;
            gefunden := true; original_zeile := original_zeile e |}).
Proof.
  unfold korrigiere; destruct neu as [|x r]; [left; reflexivity|].
  destruct (str_eqb (x :: r) (aktuell e)) eqn:E; simpl; [left; reflexivity|].
  right; split; [discriminate|split; [|reflexivity]].
  intros H; apply str_eqb_eq in H; congruence.
Qed.

Lemma korrigiere_found (e : VokabelEintrag) (neu : str) :
  (gefunden e = true <-> bedeutungen e <> []) ->
  (gefunden (korrigiere e neu) = true <-> bedeutungen (korrigiere e neu) <> []).
Proof.
  intros H; destruct (korrigiere_cases e neu) as [->|[_ [_ ->]]]; [exact H|].
  simpl; split; [intros _; apply split_bedeutung_not_nil|reflexivity].
Qed.

(** X20: the manual correction keeps what the parser has set up: an entry
    is still marked found exactly when it has meanings, an entry that was
    found stays found, and its numbers, headword and texts are as before. *)
Theorem korrigiere_keeps (e : VokabelEintrag) (neu : str) :
  (gefunden e = true <-> bedeutungen e <> []) ->
  (gefunden (korrigiere e neu) = true <-> bedeutungen (korrigiere e neu) <> [])
  /\ (gefunden e = true -> gefunden (korrigiere e neu) = true)
  /\ numbering (korrigiere e neu) = numbering e
  /\ griechisch (korrigiere e neu) = griechisch e
  /\ stammformen (korrigiere e neu) = stammformen e.
Proof.
  intros H; split; [apply korrigiere_found, H|].
  destruct (korrigiere_cases e neu) as [->|[_ [_ ->]]]; simpl; auto.
Qed.

Lemma korrigiere_keeps_witness :
  let e :=
    {| main_num := 7; sub_num := 0; griechisch := []; stammformen := U "Haus";
       bedeutungen := []; gefunden := false; original_zeile := U "7 Haus" |} in
  (gefunden (korrigiere e (U "Haus; Heim")) = true <->
   bedeutungen (korrigiere e (U "Haus; Heim")) <> [])
  /\ (gefunden e = true -> gefunden (korrigiere e (U "Haus; Heim")) = true)
  /\ numbering (korrigiere e (U "Haus; Heim")) = numbering e
  /\ griechisch (korrigiere e (U "Haus; Heim")) = griechisch e
  /\ stammformen (korrigiere e (U "Haus; Heim")) = stammformen e.
Proof.
  intros e; apply (korrigiere_keeps e (U "Haus; Heim")).
  simpl; split; [discriminate|congruence].
Defined.

Lemma zeile_bedeutung (e : VokabelEintrag) :
  (gefunden e = true <-> bedeutungen e <> []) ->
  nth 3 (tabellen_zeile e) [] =
  if gefunden e then join (U "; ") (bedeutungen e) else nicht_gefunden.
Proof.
  intros H; unfold tabellen_zeile; cbn [nth].
  destruct (bedeutungen e) as [|b r] eqn:E.
  - destruct (gefunden e); [|reflexivity].
    exfalso; apply (proj1 H eq_refl); reflexivity.
  - rewrite (proj2 H) by discriminate; reflexivity.
Qed.

Lemma parse_pdf_found (self : VokabelPDFParser) (pages : list (option str)) :
  Forall (fun e => gefunden e = true <-> bedeutungen e <> []) (parse_pdf self pages).
Proof.
  apply parse_pdf_Forall; intros text; apply parse_text_Forall.
  - intros line num tail _.
    destruct (main_record_cases self (int num) (strip tail) (strip line))
      as [[_ E]|[w [before [after [_ [_ [_ [_ E]]]]]]]]; rewrite E; simpl.
    + split; [discriminate|congruence].
    + apply answer_found.
  - intros n k line w ws _ _ _ _; rewrite sub_record_eq; apply answer_found.
Qed.

Lemma korrigierte_found (l korrigierte : list VokabelEintrag) :
  Forall (fun e => gefunden e = true <-> bedeutungen e <> []) l ->
  Forall2 (fun e k => exists neu, k = korrigiere e neu) l korrigierte ->
  Forall (fun e => gefunden e = true <-> bedeutungen e <> []) korrigierte.
Proof.
  intros Hl H2; induction H2 as [|e k l' ks [neu ->] _ IH]; [constructor|].
  inversion Hl as [|e' l'' He Hl']; subst.
  constructor; [apply korrigiere_found, He|apply IH, Hl'].
Qed.

Lemma korrigiere_all (l : list VokabelEintrag) (neu : str) :
  Forall2 (fun e k => exists neu, k = korrigiere e neu) l
    (map (fun e => korrigiere e neu) l).
Proof.
  induction l as [|e r IH]; constructor; [exists neu; reflexivity|exact IH].
Qed.

(** X21: in the table of [erstelle_pdf] for the entries of [parse_pdf], each
    with or without a manual correction, the column of the meanings shows
    the joined meanings of an entry that is marked found and the not-found
    text of an entry that is not; the table has the head row and one row of
    four cells for each entry. *)
Theorem table_meanings (self : VokabelPDFParser) (pages : list (option str))
  (korrigierte : list VokabelEintrag) :
  Forall2 (fun e k => exists neu, k = korrigiere e neu)
    (parse_pdf self pages) korrigierte ->
  map (fun zeile => nth 3 zeile []) (erstelle_pdf_data korrigierte) =
  U "Bedeutungen"
  :: map (fun e => if gefunden e then join (U "; ") (bedeutungen e)
                   else nicht_gefunden)
       korrigierte
  /\ length (erstelle_pdf_data korrigierte) = S (length (parse_pdf self pages))
  /\ Forall (fun zeile => length zeile = 4%nat) (erstelle_pdf_data korrigierte).
Proof.
  intros H2; unfold erstelle_pdf_data.
  pose proof (korrigierte_found _ _ (parse_pdf_found self pages) H2) as Hk.
  split; [|split].
  - cbn [map]; f_equal; rewrite map_map.
    apply map_ext_in; intros e He; apply zeile_bedeutung.
    exact (proj1 (Forall_forall _ _) Hk e He).
  - simpl; rewrite length_map, (Forall2_length H2); reflexivity.
  - constructor; [reflexivity|].
    apply Forall_map, Forall_forall; intros e _; reflexivity.
Qed.

Lemma table_meanings_witness :
  let eintraege :=
    parse_pdf VokabelPDFParser_init [Some (U "7 Haus" ++ [0x0A] ++ U "3μάλα")] in
  let korrigierte := map (fun e => korrigiere e (U "Haus; Heim")) eintraege in
  map (fun zeile => nth 3 zeile []) (erstelle_pdf_data korrigierte) =
  U "Bedeutungen"
  :: map (fun e => if gefunden e then join (U "; ") (bedeutungen e)
                   else nicht_gefunden)
       korrigierte
  /\ length (erstelle_pdf_data korrigierte) = S (length eintraege)
  /\ Forall (fun zeile => length zeile = 4%nat) (erstelle_pdf_data korrigierte).
Proof.
  intros eintraege korrigierte.
  exact (table_meanings VokabelPDFParser_init _ korrigierte
           (korrigiere_all eintraege (U "Haus; Heim"))).
Defined.

(** ** The number column *)

Lemma digit_value_ascii (d : N) : d < 10 -> digit_value (0x30 + d) = Some d.
Proof.
  intros H; unfold digit_value.
  change decimal_zeros with (0x30 :: tl decimal_zeros); cbn [find].
  replace ((0x30 <=? 0x30 + d) && (0x30 + d <=? 0x30 + 9)) with true.
  - f_equal; lia.
  - symmetry; apply andb_true_iff; split; apply N.leb_le; lia.
Qed.

Lemma size_nat_bound (p : positive) : N.pos p < 2 ^ N.of_nat (Pos.size_nat p).
Proof.
  induction p as [p IH|p IH|]; cbn [Pos.size_nat];
    rewrite ?Nat2N.inj_succ, ?N.pow_succ_r'; lia.
Qed.

Lemma decimal_int (fuel : nat) :
  forall n acc a,
    n < 2 ^ N.of_nat fuel ->
    (forall a', fold_left
                  (fun acc x =>
                     (10 * acc + Z.of_N (match digit_value x with
                                         | Some v => v | None => 0 end))%Z)
                  acc a' = a a') ->
    fold_left
      (fun acc x =>
         (10 * acc + Z.of_N (match digit_value x with Some v => v | None => 0 end))%Z)
      (decimal fuel n acc) 0%Z = a (Z.of_N n).
Proof.
  induction fuel as [|f IH]; intros n acc a Hn Ha.
  - simpl in Hn; assert (n = 0) by lia; subst n; simpl; apply Ha.
  - cbn [decimal].
    assert (Hd : n mod 10 < 10) by (apply N.mod_lt; lia).
    pose proof (N.div_mod n 10 ltac:(lia)) as Hdm.
    destruct (n / 10 =? 0) eqn:E.
    + apply N.eqb_eq in E; cbn [fold_left].
      rewrite (digit_value_ascii _ Hd), Ha; f_equal; lia.
    + apply N.eqb_neq in E.
      rewrite (IH (n / 10) _ (fun q => a (10 * q + Z.of_N (n mod 10))%Z)).
      * f_equal; lia.
      * rewrite Nat2N.inj_succ, N.pow_succ_r' in Hn.
        apply N.Div0.div_lt_upper_bound; lia.
      * intros a'; cbn [fold_left]; rewrite (digit_value_ascii _ Hd); apply Ha.
Qed.

Lemma decimal_digits (fuel : nat) :
  forall n acc,
    forallb isdigit acc = true -> forallb isdigit (decimal fuel n acc) = true.
Proof.
  induction fuel as [|f IH]; intros n acc Ha; [exact Ha|].
  cbn [decimal].
  assert (Hd : n mod 10 < 10) by (apply N.mod_lt; lia).
  assert (Hacc : forallb isdigit ((0x30 + n mod 10) :: acc) = true).
  { cbn [forallb]; unfold isdigit at 1; rewrite (digit_value_ascii _ Hd); exact Ha. }
  destruct (n / 10 =? 0); [exact Hacc|apply IH, Hacc].
Qed.

Lemma decimal_acc_not_nil (fuel : nat) :
  forall n acc, acc <> [] -> decimal fuel n acc <> [].
Proof.
  induction fuel as [|f IH]; intros n acc Ha; [exact Ha|].
  cbn [decimal]; destruct (n / 10 =? 0); [discriminate|apply IH; discriminate].
Qed.

Lemma decimal_not_nil (fuel : nat) (n : N) :
  decimal (S fuel) n [] <> [].
Proof.
  cbn [decimal]; destruct (n / 10 =? 0);
    [discriminate|apply decimal_acc_not_nil; discriminate].
Qed.

Lemma span_digits_all (s : str) :
  forallb isdigit s = true -> span_digits s = (s, []).
Proof.
  induction s as [|x r IH]; [reflexivity|].
  cbn [forallb span_digits]; intros H; apply andb_true_iff in H.
  destruct H as [Hx Hr]; rewrite Hx, (IH Hr); reflexivity.
Qed.

Lemma str_of_int_spec (z : Z) :
  (0 <= z)%Z ->
  match_number (str_of_int z) = Some (str_of_int z, [])
  /\ int (str_of_int z) = z.
Proof.
  intros Hz; destruct z as [|p|p]; [split; reflexivity| |lia].
  unfold str_of_int.
  assert (Hd : forallb isdigit (decimal (Pos.size_nat p) (N.pos p) []) = true)
    by (apply decimal_digits; reflexivity).
  assert (Hn : decimal (Pos.size_nat p) (N.pos p) [] <> []).
  { destruct p; cbn [Pos.size_nat]; apply decimal_not_nil. }
  split.
  - unfold match_number; rewrite (span_digits_all _ Hd).
    destruct (decimal (Pos.size_nat p) (N.pos p) []); [congruence|reflexivity].
  - unfold int.
    rewrite (decimal_int (Pos.size_nat p) (N.pos p) [] (fun q => q)
               (size_nat_bound p) (fun a' => eq_refl)).
    reflexivity.
Qed.

(** X22: in the table of [erstelle_pdf] for the entries of [parse_pdf], the
    number cell of a main entry is a run of decimal digits that the parser
    would read as a number again, with the main number as its value; the
    number cell of a sub entry is empty. *)
Theorem table_numbers (self : VokabelPDFParser) (pages : list (option str)) :
  Forall
    (fun e =>
       if (sub_num e =? 0)%Z then
         match_number (nth 0 (tabellen_zeile e) []) =
         Some (nth 0 (tabellen_zeile e) [], [])
         /\ int (nth 0 (tabellen_zeile e) []) = main_num e
       else nth 0 (tabellen_zeile e) [] = [])
    (parse_pdf self pages).
Proof.
  assert (H : forall e, (0 <= main_num e)%Z ->
             if (sub_num e =? 0)%Z then
               match_number (nth 0 (tabellen_zeile e) []) =
               Some (nth 0 (tabellen_zeile e) [], [])
               /\ int (nth 0 (tabellen_zeile e) []) = main_num e
             else nth 0 (tabellen_zeile e) [] = []).
  { intros e He; unfold tabellen_zeile; cbn [nth].
    destruct (sub_num e =? 0)%Z; [apply str_of_int_spec, He|reflexivity]. }
  apply parse_pdf_Forall; intros text; apply parse_text_Forall.
  - intros line num tail _; apply H.
    pose proof (int_nonneg num).
    destruct (main_record_cases self (int num) (strip tail) (strip line))
      as [[_ E]|[w [before [after [_ [_ [_ [_ E]]]]]]]]; rewrite E; simpl; lia.
  - intros n k line w ws Hn _ _ _; apply H; rewrite sub_record_eq; simpl; lia.
Qed.

(** ** The two parsers *)





(** ** The first parser *)

Lemma ins_lines_raise (self : Ins.VokabelPDFParser) (lines : list str) :
  fold_left (Ins.parse_line self) lines None = None.
Proof. induction lines as [|l r IH]; [reflexivity|exact IH]. Qed.

Lemma ins_class_does_not_compile :
  Ins.class_compiles Ins.greek_pattern = false.
Proof. vm_compute; reflexivity. Qed.

(** X24: the parser of [ins.py] gives no entries for any text: two ranges
    of the character class of its pattern run backwards ([ἰ-ΐ] and [ὐ-ϋ]), so
    the search in the first line raises [re.error]. *)
Theorem ins_parser_raises (self : Ins.VokabelPDFParser) (text : str) :
  Ins._parse_text self text = None
  /\ filter (fun r => negb (fst r <=? snd r)) Ins.greek_pattern =
     [(ch "ἰ", ch "ΐ"); (ch "ὐ", ch "ϋ")].
Proof.
  split; [|vm_compute; reflexivity].
  unfold Ins._parse_text.
  destruct (split 0x0A text) as [|l r] eqn:E; [exact (match split_not_nil _ _ E with end)|].
  cbn [fold_left Ins.parse_line]; unfold Ins.re_findall.
  rewrite ins_class_does_not_compile, ins_lines_raise; reflexivity.
Qed.

(** ** Pages and joined texts *)

Lemma split_app (sep : N) (a b : str) :
  split sep (a ++ sep :: b) = split sep a ++ split sep b.
Proof.
  induction a as [|x r IH]; simpl.
  - rewrite N.eqb_refl; reflexivity.
  - destruct (x =? sep); [rewrite IH; reflexivity|].
    rewrite IH; destruct (split sep r) as [|w ws] eqn:E;
      [exact (match split_not_nil _ _ E with end)|reflexivity].
Qed.

Lemma parse_line_frame (self : VokabelPDFParser) (st : parse_state) (line : str) :
  parse_line self st line =
  {| result :=
       result st ++
       result (parse_line self
                 {| result := []; current_main := current_main st;
                    next_sub := next_sub st |} line);
     current_main :=
       current_main (parse_line self
                       {| result := []; current_main := current_main st;
                          next_sub := next_sub st |} line);
     next_sub :=
       next_sub (parse_line self
                   {| result := []; current_main := current_main st;
                      next_sub := next_sub st |} line) |}.
Proof.
  destruct st as [res cm ns]; unfold parse_line; cbn [result current_main next_sub].
  destruct (strip line) as [|x r]; [cbn; rewrite app_nil_r; reflexivity|].
  destruct (match_number (x :: r)) as [[num tail]|].
  - destruct (pick_hauptwort (artikel self) (findall_greek (strip tail)))
      as [[|y w]|]; try reflexivity;
      try (destruct (finde_bedeutung (omega self) (y :: w)) as [[b g] a];
           reflexivity).
  - destruct (cm =? 0)%Z; [cbn; rewrite app_nil_r; reflexivity|].
    destruct (findall_greek (x :: r)) as [|w ws];
      [cbn; rewrite app_nil_r; reflexivity|].
    destruct (finde_bedeutung (omega self) w) as [[b g] a]; reflexivity.
Qed.

Lemma parse_lines_frame (self : VokabelPDFParser) (lines : list str) :
  forall res cm ns,
    result (parse_lines self {| result := res; current_main := cm; next_sub := ns |} lines) =
    res ++
    result (parse_lines self {| result := []; current_main := cm; next_sub := ns |} lines).
Proof.
  induction lines as [|line r IH]; intros res cm ns.
  - symmetry; apply app_nil_r.
  - change (parse_lines self ?s (line :: r))
      with (parse_lines self (parse_line self s line) r).
    rewrite (parse_line_frame self {| result := res; current_main := cm; next_sub := ns |}).
    cbn [result current_main next_sub].
    rewrite IH.
    destruct (parse_line self {| result := []; current_main := cm; next_sub := ns |} line)
      as [res0 cm0 ns0] eqn:E0.
    cbn [result current_main next_sub].
    rewrite (IH res0 cm0 ns0), app_assoc; reflexivity.
Qed.

(** X25: parsing page by page and parsing the joined text give the same
    entries when the second page starts with a numbered line (the numbering
    of one page is not carried to the next, and a numbered line sets it
    anew). *)
Theorem pages_joined (self : VokabelPDFParser) (text1 text2 : str) :
  starts_with_number (hd [] (split 0x0A text2)) = true ->
  _parse_text self (text1 ++ 0x0A :: text2) =
  _parse_text self text1 ++ _parse_text self text2.
Proof.
  intros Hp; unfold _parse_text; rewrite split_app, parse_lines_app.
  destruct (split 0x0A text2) as [|p rest]; [discriminate Hp|].
  cbn [hd] in Hp.
  destruct (parse_lines self parse_start (split 0x0A text1)) as [res cm ns].
  change (parse_lines self ?s (p :: rest))
    with (parse_lines self (parse_line self s p) rest).
  unfold starts_with_number in Hp.
  destruct (parse_line_cases self {| result := res; current_main := cm; next_sub := ns |} p)
    as [[Hn _]|[[num [tail [Hn E]]]|[w [ws [Hn _]]]]];
    try (rewrite Hn in Hp; discriminate Hp).
  destruct (parse_line_cases self parse_start p)
    as [[Hn' _]|[[num' [tail' [Hn' E']]]|[w' [ws' [Hn' _]]]]];
    try (rewrite Hn' in Hp; discriminate Hp).
  rewrite Hn in Hn'; injection Hn' as <- <-.
  rewrite E, E'; cbn [result].
  rewrite (parse_lines_frame self rest (res ++ _)).
  rewrite (parse_lines_frame self rest ([] ++ _)).
  rewrite <- app_assoc; reflexivity.
Qed.

Lemma pages_joined_witness :
  _parse_text VokabelPDFParser_init
    ((U "3μάλα" ++ [0x0A] ++ U "μᾶλλον") ++ 0x0A :: U "4 μέγας") =
  _parse_text VokabelPDFParser_init (U "3μάλα" ++ [0x0A] ++ U "μᾶλλον")
  ++ _parse_text VokabelPDFParser_init (U "4 μέγας").
Proof.
  apply pages_joined; vm_compute; reflexivity.
Defined.
